(** * mltools.model: the configuration-driven model factory and loader

    A shallow embedding of [src/mltools/model.py] and the properties of its
    six functions: [load_model], [setup_model], [load_model_list],
    [load_model_info], [load_model_info_list] and [model_uri_to_version].

    The functions read a nested configuration mapping, talk to the model
    registry (mlflow) and to the file system, and build objects of external
    classes.  Everything external is gathered in one record, [World]; the
    functions run in a small state-and-exception monad whose state holds the
    store of objects and the trace of external calls made so far.

    The functions are given twice: on a configuration read as the tree of
    its values, which is what their outcome depends on, and on a configuration
    held by reference in the store ([ByReference]), which is what the caller
    hands over and could find changed.  The last section shows that the two
    agree on every store in which the configuration is a tree. *)

From Stdlib Require Import ZArith Ascii String.
From stdpp Require Import base option list strings gmap.

Local Open Scope string_scope.
Local Open Scope list_scope.

(** ** Python values found in a configuration *)

(** A configuration is a nested mapping from string keys to strings, numbers,
    mappings and lists.  A float is carried as its bit pattern: no function of
    the module computes with it. *)
#[warnings="-register-all"]
Inductive value : Type :=
  | VNone
  | VBool (b : bool)
  | VInt (z : Z)
  | VFloat (bits : Z)
  | VStr (s : string)
  | VList (l : list value)
  | VDict (m : gmap string value).

(** [x is None] *)
Definition is_none (v : value) : bool :=
  match v with VNone => true | _ => false end.

(** [v == "literal"], for a string literal on the right. *)
Definition py_eq_str (v : value) (s : string) : bool :=
  match v with VStr t => String.eqb t s | _ => false end.

(** ** Exceptions and outcomes *)

Inductive exn : Type :=
  | ValueError (msg : string)
  | TypeError
  | KeyError (key : string)
  | AttributeError (attr : string)
  | ExternalError (msg : string).  (* raised inside a collaborator *)

Inductive outcome (A : Type) : Type :=
  | Ok (a : A)
  | Raise (e : exn).
Arguments Ok {A} a.
Arguments Raise {A} e.

(** ** Objects built or loaded by the module *)

(** The classes of sklearn and of [mltools.architecture] are opaque
    collaborators: an object is recorded as the constructor call that made it,
    with the arguments it received.  [TF_IDF_Classifier] also records the
    argument of the last [set_class_weights] call, if there was one. *)
Inductive pyobj : Type :=
  | KNeighborsClassifier (kwargs : gmap string value)
  | SVC (probability : bool) (kwargs : gmap string value)
  | RandomForestClassifier (kwargs : gmap string value)
  | TF_IDF_Classifier (baseline_classifier : pyobj) (model_name : value)
                      (class_weights : option value)
  | TF_IDF_XGBoost_Classifier (model_name parameters class_weights cost_matrix : value)
  | TextPreprocessor (kwargs : gmap string value)
  | Relabeller (kwargs : gmap string value)
  | BoundMethod (self : pyobj) (name : string)
  | FunctionTransformer (func : pyobj) (kw_args : option (gmap string value))
  | PredictTransformerWrapper (inner : pyobj) (transforms_X transforms_y : bool)
  | StoredEstimator (tag : string).  (* any other estimator kept in the registry *)

(** [model.set_class_weights(w)] *)
Definition set_class_weights (model : pyobj) (w : value) : pyobj :=
  match model with
  | TF_IDF_Classifier b n _ => TF_IDF_Classifier b n (Some w)
  | other => other
  end.

(** What [mlflow.pyfunc.load_model] returns: a wrapper whose private
    attribute [_PyFuncModel__model_impl] may have a [python_model], which may
    have a [model]. *)
Record PythonModel : Type := { model : option pyobj }.
Record ModelImpl : Type := { python_model : option PythonModel }.
Record PyFuncModel : Type := { _PyFuncModel__model_impl : ModelImpl }.

(** What [mlflow.models.get_model_info] returns. *)
Record ModelInfo : Type := { run_id : value; model_uuid : string }.

(** ** The world outside the module *)

(** What [get_nested] does when it has to look a key up in something that is
    not a mapping.  The helper lives in [mltools.utils]; both behaviours occur
    in such helpers, and the theorems below hold for either. *)
Inductive non_mapping_policy : Type := ReturnDefault | RaiseTypeError.

Record World : Type := {
  on_non_mapping : non_mapping_policy;
  (* mlflow.pyfunc.load_model(model_uri) *)
  mlflow_pyfunc_load_model : value → outcome PyFuncModel;
  (* mlflow.models.get_model_info(model_uri) *)
  mlflow_models_get_model_info : value → outcome ModelInfo;
  (* mltools.utils.read_class_weights_from_file(path) *)
  read_class_weights_from_file : string → outcome value;
  (* mltools.utils.read_cost_matrix_from_file(path) *)
  read_cost_matrix_from_file : string → outcome value;
  (* str(x) for an x that is not a string, as used by an f-string *)
  str_of_non_string : value → string;
  (* whether the constructor of the sklearn class [cls] declares [keyword] *)
  sklearn_declares : string → string → bool;
  (* the keys of a mapping in the order they were inserted, given the keys *)
  insertion_order : list string → list string
}.

(** The calls that leave the process, in the order they are made. *)
Inductive event : Type :=
  | EvLoadModel (model_uri : value)
  | EvGetModelInfo (model_uri : value)
  | EvReadClassWeights (path : string)
  | EvReadCostMatrix (path : string).

(** ** Objects in the store *)

(** A value as the interpreter holds it: an immutable scalar, or a reference
    to an object in the store. *)
Inductive pyval : Type :=
  | PNone
  | PBool (b : bool)
  | PInt (z : Z)
  | PFloat (bits : Z)
  | PStr (s : string)
  | PRef (l : nat).

(** An object in the store: a dictionary or a list, whose items are held by
    reference, or an instance of a class, recorded as said above. *)
Inductive cell : Type :=
  | ODict (m : gmap string pyval)
  | OList (l : list pyval)
  | OInstance (o : pyobj).

(** ** The monad: an object store, a trace, and exceptions *)

(** [objects] is the store: the object a reference [PRef l] refers to is the
    [l]-th one; [trace] is the external calls so far. *)
Record pystate : Type := { objects : list cell; trace : list event }.

Definition M (A : Type) : Type := pystate → outcome A * pystate.

#[global] Instance M_ret : MRet M := λ A a st, (Ok a, st).

#[global] Instance M_bind : MBind M := λ A B f m st,
  match m st with
  | (Ok a, st') => f a st'
  | (Raise e, st') => (Raise e, st')
  end.

Definition raise {A : Type} (e : exn) : M A := λ st, (Raise e, st).

Definition lift {A : Type} (o : outcome A) : M A := λ st, (o, st).

Definition emit (ev : event) : M unit :=
  λ st, (Ok (), {| objects := objects st; trace := trace st ++ [ev] |}).

(** An external call: it is logged, then the world answers. *)
Definition external {A : Type} (ev : event) (answer : outcome A) : M A :=
  emit ev ≫= λ _, lift answer.

(** ** Helpers of the language and of the standard library *)

(** [obj[key]] for a string key: only a mapping can be subscripted by one. *)
Definition py_getitem (obj : value) (key : string) : outcome value :=
  match obj with
  | VDict m => match m !! key with Some v => Ok v | None => Raise (KeyError key) end
  | _ => Raise TypeError
  end.

Fixpoint chars (s : string) : list value :=
  match s with
  | EmptyString => []
  | String c s' => VStr (String c EmptyString) :: chars s'
  end.

(** The keywords of a call, or the keys of a mapping. *)
Definition keywords_of {V : Type} (kwargs : gmap string V) : list string :=
  elements (dom kwargs).

(** [for x in obj]: the items a [for] clause goes through.  A mapping yields
    its keys in the order they were inserted; a finite map does not record
    that order, so it is asked of the world. *)
Definition py_iter (w : World) (obj : value) : outcome (list value) :=
  match obj with
  | VList l => Ok l
  | VStr s => Ok (chars s)
  | VDict m => Ok (VStr <$> insertion_order w (keywords_of m))
  | _ => Raise TypeError
  end.

(** Whether the constructor of the sklearn class [cls] declares all of
    [keywords]. *)
Definition accepts (w : World) (cls : string) (keywords : list string) : bool :=
  forallb (sklearn_declares w cls) keywords.

(** A call of the constructor of the sklearn class [cls] with the keyword
    arguments [keywords].  An sklearn constructor stores its arguments and
    checks nothing (validation waits for [fit]); what can fail is the call
    itself: a keyword the signature does not declare is a [TypeError]. *)
Definition sklearn_call (w : World) (cls : string) (keywords : list string)
    (made : pyobj) : outcome pyobj :=
  if accepts w cls keywords then Ok made else Raise TypeError.

Arguments accepts : simpl never.

(** [**parameters] in a call: the argument has to be a mapping. *)
Definition expand_kwargs (parameters : value) : outcome (gmap string value) :=
  match parameters with
  | VDict m => Ok m
  | _ => Raise TypeError
  end.

(** [f(name = x, **parameters)]: a keyword given twice is a [TypeError]. *)
Definition expand_kwargs_with (name : string) (parameters : value)
    : outcome (gmap string value) :=
  match parameters with
  | VDict m => match m !! name with Some _ => Raise TypeError | None => Ok m end
  | _ => Raise TypeError
  end.

(** An f-string field [{x}]. *)
Definition format_field (w : World) (x : value) : string :=
  match x with VStr s => s | _ => str_of_non_string w x end.

Definition startswith_sep (s : string) : bool :=
  match s with String "/"%char _ => true | _ => false end.

Fixpoint endswith_sep (s : string) : bool :=
  match s with
  | EmptyString => false
  | String c EmptyString => Ascii.eqb c "/"%char
  | String _ s' => endswith_sep s'
  end.

Definition posix_join (a b : string) : string :=
  if startswith_sep b then b
  else if (String.eqb a "" || endswith_sep a)%bool then a +:+ b
  else a +:+ "/" +:+ b.

(** [os.path.join(a, b)] (posixpath): both arguments have to be strings. *)
Definition os_path_join (a b : value) : outcome string :=
  match a, b with
  | VStr a, VStr b => Ok (posix_join a b)
  | _, _ => Raise TypeError
  end.

(** Modelled from the spec: [mltools.utils.get_nested], the nested-key lookup
    helper, is not among the sources.  It walks [keys] down the nested
    mapping and answers the value found, or [default] when a key is missing;
    what it does when it meets something that is not a mapping is the world's
    [on_non_mapping]. *)
Fixpoint get_nested (w : World) (d : value) (keys : list string) (default : value)
    : outcome value :=
  match keys with
  | [] => Ok d
  | k :: ks =>
      match d with
      | VDict m =>
          match m !! k with
          | Some v => get_nested w v ks default
          | None => Ok default
          end
      | _ =>
          match on_non_mapping w with
          | ReturnDefault => Ok default
          | RaiseTypeError => Raise TypeError
          end
      end
  end.

(** ** The functions of [model.py] *)

Section Functions.

Variable w : World.

(** [pyfunc_model._PyFuncModel__model_impl.python_model.model] *)
Definition unwrap (pyfunc_model : PyFuncModel) : outcome pyobj :=
  match python_model (_PyFuncModel__model_impl pyfunc_model) with
  | None => Raise (AttributeError "python_model")
  | Some pm =>
      match model pm with
      | None => Raise (AttributeError "model")
      | Some est => Ok est
      end
  end.

Definition load_model (config : value) : M pyobj :=
  model_uri ← lift (get_nested w config ["model"; "uri"] VNone);
  if is_none model_uri then raise (ValueError "Model uri not provided.") else
  pyfunc_model ← external (EvLoadModel model_uri) (mlflow_pyfunc_load_model w model_uri);
  lift (unwrap pyfunc_model).

(** Lines 67-81 of [setup_model]: the class-weights options.  The answer is
    the pair [(has_class_weights, class_weights_dict)]. *)
Definition setup_model_class_weights (config path_prefix : value) : M (bool * value) :=
  class_weights_config_dict ← lift (get_nested w config ["model"; "class_weights"] VNone);
  if is_none class_weights_config_dict then mret (false, VNone) else
  class_weights_relative_or_absolute ←
    lift (get_nested w class_weights_config_dict ["relative_or_absolute"] (VStr "absolute"));
  class_weights_file_path ← lift (get_nested w class_weights_config_dict ["file_path"] VNone);
  if is_none class_weights_file_path
  then raise (ValueError "Class weights file path not provided.") else
  class_weights_full_file_path ← lift (os_path_join path_prefix class_weights_file_path);
  class_weights_dict ←
    external (EvReadClassWeights class_weights_full_file_path)
             (read_class_weights_from_file w class_weights_full_file_path);
  mret (true, class_weights_dict).

(** Lines 96-104: the [TF-IDF-XGBoost] branch. *)
Definition setup_model_xgboost
    (config path_prefix model_name parameters class_weights_dict : value) : M pyobj :=
  cost_matrix_filepath ← lift (get_nested w config ["model"; "cost_matrix"] VNone);
  cost_matrix ←
    (if is_none cost_matrix_filepath then mret VNone else
     cost_matrix_filepath ← lift (os_path_join path_prefix cost_matrix_filepath);
     external (EvReadCostMatrix cost_matrix_filepath)
              (read_cost_matrix_from_file w cost_matrix_filepath));
  mret (TF_IDF_XGBoost_Classifier model_name parameters class_weights_dict cost_matrix).

(** Lines 83-120: the dispatch on [model_type]. *)
Definition setup_model_dispatch
    (config path_prefix model_type model_name parameters : value)
    (has_class_weights : bool) (class_weights_dict : value) : M pyobj :=
  if py_eq_str model_type "TF-IDF-KNN" then
    kwargs ← lift (expand_kwargs parameters);
    baseline_classifier ←
      lift (sklearn_call w "KNeighborsClassifier" (keywords_of kwargs)
                         (KNeighborsClassifier kwargs));
    mret (TF_IDF_Classifier baseline_classifier model_name None)
  else if py_eq_str model_type "TF-IDF-SVM" then
    kwargs ← lift (expand_kwargs_with "probability" parameters);
    baseline_classifier ←
      lift (sklearn_call w "SVC" ("probability" :: keywords_of kwargs) (SVC true kwargs));
    let model := TF_IDF_Classifier baseline_classifier model_name None in
    mret (if has_class_weights then set_class_weights model class_weights_dict else model)
  else if py_eq_str model_type "TF-IDF-RF" then
    kwargs ← lift (expand_kwargs parameters);
    baseline_classifier ←
      lift (sklearn_call w "RandomForestClassifier" (keywords_of kwargs)
                         (RandomForestClassifier kwargs));
    let model := TF_IDF_Classifier baseline_classifier model_name None in
    mret (if has_class_weights then set_class_weights model class_weights_dict else model)
  else if py_eq_str model_type "TF-IDF-XGBoost" then
    setup_model_xgboost config path_prefix model_name parameters class_weights_dict
  else if py_eq_str model_type "TextPreprocessor" then
    kwargs ← lift (expand_kwargs parameters);
    let preprocessor := TextPreprocessor kwargs in
    config_model ← lift (py_getitem config "model");
    config_model_parameters ← lift (py_getitem config_model "parameters");
    preprocess_stack ← lift (py_getitem config_model_parameters "preprocess_stack");
    let transformer :=
      FunctionTransformer (BoundMethod preprocessor "preprocess_iterable")
                          (Some {[ "preprocess_stack" := preprocess_stack ]}) in
    mret (PredictTransformerWrapper transformer true false)
  else if py_eq_str model_type "Relabeller" then
    kwargs ← lift (expand_kwargs parameters);
    let preprocessor := Relabeller kwargs in
    let transformer := FunctionTransformer (BoundMethod preprocessor "predict") None in
    mret (PredictTransformerWrapper preprocessor false true)
  else
    raise (ValueError ("Model type " +:+ format_field w model_type +:+ " not recognized.")).

Definition setup_model (config : value) : M pyobj :=
  path_prefix ← lift (get_nested w config ["global"; "root_path"] (VStr ""));
  model_uri ← lift (get_nested w config ["model"; "uri"] VNone);
  if negb (is_none model_uri) then load_model model_uri else
  model_type ← lift (get_nested w config ["model"; "type"] VNone);
  if is_none model_type then raise (ValueError "Model type not provided.") else
  model_name ← lift (get_nested w config ["model"; "name"] VNone);
  parameters ← lift (get_nested w config ["model"; "parameters"] (VDict ∅));
  '(has_class_weights, class_weights_dict) ← setup_model_class_weights config path_prefix;
  setup_model_dispatch config path_prefix model_type model_name parameters
                       has_class_weights class_weights_dict.

(** [{'model': {'uri': model_uri}}] *)
Definition uri_config (model_uri : value) : value :=
  VDict {[ "model" := VDict {[ "uri" := model_uri ]} ]}.

Definition load_model_list (config : value) : M (list pyobj) :=
  model_list ← lift (py_getitem config "model_list");
  model_uris ← lift (py_iter w model_list);
  mapM (λ model_uri, load_model (uri_config model_uri)) model_uris.

Definition load_model_info (config : value) : M ModelInfo :=
  model_uri ← lift (get_nested w config ["model"; "uri"] VNone);
  if is_none model_uri then raise (ValueError "Model uri not provided.") else
  external (EvGetModelInfo model_uri) (mlflow_models_get_model_info w model_uri).

Definition load_model_info_list (config : value) : M (list ModelInfo) :=
  model_list ← lift (py_getitem config "model_list");
  model_uris ← lift (py_iter w model_list);
  mapM (λ model_uri, load_model_info (uri_config model_uri)) model_uris.

Definition model_uri_to_version (model_uri : value) : M value :=
  model_info ← external (EvGetModelInfo model_uri) (mlflow_models_get_model_info w model_uri);
  mret (run_id model_info).

End Functions.

Arguments get_nested : simpl never.

(** * The functions on objects held by reference

    Python hands a configuration over by reference: the callee holds the
    caller's dictionary and could write into it.  The functions above read a
    configuration as the tree of its values.  Here they are once more, on the
    store: a configuration is a reference, every look-up reads the store, the
    dictionary literals and the constructors allocate, and
    [set_class_weights] writes into the model it is called on. *)

Module ByReference.

(** Reading the store. *)
Definition reading {A : Type} (f : list cell → outcome A) : M A :=
  λ st, (f (objects st), st).

(** A new object in the store; the answer is the reference to it. *)
Definition new (c : cell) : M pyval :=
  λ st, (Ok (PRef (length (objects st))),
         {| objects := objects st ++ [c]; trace := trace st |}).

(** The tree of values below [p].  It is what goes to the world (a URI sent
    to the registry) and what an instance records of an argument it received.
    The depth is bounded by the number of objects, which is enough for every
    store without a cycle; a model instance among the items reads as [None]. *)
Fixpoint reify (fuel : nat) (h : list cell) (p : pyval) : value :=
  match p with
  | PNone => VNone
  | PBool b => VBool b
  | PInt z => VInt z
  | PFloat bits => VFloat bits
  | PStr s => VStr s
  | PRef l =>
      match fuel with
      | 0 => VNone
      | S fuel' =>
          match h !! l with
          | Some (ODict m) => VDict (reify fuel' h <$> m)
          | Some (OList ps) => VList (reify fuel' h <$> ps)
          | Some (OInstance _) | None => VNone
          end
      end
  end.

Definition snapshot (h : list cell) (p : pyval) : value := reify (length h) h p.

(** [x is None] *)
Definition is_none (p : pyval) : bool :=
  match p with PNone => true | _ => false end.

(** [p == "literal"] *)
Definition py_eq_str (p : pyval) (s : string) : bool :=
  match p with PStr t => String.eqb t s | _ => false end.

(** [obj[key]] for a string key. *)
Definition py_getitem (h : list cell) (obj : pyval) (key : string) : outcome pyval :=
  match obj with
  | PRef l =>
      match h !! l with
      | Some (ODict m) =>
          match m !! key with Some v => Ok v | None => Raise (KeyError key) end
      | _ => Raise TypeError
      end
  | _ => Raise TypeError
  end.

Fixpoint chars (s : string) : list pyval :=
  match s with
  | EmptyString => []
  | String c s' => PStr (String c EmptyString) :: chars s'
  end.

(** [for x in obj] *)
Definition py_iter (w : World) (h : list cell) (obj : pyval) : outcome (list pyval) :=
  match obj with
  | PStr s => Ok (chars s)
  | PRef l =>
      match h !! l with
      | Some (OList ps) => Ok ps
      | Some (ODict m) => Ok (PStr <$> insertion_order w (keywords_of m))
      | _ => Raise TypeError
      end
  | _ => Raise TypeError
  end.

(** The keyword arguments of a call that expands [parameters]: the items of
    the mapping, each recorded as the tree below it. *)
Definition expand_kwargs (h : list cell) (parameters : pyval)
    : outcome (gmap string value) :=
  match parameters with
  | PRef l =>
      match h !! l with
      | Some (ODict m) => Ok (snapshot h <$> m)
      | _ => Raise TypeError
      end
  | _ => Raise TypeError
  end.

(** The same beside an explicit keyword [name]. *)
Definition expand_kwargs_with (name : string) (h : list cell) (parameters : pyval)
    : outcome (gmap string value) :=
  match expand_kwargs h parameters with
  | Ok kwargs => match kwargs !! name with Some _ => Raise TypeError | None => Ok kwargs end
  | Raise e => Raise e
  end.

(** An f-string field [{x}]. *)
Definition format_field (w : World) (h : list cell) (x : pyval) : string :=
  match x with PStr s => s | _ => str_of_non_string w (snapshot h x) end.

(** [os.path.join(a, b)] *)
Definition os_path_join (a b : pyval) : outcome string :=
  match a, b with
  | PStr a, PStr b => Ok (posix_join a b)
  | _, _ => Raise TypeError
  end.

(** Modelled from the spec: [mltools.utils.get_nested], on the store.  It
    walks [keys] down the nested dictionaries and answers the value found, or
    [default] when a key is missing; what it does when it meets something that
    is not a dictionary is the world's [on_non_mapping]. *)
Fixpoint get_nested (w : World) (h : list cell) (d : pyval) (keys : list string)
    (default : pyval) : outcome pyval :=
  match keys with
  | [] => Ok d
  | k :: ks =>
      match d with
      | PRef l =>
          match h !! l with
          | Some (ODict m) =>
              match m !! k with
              | Some v => get_nested w h v ks default
              | None => Ok default
              end
          | _ =>
              match on_non_mapping w with
              | ReturnDefault => Ok default
              | RaiseTypeError => Raise TypeError
              end
          end
      | _ =>
          match on_non_mapping w with
          | ReturnDefault => Ok default
          | RaiseTypeError => Raise TypeError
          end
      end
  end.

(** [model.set_class_weights(weights)]: the instance that [model] refers to
    is changed in place. *)
Definition set_class_weights (model : pyval) (weights : value) : M unit :=
  λ st,
    match model with
    | PRef l =>
        match objects st !! l with
        | Some (OInstance o) =>
            (Ok (),
             {| objects := <[ l := OInstance (set_class_weights o weights) ]> (objects st);
                trace := trace st |})
        | _ => (Raise (AttributeError "set_class_weights"), st)
        end
    | _ => (Raise (AttributeError "set_class_weights"), st)
    end.

Section Functions.

Variable w : World.

(** The tree below [p], as a step of a run. *)
Definition snap (p : pyval) : M value := reading (λ h, Ok (snapshot h p)).

(** The estimator that comes out of the registry is a new object. *)
Definition load_model (config : pyval) : M pyval :=
  model_uri ← reading (λ h, get_nested w h config ["model"; "uri"] PNone);
  if is_none model_uri then raise (ValueError "Model uri not provided.") else
  uri ← snap model_uri;
  pyfunc_model ← external (EvLoadModel uri) (mlflow_pyfunc_load_model w uri);
  estimator ← lift (unwrap pyfunc_model);
  new (OInstance estimator).

(** Lines 67-81 of [setup_model].  What the reader of the file gives is
    data from outside the store: it is kept as a tree. *)
Definition setup_model_class_weights (config path_prefix : pyval) : M (bool * value) :=
  class_weights_config_dict ←
    reading (λ h, get_nested w h config ["model"; "class_weights"] PNone);
  if is_none class_weights_config_dict then mret (false, VNone) else
  class_weights_relative_or_absolute ←
    reading (λ h, get_nested w h class_weights_config_dict ["relative_or_absolute"]
                    (PStr "absolute"));
  class_weights_file_path ←
    reading (λ h, get_nested w h class_weights_config_dict ["file_path"] PNone);
  if is_none class_weights_file_path
  then raise (ValueError "Class weights file path not provided.") else
  class_weights_full_file_path ← lift (os_path_join path_prefix class_weights_file_path);
  class_weights_dict ←
    external (EvReadClassWeights class_weights_full_file_path)
             (read_class_weights_from_file w class_weights_full_file_path);
  mret (true, class_weights_dict).

(** Lines 96-104: the [TF-IDF-XGBoost] branch. *)
Definition setup_model_xgboost (config path_prefix model_name parameters : pyval)
    (class_weights_dict : value) : M pyval :=
  cost_matrix_filepath ←
    reading (λ h, get_nested w h config ["model"; "cost_matrix"] PNone);
  cost_matrix ←
    (if is_none cost_matrix_filepath then mret VNone else
     cost_matrix_filepath ← lift (os_path_join path_prefix cost_matrix_filepath);
     external (EvReadCostMatrix cost_matrix_filepath)
              (read_cost_matrix_from_file w cost_matrix_filepath));
  name ← snap model_name;
  params ← snap parameters;
  new (OInstance (TF_IDF_XGBoost_Classifier name params class_weights_dict cost_matrix)).

(** Lines 83-120: the dispatch on [model_type]. *)
Definition setup_model_dispatch
    (config path_prefix model_type model_name parameters : pyval)
    (has_class_weights : bool) (class_weights_dict : value) : M pyval :=
  if py_eq_str model_type "TF-IDF-KNN" then
    kwargs ← reading (λ h, expand_kwargs h parameters);
    baseline_classifier ←
      lift (sklearn_call w "KNeighborsClassifier" (keywords_of kwargs)
                         (KNeighborsClassifier kwargs));
    name ← snap model_name;
    new (OInstance (TF_IDF_Classifier baseline_classifier name None))
  else if py_eq_str model_type "TF-IDF-SVM" then
    kwargs ← reading (λ h, expand_kwargs_with "probability" h parameters);
    baseline_classifier ←
      lift (sklearn_call w "SVC" ("probability" :: keywords_of kwargs) (SVC true kwargs));
    name ← snap model_name;
    model ← new (OInstance (TF_IDF_Classifier baseline_classifier name None));
    _ ← (if has_class_weights then set_class_weights model class_weights_dict
         else mret ());
    mret model
  else if py_eq_str model_type "TF-IDF-RF" then
    kwargs ← reading (λ h, expand_kwargs h parameters);
    baseline_classifier ←
      lift (sklearn_call w "RandomForestClassifier" (keywords_of kwargs)
                         (RandomForestClassifier kwargs));
    name ← snap model_name;
    model ← new (OInstance (TF_IDF_Classifier baseline_classifier name None));
    _ ← (if has_class_weights then set_class_weights model class_weights_dict
         else mret ());
    mret model
  else if py_eq_str model_type "TF-IDF-XGBoost" then
    setup_model_xgboost config path_prefix model_name parameters class_weights_dict
  else if py_eq_str model_type "TextPreprocessor" then
    kwargs ← reading (λ h, expand_kwargs h parameters);
    let preprocessor := TextPreprocessor kwargs in
    config_model ← reading (λ h, py_getitem h config "model");
    config_model_parameters ← reading (λ h, py_getitem h config_model "parameters");
    preprocess_stack ←
      reading (λ h, py_getitem h config_model_parameters "preprocess_stack");
    kw_args ← new (ODict {[ "preprocess_stack" := preprocess_stack ]});
    kw ← reading (λ h, expand_kwargs h kw_args);
    let transformer :=
      FunctionTransformer (BoundMethod preprocessor "preprocess_iterable") (Some kw) in
    new (OInstance (PredictTransformerWrapper transformer true false))
  else if py_eq_str model_type "Relabeller" then
    kwargs ← reading (λ h, expand_kwargs h parameters);
    let preprocessor := Relabeller kwargs in
    let transformer := FunctionTransformer (BoundMethod preprocessor "predict") None in
    new (OInstance (PredictTransformerWrapper preprocessor false true))
  else
    field ← reading (λ h, Ok (format_field w h model_type));
    raise (ValueError ("Model type " +:+ field +:+ " not recognized.")).

(** The default [{}] of line 65 is a new dictionary at each call. *)
Definition setup_model (config : pyval) : M pyval :=
  path_prefix ← reading (λ h, get_nested w h config ["global"; "root_path"] (PStr ""));
  model_uri ← reading (λ h, get_nested w h config ["model"; "uri"] PNone);
  if negb (is_none model_uri) then load_model model_uri else
  model_type ← reading (λ h, get_nested w h config ["model"; "type"] PNone);
  if is_none model_type then raise (ValueError "Model type not provided.") else
  model_name ← reading (λ h, get_nested w h config ["model"; "name"] PNone);
  empty ← new (ODict ∅);
  parameters ← reading (λ h, get_nested w h config ["model"; "parameters"] empty);
  '(has_class_weights, class_weights_dict) ← setup_model_class_weights config path_prefix;
  setup_model_dispatch config path_prefix model_type model_name parameters
                       has_class_weights class_weights_dict.

(** [{'model': {'uri': model_uri}}]: two new dictionaries. *)
Definition uri_config (model_uri : pyval) : M pyval :=
  inner ← new (ODict {[ "uri" := model_uri ]});
  new (ODict {[ "model" := inner ]}).

Definition load_model_list (config : pyval) : M (list pyval) :=
  model_list ← reading (λ h, py_getitem h config "model_list");
  model_uris ← reading (λ h, py_iter w h model_list);
  mapM (λ model_uri, fresh ← uri_config model_uri; load_model fresh) model_uris.

Definition load_model_info (config : pyval) : M ModelInfo :=
  model_uri ← reading (λ h, get_nested w h config ["model"; "uri"] PNone);
  if is_none model_uri then raise (ValueError "Model uri not provided.") else
  uri ← snap model_uri;
  external (EvGetModelInfo uri) (mlflow_models_get_model_info w uri).

Definition load_model_info_list (config : pyval) : M (list ModelInfo) :=
  model_list ← reading (λ h, py_getitem h config "model_list");
  model_uris ← reading (λ h, py_iter w h model_list);
  mapM (λ model_uri, fresh ← uri_config model_uri; load_model_info fresh) model_uris.

Definition model_uri_to_version (model_uri : pyval) : M value :=
  uri ← snap model_uri;
  model_info ← external (EvGetModelInfo uri) (mlflow_models_get_model_info w uri);
  mret (run_id model_info).

End Functions.

(** [p] is the root of a tree of dictionaries and lists, of depth at most
    [fuel]: no object is missing, and no instance is among the items. *)
Fixpoint tree (fuel : nat) (h : list cell) (p : pyval) : Prop :=
  match p with
  | PRef l =>
      match fuel with
      | 0 => False
      | S fuel' =>
          match h !! l with
          | Some (ODict m) => map_Forall (λ _ q, tree fuel' h q) m
          | Some (OList ps) => Forall (tree fuel' h) ps
          | _ => False
          end
      end
  | _ => True
  end.

(** In the store [h], the value [p] stands for the tree of values [v]. *)
Definition stands_for (h : list cell) (p : pyval) (v : value) : Prop :=
  ∃ n : nat, (n ≤ length h)%nat ∧ tree n h p ∧ reify n h p = v.

(** The reference [p] is to an instance that is [o]. *)
Definition refers_to (h : list cell) (p : pyval) (o : pyobj) : Prop :=
  ∃ l : nat, p = PRef l ∧ h !! l = Some (OInstance o).

(** Two outcomes are the same exception, or results that [R] relates. *)
Definition alike {A B : Type} (R : A → B → Prop) (o1 : outcome A) (o2 : outcome B)
    : Prop :=
  match o1, o2 with
  | Ok a, Ok b => R a b
  | Raise e1, Raise e2 => e1 = e2
  | _, _ => False
  end.

(** A run by reference and a run on the tree, from states with the same
    trace, agree: they end with the same trace, and either raise the same
    exception or return results that [R] relates in the store as it is then. *)
Definition agree {A B : Type} (R : list cell → A → B → Prop)
    (m1 : M A) (m2 : M B) (st1 st2 : pystate) : Prop :=
  trace st1 = trace st2 →
  trace (m1 st1).2 = trace (m2 st2).2
  ∧ alike (R (objects (m1 st1).2)) (m1 st1).1 (m2 st2).1.

(** [m], run from [st], leaves the first [n] objects of the store as they
    were. *)
Definition keeps {A : Type} (n : nat) (m : M A) (st : pystate) : Prop :=
  (n ≤ length (objects st))%nat →
  take n (objects (m st).2) = take n (objects st)
  ∧ (n ≤ length (objects (m st).2))%nat.


End ByReference.


(** ** Presence and absence of a configuration key *)

(** The key at [path] resolves to the value [v]. *)
Definition present (w : World) (config : value) (path : list string) (v : value) : Prop :=
  get_nested w config path VNone = Ok v ∧ v ≠ VNone.

(** The key at [path] is absent, or resolves to no value. *)
Definition absent (w : World) (config : value) (path : list string) : Prop :=
  ∀ v, get_nested w config path VNone = Ok v → v = VNone.

(** The state after the external calls [evs] were added to the trace. *)
Definition logged (st : pystate) (evs : list event) : pystate :=
  {| objects := objects st; trace := trace st ++ evs |}.

(** What the registry gives for a URI once the wrapper is stripped. *)
Definition loaded (w : World) (model_uri : value) : outcome pyobj :=
  match mlflow_pyfunc_load_model w model_uri with
  | Ok pyfunc_model => unwrap pyfunc_model
  | Raise e => Raise e
  end.

(** The registry calls made for the URIs [uris], in order. *)
Definition load_events (uris : list string) : list event :=
  (λ u, EvLoadModel (VStr u)) <$> uris.

(** The configuration [top] whose [model] section is [m] with, as
    [class_weights], the mapping [cw] in which [relative_or_absolute] is set
    to [roa], or is missing when [roa] is [None].  Two such configurations
    differ in that one key only. *)
Definition with_relative_or_absolute (top m cw : gmap string value)
    (roa : option value) : value :=
  VDict (<[ "model" :=
            VDict (<[ "class_weights" :=
                      VDict (partial_alter (λ _, roa) "relative_or_absolute" cw) ]> m) ]>
         top).

(** The six type tags [setup_model] knows. *)
Definition recognized_types : list string :=
  ["TF-IDF-KNN"; "TF-IDF-SVM"; "TF-IDF-RF"; "TF-IDF-XGBoost"; "TextPreprocessor"; "Relabeller"].

(** [needle in haystack], for strings. *)
Fixpoint names (haystack needle : string) : bool :=
  (String.prefix needle haystack ||
   match haystack with
   | EmptyString => false
   | String _ rest => names rest needle
   end)%bool.

(** ** Notions for the further properties *)

(** The metadata calls made for the URIs [uris], in order. *)
Definition info_events (uris : list string) : list event :=
  (λ u, EvGetModelInfo (VStr u)) <$> uris.

(** The run identifier in an answer of the registry. *)
Definition version_of (answer : outcome ModelInfo) : outcome value :=
  match answer with
  | Ok model_info => Ok (run_id model_info)
  | Raise e => Raise e
  end.

(** At most one class-weights read, then at most one cost-matrix read, and
    nothing else. *)
Definition file_reads (evs : list event) : Prop :=
  ∃ cw cm : list string,
    evs = (EvReadClassWeights <$> cw) ++ (EvReadCostMatrix <$> cm)
    ∧ (length cw ≤ 1)%nat ∧ (length cm ≤ 1)%nat.

(** ** A concrete world and concrete configurations, for the examples *)

Module Example.

Definition stored (est : pyobj) : PyFuncModel :=
  {| _PyFuncModel__model_impl := {| python_model := Some {| model := Some est |} |} |}.

(** A registry with three python-function models; every other URI fails. *)
Definition registry (model_uri : value) : outcome PyFuncModel :=
  if py_eq_str model_uri "runs:/abc123def/model" then Ok (stored (StoredEstimator "abc123def"))
  else if py_eq_str model_uri "runs:/0a1b/model" then Ok (stored (StoredEstimator "0a1b"))
  else if py_eq_str model_uri "models:/spam/3" then Ok (stored (StoredEstimator "spam-3"))
  else Raise (ExternalError "RESOURCE_DOES_NOT_EXIST").

Definition registry_info (model_uri : value) : outcome ModelInfo :=
  if py_eq_str model_uri "runs:/abc123def/model"
  then Ok {| run_id := VStr "abc123def"; model_uuid := "5f1c" |}
  else Raise (ExternalError "RESOURCE_DOES_NOT_EXIST").

(** One class-weights file and one cost-matrix file. *)
Definition weights_file (path : string) : outcome value :=
  if String.eqb path "/data/weights.csv"
  then Ok (VDict {[ "spam" := VInt 3 ]})
  else Raise (ExternalError "FileNotFoundError").

Definition costs_file (path : string) : outcome value :=
  if String.eqb path "/data/costs.csv"
  then Ok (VList [VList [VInt 0; VInt 1]; VList [VInt 5; VInt 0]])
  else Raise (ExternalError "FileNotFoundError").

(** The keywords the three sklearn constructors declare (scikit-learn 1.3). *)
Definition declared (cls keyword : string) : bool :=
  existsb (String.eqb keyword)
    (if String.eqb cls "KNeighborsClassifier" then
       ["n_neighbors"; "weights"; "algorithm"; "leaf_size"; "p"; "metric";
        "metric_params"; "n_jobs"]
     else if String.eqb cls "SVC" then
       ["C"; "kernel"; "degree"; "gamma"; "coef0"; "shrinking"; "probability"; "tol";
        "cache_size"; "class_weight"; "verbose"; "max_iter";
        "decision_function_shape"; "break_ties"; "random_state"]
     else if String.eqb cls "RandomForestClassifier" then
       ["n_estimators"; "criterion"; "max_depth"; "min_samples_split";
        "min_samples_leaf"; "min_weight_fraction_leaf"; "max_features";
        "max_leaf_nodes"; "min_impurity_decrease"; "bootstrap"; "oob_score";
        "n_jobs"; "random_state"; "verbose"; "warm_start"; "class_weight";
        "ccp_alpha"; "max_samples"]
     else []).

Definition world (policy : non_mapping_policy) : World :=
  {| on_non_mapping := policy;
     mlflow_pyfunc_load_model := registry;
     mlflow_models_get_model_info := registry_info;
     read_class_weights_from_file := weights_file;
     read_cost_matrix_from_file := costs_file;
     str_of_non_string := λ _, "<object>";
     sklearn_declares := declared;
     insertion_order := λ keys, keys |}.

Definition start : pystate := {| objects := []; trace := [] |}.

(** A caller whose store is [store], before any external call. *)
Definition holding (store : list cell) : pystate := {| objects := store; trace := [] |}.

(** The store of a caller that holds the configuration
    [{'global': {'root_path': '/data'},
      'model': {'type': 'TF-IDF-SVM', 'class_weights': {'file_path': 'weights.csv'}}}]:
    four dictionaries, the configuration itself first. *)
Definition svm_store : list cell :=
  [ ODict (<[ "global" := PRef 1 ]> {[ "model" := PRef 2 ]});
    ODict {[ "root_path" := PStr "/data" ]};
    ODict (<[ "type" := PStr "TF-IDF-SVM" ]> {[ "class_weights" := PRef 3 ]});
    ODict {[ "file_path" := PStr "weights.csv" ]} ].

(** The store of a caller that holds
    [{'model_list': ['runs:/abc123def/model', 'models:/spam/3']}]. *)
Definition list_store : list cell :=
  [ ODict {[ "model_list" := PRef 1 ]};
    OList [PStr "runs:/abc123def/model"; PStr "models:/spam/3"] ].

(** [{'model': {'uri': 'runs:/abc123def/model'}}] *)
Definition uri_only : value := uri_config (VStr "runs:/abc123def/model").

(** [{}] *)
Definition empty : value := VDict ∅.

(** [{'model': {'type': 'TF-IDF-LSTM'}}] *)
Definition unknown_type : value :=
  VDict {[ "model" := VDict {[ "type" := VStr "TF-IDF-LSTM" ]} ]}.

(** [{'model': {'type': 'TF-IDF-LSTM', 'class_weights': {}}}] *)
Definition unknown_type_weights_without_path : value :=
  VDict {[ "model" := VDict (<[ "type" := VStr "TF-IDF-LSTM" ]>
                             {[ "class_weights" := VDict ∅ ]}) ]}.

(** [{'model': {'type': 'TF-IDF-KNN', 'name': 'knn',
                'parameters': {'n_neighbors': 5}}}] *)
Definition knn : value :=
  VDict {[ "model" := VDict (<[ "type" := VStr "TF-IDF-KNN" ]>
                             (<[ "name" := VStr "knn" ]>
                              {[ "parameters" := VDict {[ "n_neighbors" := VInt 5 ]} ]})) ]}.

(** [{'model': {'type': 'TF-IDF-KNN', 'parameters': {'n_neighbors': 5},
                'class_weights': {}}}] *)
Definition knn_weights_without_path : value :=
  VDict {[ "model" := VDict (<[ "type" := VStr "TF-IDF-KNN" ]>
                             (<[ "parameters" := VDict {[ "n_neighbors" := VInt 5 ]} ]>
                              {[ "class_weights" := VDict ∅ ]})) ]}.

(** [{'global': {'root_path': '/data'},
      'model': {'type': t, 'class_weights': {'file_path': 'weights.csv'}}}] *)
Definition with_weights (t : string) : value :=
  VDict (<[ "global" := VDict {[ "root_path" := VStr "/data" ]} ]>
         {[ "model" := VDict (<[ "type" := VStr t ]>
                              {[ "class_weights" :=
                                   VDict {[ "file_path" := VStr "weights.csv" ]} ]}) ]}).

(** [{'model': {'class_weights': {}}}] *)
Definition weights_without_type : value :=
  VDict {[ "model" := VDict {[ "class_weights" := VDict ∅ ]} ]}.

(** [{'model': {'type': 'TF-IDF-SVM',
                'class_weights': {'relative_or_absolute': 'relative'}}}] *)
Definition svm_weights_without_path : value :=
  VDict {[ "model" := VDict (<[ "type" := VStr "TF-IDF-SVM" ]>
                             {[ "class_weights" :=
                                  VDict {[ "relative_or_absolute" := VStr "relative" ]} ]}) ]}.

(** [{'model': {'type': 'TF-IDF-KNN', 'parameters': {'bogus': 1}}}] *)
Definition knn_bogus : value :=
  VDict {[ "model" := VDict (<[ "type" := VStr "TF-IDF-KNN" ]>
                             {[ "parameters" := VDict {[ "bogus" := VInt 1 ]} ]}) ]}.

Definition three_uris : list string :=
  ["runs:/abc123def/model"; "runs:/0a1b/model"; "models:/spam/3"].

(** The same list with, in the second place, a URI the registry does not know. *)
Definition one_uri_gone : list string :=
  ["runs:/abc123def/model"; "runs:/gone/model"; "models:/spam/3"].

(** [{'model_list': [...]}] *)
Definition model_list_of (uris : list string) : value :=
  VDict {[ "model_list" := VList (VStr <$> uris) ]}.

(** A registry whose one model is not a python-function model: its
    implementation has no [python_model]. *)
Definition flavour_registry (model_uri : value) : outcome PyFuncModel :=
  if py_eq_str model_uri "models:/sklearn/1"
  then Ok {| _PyFuncModel__model_impl := {| python_model := None |} |}
  else Raise (ExternalError "RESOURCE_DOES_NOT_EXIST").

Definition flavour_world : World :=
  {| on_non_mapping := ReturnDefault;
     mlflow_pyfunc_load_model := flavour_registry;
     mlflow_models_get_model_info := registry_info;
     read_class_weights_from_file := weights_file;
     read_cost_matrix_from_file := costs_file;
     str_of_non_string := λ _, "<object>";
     sklearn_declares := declared;
     insertion_order := λ keys, keys |}.

(** [{'model_list': 'runs:/abc123def/model'}]: one URI, not in a list. *)
Definition model_list_bare_string : value :=
  VDict {[ "model_list" := VStr "runs:/abc123def/model" ]}.

(** [{'model_list': ['runs:/abc123def/model', None, 'models:/spam/3']}] *)
Definition model_list_with_none : value :=
  VDict {[ "model_list" :=
             VList [VStr "runs:/abc123def/model"; VNone; VStr "models:/spam/3"] ]}.

(** [{'global': {'root_path': root},
      'model': {'type': t, 'class_weights': {'file_path': file_path}}}] *)
Definition with_weights_at (root : value) (t file_path : string) : value :=
  VDict (<[ "global" := VDict {[ "root_path" := root ]} ]>
         {[ "model" := VDict (<[ "type" := VStr t ]>
                              {[ "class_weights" :=
                                   VDict {[ "file_path" := VStr file_path ]} ]}) ]}).

(** [{'global': {'root_path': '/data'},
      'model': {'type': 'TF-IDF-XGBoost', 'name': 'xgb',
                'parameters': {'max_depth': 3},
                'class_weights': {'file_path': 'weights.csv'},
                'cost_matrix': 'costs.csv'}}] *)
Definition xgboost_full : value :=
  VDict (<[ "global" := VDict {[ "root_path" := VStr "/data" ]} ]>
         {[ "model" :=
              VDict (<[ "type" := VStr "TF-IDF-XGBoost" ]>
                     (<[ "name" := VStr "xgb" ]>
                      (<[ "parameters" := VDict {[ "max_depth" := VInt 3 ]} ]>
                       (<[ "class_weights" := VDict {[ "file_path" := VStr "weights.csv" ]} ]>
                        {[ "cost_matrix" := VStr "costs.csv" ]})))) ]}).

(** [{'model': {'type': t, 'parameters': None}}] *)
Definition parameters_none (t : string) : value :=
  VDict {[ "model" := VDict (<[ "type" := VStr t ]> {[ "parameters" := VNone ]}) ]}.

(** [{'model': {'type': 'TF-IDF-SVM', 'parameters': {'C': 2, 'probability': False}}}] *)
Definition svm_probability : value :=
  VDict {[ "model" :=
             VDict (<[ "type" := VStr "TF-IDF-SVM" ]>
                    {[ "parameters" :=
                         VDict (<[ "C" := VInt 2 ]> {[ "probability" := VBool false ]}) ]}) ]}.

(** [{'model': {'type': 'TextPreprocessor',
                'parameters': {'preprocess_stack': ['lower', 'strip']}}}] *)
Definition text_preprocessor : value :=
  VDict {[ "model" :=
             VDict (<[ "type" := VStr "TextPreprocessor" ]>
                    {[ "parameters" :=
                         VDict {[ "preprocess_stack" :=
                                    VList [VStr "lower"; VStr "strip"] ]} ]}) ]}.

(** [{'model': {'type': 'TextPreprocessor'}}] *)
Definition text_preprocessor_bare : value :=
  VDict {[ "model" := VDict {[ "type" := VStr "TextPreprocessor" ]} ]}.

(** [{'model': {'type': 'Relabeller', 'parameters': {'mapping': {'ham': 'ok'}}}}] *)
Definition relabeller : value :=
  VDict {[ "model" :=
             VDict (<[ "type" := VStr "Relabeller" ]>
                    {[ "parameters" :=
                         VDict {[ "mapping" := VDict {[ "ham" := VStr "ok" ]} ]} ]}) ]}.

End Example.

(** ** The monad's equations *)

Lemma bind_Ok {A B : Type} (m : M A) (f : A → M B) (st st' : pystate) (a : A) :
  m st = (Ok a, st') → (m ≫= f) st = f a st'.
Proof. intros H. unfold mbind, M_bind. by rewrite H. Qed.

Lemma bind_Raise {A B : Type} (m : M A) (f : A → M B) (st st' : pystate) (e : exn) :
  m st = (Raise e, st') → (m ≫= f) st = (Raise e, st').
Proof. intros H. unfold mbind, M_bind. by rewrite H. Qed.

Lemma bind_lift_Ok {A B : Type} (a : A) (f : A → M B) (st : pystate) :
  (lift (Ok a) ≫= f) st = f a st.
Proof. reflexivity. Qed.

Lemma bind_lift_Raise {A B : Type} (e : exn) (f : A → M B) (st : pystate) :
  (lift (Raise e) ≫= f) st = (Raise e, st).
Proof. reflexivity. Qed.

Lemma external_run {A : Type} (ev : event) (answer : outcome A) (st : pystate) :
  external ev answer st = (answer, logged st [ev]).
Proof. reflexivity. Qed.

Lemma logged_nil (st : pystate) : logged st [] = st.
Proof. destruct st as [o t]. unfold logged; simpl. by rewrite app_nil_r. Qed.

Lemma logged_logged (st : pystate) (evs1 evs2 : list event) :
  logged (logged st evs1) evs2 = logged st (evs1 ++ evs2).
Proof. unfold logged; simpl. by rewrite app_assoc. Qed.

(** ** Joining paths *)

Example posix_join_run :
  posix_join "/data" "weights.csv" = "/data/weights.csv"
  ∧ posix_join "/data/" "weights.csv" = "/data/weights.csv"
  ∧ posix_join "" "weights.csv" = "weights.csv"
  ∧ posix_join "/data" "/srv/weights.csv" = "/srv/weights.csv".
Proof. repeat split. Qed.

(** ** Looking keys up *)

Lemma get_nested_nil (w : World) (d default : value) :
  get_nested w d [] default = Ok d.
Proof. reflexivity. Qed.

Lemma get_nested_dict (w : World) (m : gmap string value) (k : string)
    (ks : list string) (default : value) :
  get_nested w (VDict m) (k :: ks) default
  = match m !! k with Some v => get_nested w v ks default | None => Ok default end.
Proof. reflexivity. Qed.

(** A look-up that found something other than the default went through
    mappings all the way down. *)
Lemma get_nested_found (w : World) (config : value) (a b : string) (default v : value) :
  get_nested w config [a; b] default = Ok v → v ≠ default →
  ∃ top m, config = VDict top ∧ top !! a = Some (VDict m) ∧ m !! b = Some v.
Proof.
  intros Hget Hv.
  destruct config as [| | | | | | top];
    try (unfold get_nested in Hget; destruct (on_non_mapping w); congruence).
  rewrite get_nested_dict in Hget.
  destruct (top !! a) as [sect |] eqn:Ha; [| congruence].
  destruct sect as [| | | | | | m];
    try (unfold get_nested in Hget; destruct (on_non_mapping w); congruence).
  rewrite get_nested_dict in Hget.
  destruct (m !! b) as [x |] eqn:Hb; [| congruence].
  rewrite get_nested_nil in Hget. exists top, m. naive_solver.
Qed.

(** Inside a section that is a mapping, a look-up cannot fail. *)
Lemma get_nested_section (w : World) (top m : gmap string value) (a b : string)
    (dflt : value) :
  top !! a = Some (VDict m) →
  get_nested w (VDict top) [a; b] dflt = Ok (default dflt (m !! b)).
Proof.
  intros Ha. rewrite get_nested_dict, Ha, get_nested_dict.
  by destruct (m !! b).
Qed.

(** ** Loading by URI *)

(** [load_model] on a configuration whose [model.uri] resolves: one call to
    the registry, and the wrapper is stripped from what comes back. *)
Lemma load_model_run (w : World) (config model_uri : value) (st : pystate) :
  get_nested w config ["model"; "uri"] VNone = Ok model_uri →
  model_uri ≠ VNone →
  load_model w config st = (loaded w model_uri, logged st [EvLoadModel model_uri]).
Proof.
  intros Hget Hv. unfold load_model, loaded.
  rewrite Hget, bind_lift_Ok.
  replace (is_none model_uri) with false by (by destruct model_uri).
  destruct (mlflow_pyfunc_load_model w model_uri) as [pyfunc_model | e].
  - by rewrite (bind_Ok _ _ st (logged st [EvLoadModel model_uri]) pyfunc_model).
  - by apply bind_Raise.
Qed.

Lemma load_model_uri_config (w : World) (uri : string) (st : pystate) :
  load_model w (uri_config (VStr uri)) st
  = (loaded w (VStr uri), logged st [EvLoadModel (VStr uri)]).
Proof. by apply load_model_run. Qed.

(** [load_model] on a string: there is no [model.uri] to find in it. *)
Lemma load_model_of_string (w : World) (s : string) (st : pystate) :
  load_model w (VStr s) st
  = (Raise (match on_non_mapping w with
            | ReturnDefault => ValueError "Model uri not provided."
            | RaiseTypeError => TypeError
            end), st).
Proof.
  unfold load_model, get_nested. by destruct (on_non_mapping w).
Qed.

(** ** Loading a list of URIs *)

Lemma mapM_cons {A B : Type} (f : A → M B) (x : A) (l : list A) :
  mapM f (x :: l) = (y ← f x; ys ← mapM f l; mret (y :: ys)).
Proof. reflexivity. Qed.

(** Every URI loads: the models come back in the order of the URIs. *)
Lemma mapM_load_model_all (w : World) (uris : list string) (models : list pyobj)
    (st : pystate) :
  Forall2 (λ u est, loaded w (VStr u) = Ok est) uris models →
  mapM (λ model_uri, load_model w (uri_config model_uri)) (VStr <$> uris) st
  = (Ok models, logged st (load_events uris)).
Proof.
  intros Hall. revert st.
  induction Hall as [| u est uris models Hu _ IH]; intros st.
  - simpl. by rewrite logged_nil.
  - rewrite fmap_cons, mapM_cons.
    rewrite (bind_Ok _ _ st (logged st [EvLoadModel (VStr u)]) est)
      by (by rewrite load_model_uri_config, Hu).
    rewrite (bind_Ok _ _ _ _ models (IH _)).
    by rewrite logged_logged.
Qed.

(** The URIs before [u] load and [u] does not: the error of [u] ends the
    comprehension, and nothing after [u] is asked for. *)
Lemma mapM_load_model_abort (w : World) (before after : list string) (u : string)
    (e : exn) (st : pystate) :
  Forall (λ u', ∃ est, loaded w (VStr u') = Ok est) before →
  loaded w (VStr u) = Raise e →
  mapM (λ model_uri, load_model w (uri_config model_uri))
       (VStr <$> (before ++ u :: after)) st
  = (Raise e, logged st (load_events (before ++ [u]))).
Proof.
  intros Hbefore Hu. revert st.
  induction Hbefore as [| u' before' [est Hu'] _ IH]; intros st.
  - simpl app. rewrite fmap_cons, mapM_cons.
    apply bind_Raise. by rewrite load_model_uri_config, Hu.
  - rewrite <- !app_comm_cons, fmap_cons, mapM_cons.
    rewrite (bind_Ok _ _ st (logged st [EvLoadModel (VStr u')]) est)
      by (by rewrite load_model_uri_config, Hu').
    rewrite (bind_Raise _ _ _ _ e (IH _)).
    by rewrite logged_logged.
Qed.

Lemma Forall_loaded_models (w : World) (uris : list string) :
  Forall (λ u, ∃ est, loaded w (VStr u) = Ok est) uris →
  ∃ models, Forall2 (λ u est, loaded w (VStr u) = Ok est) uris models.
Proof.
  induction 1 as [| u uris [est Hu] _ [models IH]].
  - by exists [].
  - exists (est :: models). by constructor.
Qed.

(** ** The steps of [setup_model] *)

(** Without a URI and with a type, [setup_model] is the class-weights options
    followed by the dispatch; [model.name] and [model.parameters] are read from
    the [model] section, which is a mapping because the type was found in it. *)
Lemma setup_model_builds (w : World) (config path_prefix model_type : value)
    (st : pystate) :
  get_nested w config ["global"; "root_path"] (VStr "") = Ok path_prefix →
  get_nested w config ["model"; "uri"] VNone = Ok VNone →
  get_nested w config ["model"; "type"] VNone = Ok model_type →
  model_type ≠ VNone →
  ∃ top m,
    config = VDict top ∧ top !! "model" = Some (VDict m)
    ∧ get_nested w config ["model"; "name"] VNone = Ok (default VNone (m !! "name"))
    ∧ get_nested w config ["model"; "parameters"] (VDict ∅)
      = Ok (default (VDict ∅) (m !! "parameters"))
    ∧ setup_model w config st
      = ('(has_class_weights, class_weights_dict) ←
           setup_model_class_weights w config path_prefix;
         setup_model_dispatch w config path_prefix model_type
           (default VNone (m !! "name")) (default (VDict ∅) (m !! "parameters"))
           has_class_weights class_weights_dict) st.
Proof.
  intros Hroot Huri Htype Hsome.
  destruct (get_nested_found w config "model" "type" VNone model_type Htype Hsome)
    as (top & m & -> & Hmodel & _).
  exists top, m. split; [done |]. split; [done |].
  pose proof (get_nested_section w top m "model" "name" VNone Hmodel) as Hname.
  pose proof (get_nested_section w top m "model" "parameters" (VDict ∅) Hmodel) as Hparams.
  split; [done |]. split; [done |].
  unfold setup_model.
  rewrite Hroot, bind_lift_Ok, Huri, bind_lift_Ok.
  change (negb (is_none VNone)) with false. cbv iota.
  rewrite Htype, bind_lift_Ok.
  replace (is_none model_type) with false by (by destruct model_type).
  by rewrite Hname, bind_lift_Ok, Hparams, bind_lift_Ok.
Qed.

(** A one-key look-up answers for every key, or for none. *)
Lemma get_nested_one_key (w : World) (d : value) (k k' : string) (dflt dflt' v : value) :
  get_nested w d [k] dflt = Ok v → ∃ v', get_nested w d [k'] dflt' = Ok v'.
Proof.
  destruct d as [| | | | | | m];
    try (unfold get_nested; destruct (on_non_mapping w); by eauto).
  intros _. rewrite get_nested_dict. destruct (m !! k'); eauto.
Qed.

(** The class-weights options without a file path: the error of line 78, and
    no file is read. *)
Lemma setup_model_class_weights_without_path (w : World)
    (config path_prefix class_weights_config_dict : value) (st : pystate) :
  get_nested w config ["model"; "class_weights"] VNone = Ok class_weights_config_dict →
  class_weights_config_dict ≠ VNone →
  get_nested w class_weights_config_dict ["file_path"] VNone = Ok VNone →
  setup_model_class_weights w config path_prefix st
  = (Raise (ValueError "Class weights file path not provided."), st).
Proof.
  intros Hcw Hsome Hpath. unfold setup_model_class_weights.
  rewrite Hcw, bind_lift_Ok.
  replace (is_none class_weights_config_dict) with false
    by (by destruct class_weights_config_dict).
  destruct (get_nested_one_key w class_weights_config_dict "file_path"
              "relative_or_absolute" VNone (VStr "absolute") VNone Hpath) as [roa Hroa].
  by rewrite Hroa, bind_lift_Ok, Hpath, bind_lift_Ok.
Qed.

(** The class-weights options with a file path: one read, of the file at the
    root path joined with the file path. *)
Lemma setup_model_class_weights_reads (w : World)
    (config class_weights_config_dict : value) (root file_path : string) (st : pystate) :
  get_nested w config ["model"; "class_weights"] VNone = Ok class_weights_config_dict →
  get_nested w class_weights_config_dict ["file_path"] VNone = Ok (VStr file_path) →
  setup_model_class_weights w config (VStr root) st
  = (match read_class_weights_from_file w (posix_join root file_path) with
     | Ok class_weights_dict => Ok (true, class_weights_dict)
     | Raise e => Raise e
     end,
     logged st [EvReadClassWeights (posix_join root file_path)]).
Proof.
  intros Hcw Hpath. unfold setup_model_class_weights.
  rewrite Hcw, bind_lift_Ok.
  assert (is_none class_weights_config_dict = false) as ->.
  { destruct class_weights_config_dict; try done.
    unfold get_nested in Hpath. destruct (on_non_mapping w); congruence. }
  destruct (get_nested_one_key w class_weights_config_dict "file_path"
              "relative_or_absolute" VNone (VStr "absolute") _ Hpath) as [roa Hroa].
  rewrite Hroa, bind_lift_Ok, Hpath, bind_lift_Ok.
  change (is_none (VStr file_path)) with false. cbv iota.
  change (os_path_join (VStr root) (VStr file_path))
    with (Ok (A := string) (posix_join root file_path)).
  rewrite bind_lift_Ok.
  destruct (read_class_weights_from_file w (posix_join root file_path)) as [cwd | e].
  - by rewrite (bind_Ok _ _ st
                  (logged st [EvReadClassWeights (posix_join root file_path)]) cwd).
  - by apply bind_Raise.
Qed.

(** No class-weights options: nothing is read. *)
Lemma setup_model_class_weights_none (w : World) (config path_prefix : value)
    (st : pystate) :
  get_nested w config ["model"; "class_weights"] VNone = Ok VNone →
  setup_model_class_weights w config path_prefix st = (Ok (false, VNone), st).
Proof.
  intros Hcw. unfold setup_model_class_weights. by rewrite Hcw, bind_lift_Ok.
Qed.

(** ** The dispatch on the type tag *)

Lemma dispatch_knn (w : World) (config path_prefix model_name parameters : value)
    (has_class_weights : bool) (class_weights_dict : value) (st : pystate) :
  setup_model_dispatch w config path_prefix (VStr "TF-IDF-KNN") model_name parameters
                       has_class_weights class_weights_dict st
  = (match expand_kwargs parameters with
     | Ok kwargs =>
         if accepts w "KNeighborsClassifier" (keywords_of kwargs)
         then Ok (TF_IDF_Classifier (KNeighborsClassifier kwargs) model_name None)
         else Raise TypeError
     | Raise e => Raise e
     end, st).
Proof.
  unfold setup_model_dispatch, sklearn_call. simpl.
  destruct (expand_kwargs parameters) as [kwargs | e]; [| done].
  rewrite bind_lift_Ok. by destruct (accepts w "KNeighborsClassifier" (keywords_of kwargs)).
Qed.

Lemma dispatch_svm (w : World) (config path_prefix model_name parameters : value)
    (has_class_weights : bool) (class_weights_dict : value) (st : pystate) :
  setup_model_dispatch w config path_prefix (VStr "TF-IDF-SVM") model_name parameters
                       has_class_weights class_weights_dict st
  = (match expand_kwargs_with "probability" parameters with
     | Ok kwargs =>
         if accepts w "SVC" ("probability" :: keywords_of kwargs)
         then Ok (TF_IDF_Classifier (SVC true kwargs) model_name
                    (if has_class_weights then Some class_weights_dict else None))
         else Raise TypeError
     | Raise e => Raise e
     end, st).
Proof.
  unfold setup_model_dispatch, sklearn_call. simpl.
  destruct (expand_kwargs_with "probability" parameters) as [kwargs | e]; [| done].
  rewrite bind_lift_Ok.
  destruct (accepts w "SVC" ("probability" :: keywords_of kwargs)); [| done].
  by destruct has_class_weights.
Qed.

Lemma dispatch_rf (w : World) (config path_prefix model_name parameters : value)
    (has_class_weights : bool) (class_weights_dict : value) (st : pystate) :
  setup_model_dispatch w config path_prefix (VStr "TF-IDF-RF") model_name parameters
                       has_class_weights class_weights_dict st
  = (match expand_kwargs parameters with
     | Ok kwargs =>
         if accepts w "RandomForestClassifier" (keywords_of kwargs)
         then Ok (TF_IDF_Classifier (RandomForestClassifier kwargs) model_name
                    (if has_class_weights then Some class_weights_dict else None))
         else Raise TypeError
     | Raise e => Raise e
     end, st).
Proof.
  unfold setup_model_dispatch, sklearn_call. simpl.
  destruct (expand_kwargs parameters) as [kwargs | e]; [| done].
  rewrite bind_lift_Ok.
  destruct (accepts w "RandomForestClassifier" (keywords_of kwargs)); [| done].
  by destruct has_class_weights.
Qed.

Lemma dispatch_unrecognized (w : World) (config path_prefix model_name parameters : value)
    (has_class_weights : bool) (class_weights_dict : value) (s : string) (st : pystate) :
  s ∉ recognized_types →
  setup_model_dispatch w config path_prefix (VStr s) model_name parameters
                       has_class_weights class_weights_dict st
  = (Raise (ValueError ("Model type " +:+ s +:+ " not recognized.")), st).
Proof.
  intros Hs. unfold setup_model_dispatch, py_eq_str.
  repeat match goal with
    | |- context [String.eqb s ?tag] =>
        destruct (String.eqb_spec s tag) as [-> | _];
        [exfalso; apply Hs; unfold recognized_types; set_solver |]
    end.
  reflexivity.
Qed.

(** ** A message names what it contains *)

Lemma names_unfold (haystack needle : string) :
  names haystack needle
  = (String.prefix needle haystack ||
     match haystack with
     | EmptyString => false
     | String _ rest => names rest needle
     end)%bool.
Proof. by destruct haystack. Qed.

Lemma prefix_app (s rest : string) : String.prefix s (s +:+ rest) = true.
Proof.
  induction s as [| c s IH]; simpl; [by destruct rest |].
  destruct (ascii_dec c c); [done | congruence].
Qed.

Lemma names_app (before s after : string) : names (before +:+ s +:+ after) s = true.
Proof.
  induction before as [| c before IH].
  - change ("" +:+ s +:+ after) with (s +:+ after).
    by rewrite names_unfold, prefix_app.
  - change (String c before +:+ s +:+ after) with (String c (before +:+ s +:+ after)).
    rewrite names_unfold, IH. apply orb_true_r.
Qed.

Lemma not_recognized (s : string) :
  forallb (λ tag, negb (String.eqb s tag)) recognized_types = true →
  s ∉ recognized_types.
Proof.
  intros Hall Hin. apply list_elem_of_In in Hin.
  rewrite forallb_forall in Hall. specialize (Hall s Hin).
  by rewrite String.eqb_refl in Hall.
Qed.

(** ** Configurations that differ in [relative_or_absolute] only *)

Lemma bind_ext {A B : Type} (m m' : M A) (f g : A → M B) (st : pystate) :
  m st = m' st → (∀ a st', f a st' = g a st') → (m ≫= f) st = (m' ≫= g) st.
Proof.
  intros Hm Hfg. unfold mbind, M_bind. rewrite Hm.
  destruct (m' st) as [[a | e] st']; [apply Hfg | done].
Qed.

Section RelativeOrAbsolute.

Variable w : World.
Variables top m cw : gmap string value.

Local Abbreviation config roa := (with_relative_or_absolute top m cw roa).

Lemma roa_other_section (roa : option value) (a : string) (ks : list string)
    (dflt : value) :
  a ≠ "model" →
  get_nested w (config roa) (a :: ks) dflt = get_nested w (VDict top) (a :: ks) dflt.
Proof.
  intros Ha. unfold with_relative_or_absolute.
  by rewrite !get_nested_dict, lookup_insert_ne.
Qed.

Lemma roa_model_key (roa : option value) (b : string) (dflt : value) :
  b ≠ "class_weights" →
  get_nested w (config roa) ["model"; b] dflt = Ok (default dflt (m !! b)).
Proof.
  intros Hb. unfold with_relative_or_absolute.
  rewrite get_nested_dict, lookup_insert_eq, get_nested_dict, lookup_insert_ne by done.
  by destruct (m !! b).
Qed.

Lemma roa_class_weights (roa : option value) (dflt : value) :
  get_nested w (config roa) ["model"; "class_weights"] dflt
  = Ok (VDict (partial_alter (λ _, roa) "relative_or_absolute" cw)).
Proof.
  unfold with_relative_or_absolute.
  by rewrite get_nested_dict, lookup_insert_eq, get_nested_dict, lookup_insert_eq.
Qed.

Lemma roa_weights_key (roa : option value) (k : string) (dflt : value) :
  k ≠ "relative_or_absolute" →
  get_nested w (VDict (partial_alter (λ _, roa) "relative_or_absolute" cw)) [k] dflt
  = Ok (default dflt (cw !! k)).
Proof.
  intros Hk. rewrite get_nested_dict, lookup_partial_alter_ne by done.
  by destruct (cw !! k).
Qed.

Lemma roa_weights_roa (roa : option value) (dflt : value) :
  get_nested w (VDict (partial_alter (λ _, roa) "relative_or_absolute" cw))
             ["relative_or_absolute"] dflt
  = Ok (default dflt roa).
Proof. rewrite get_nested_dict, lookup_partial_alter_eq. by destruct roa. Qed.

(** The class-weights options do not look at the value of the key. *)
Lemma roa_class_weights_options (roa : option value) (path_prefix : value) (st : pystate) :
  setup_model_class_weights w (config roa) path_prefix st
  = setup_model_class_weights w (config None) path_prefix st.
Proof.
  unfold setup_model_class_weights.
  rewrite !roa_class_weights. do 2 rewrite bind_lift_Ok.
  change (is_none (VDict ?x)) with false. cbv iota.
  rewrite !roa_weights_roa. do 2 rewrite bind_lift_Ok.
  by rewrite !roa_weights_key.
Qed.

(** Nor does the dispatch. *)
Lemma roa_dispatch (roa : option value)
    (path_prefix model_type model_name parameters : value)
    (has_class_weights : bool) (class_weights_dict : value) (st : pystate) :
  setup_model_dispatch w (config roa) path_prefix model_type model_name parameters
                       has_class_weights class_weights_dict st
  = setup_model_dispatch w (config None) path_prefix model_type model_name parameters
                         has_class_weights class_weights_dict st.
Proof.
  unfold setup_model_dispatch, setup_model_xgboost.
  repeat match goal with
    | |- context [if py_eq_str model_type ?tag then _ else _] =>
        destruct (py_eq_str model_type tag)
    end; try reflexivity.
  - by rewrite !roa_model_key.
  - apply bind_ext; [done |]. intros kwargs st'.
    unfold with_relative_or_absolute, py_getitem.
    rewrite !lookup_insert_eq. do 2 rewrite bind_lift_Ok.
    by rewrite !lookup_insert_ne.
Qed.

Lemma roa_setup_model (roa : option value) (st : pystate) :
  setup_model w (config roa) st = setup_model w (config None) st.
Proof.
  unfold setup_model.
  rewrite !(roa_other_section _ "global") by done.
  rewrite !roa_model_key by done.
  apply bind_ext; [done |]. intros path_prefix st1.
  apply bind_ext; [done |]. intros model_uri st2.
  destruct (negb (is_none model_uri)); [done |].
  apply bind_ext; [done |]. intros model_type st3.
  destruct (is_none model_type); [done |].
  apply bind_ext; [done |]. intros model_name st4.
  apply bind_ext; [done |]. intros parameters st5.
  apply bind_ext; [apply roa_class_weights_options |].
  intros [has_class_weights class_weights_dict] st6.
  apply roa_dispatch.
Qed.

End RelativeOrAbsolute.

(** Every configuration whose class weights are a mapping is of this form. *)
Lemma with_relative_or_absolute_self (top m cw : gmap string value) :
  top !! "model" = Some (VDict m) →
  m !! "class_weights" = Some (VDict cw) →
  with_relative_or_absolute top m cw (cw !! "relative_or_absolute") = VDict top.
Proof.
  intros Hm Hcw. unfold with_relative_or_absolute.
  rewrite partial_alter_self, (insert_id m) by done.
  by rewrite insert_id.
Qed.

(** With a root path and a class-weights file path, [setup_model] reads the
    weights next and then dispatches on the type. *)
Lemma setup_model_with_weights (w : World)
    (config model_type class_weights_config_dict : value) (root file_path : string)
    (st : pystate) :
  get_nested w config ["global"; "root_path"] (VStr "") = Ok (VStr root) →
  get_nested w config ["model"; "uri"] VNone = Ok VNone →
  get_nested w config ["model"; "type"] VNone = Ok model_type →
  model_type ≠ VNone →
  get_nested w config ["model"; "class_weights"] VNone = Ok class_weights_config_dict →
  get_nested w class_weights_config_dict ["file_path"] VNone = Ok (VStr file_path) →
  ∃ model_name parameters,
    setup_model w config st
    = match read_class_weights_from_file w (posix_join root file_path) with
      | Ok class_weights_dict =>
          setup_model_dispatch w config (VStr root) model_type model_name parameters
            true class_weights_dict
            (logged st [EvReadClassWeights (posix_join root file_path)])
      | Raise e => (Raise e, logged st [EvReadClassWeights (posix_join root file_path)])
      end.
Proof.
  intros Hroot Huri Htype Hsome Hcw Hpath.
  destruct (setup_model_builds w config (VStr root) model_type st Hroot Huri Htype Hsome)
    as (top & m & _ & _ & _ & _ & ->).
  exists (default VNone (m !! "name")), (default (VDict ∅) (m !! "parameters")).
  pose proof (setup_model_class_weights_reads w config class_weights_config_dict
                root file_path st Hcw Hpath) as Hread.
  destruct (read_class_weights_from_file w (posix_join root file_path)) as [cwd | e].
  - by rewrite (bind_Ok _ _ _ _ _ Hread).
  - by rewrite (bind_Raise _ _ _ _ _ Hread).
Qed.

(** ** The version of a model URI *)

(** C6: for every model URI, [model_uri_to_version] asks the registry for the
    metadata of that URI (one call, with the URI as given) and returns the run
    identifier recorded in that metadata, as it is. *)
Theorem model_uri_to_version_run_id (w : World) (model_uri : value)
    (model_info : ModelInfo) (st : pystate) :
  mlflow_models_get_model_info w model_uri = Ok model_info →
  model_uri_to_version w model_uri st
  = (Ok (run_id model_info), logged st [EvGetModelInfo model_uri]).
Proof.
  intros Hinfo. unfold model_uri_to_version.
  rewrite (bind_Ok _ _ st (logged st [EvGetModelInfo model_uri]) model_info).
  - reflexivity.
  - by rewrite external_run, Hinfo.
Qed.

Lemma model_uri_to_version_run_id_example :
  model_uri_to_version (Example.world ReturnDefault) (VStr "runs:/abc123def/model")
                       Example.start
  = (Ok (VStr "abc123def"),
     logged Example.start [EvGetModelInfo (VStr "runs:/abc123def/model")]).
Proof.
  apply (model_uri_to_version_run_id (Example.world ReturnDefault)
           (VStr "runs:/abc123def/model")
           {| run_id := VStr "abc123def"; model_uuid := "5f1c" |}).
  reflexivity.
Defined.

(** When the registry has no metadata, its error is the caller's. *)
Lemma model_uri_to_version_error (w : World) (model_uri : value) (e : exn) (st : pystate) :
  mlflow_models_get_model_info w model_uri = Raise e →
  model_uri_to_version w model_uri st = (Raise e, logged st [EvGetModelInfo model_uri]).
Proof.
  intros Hinfo. unfold model_uri_to_version.
  apply bind_Raise. by rewrite external_run, Hinfo.
Qed.

(** ** The configuration is left as it was *)

Lemma keeps_same {A : Type} (n : nat) (m : M A) (st : pystate) :
  objects (m st).2 = objects st → ByReference.keeps n m st.
Proof. intros Hsame Hn. by rewrite Hsame. Qed.

Lemma keeps_bind {A B : Type} (n : nat) (m : M A) (f : A → M B) (st : pystate) :
  ByReference.keeps n m st →
  (∀ a st', (n ≤ length (objects st))%nat → m st = (Ok a, st') →
            ByReference.keeps n (f a) st') →
  ByReference.keeps n (m ≫= f) st.
Proof.
  intros Hm Hf Hn. destruct (Hm Hn) as [Htake Hlen].
  unfold mbind, M_bind.
  destruct (m st) as [[a | e] st'] eqn:Hrun; simpl in *; [| done].
  destruct (Hf a st' Hn eq_refl Hlen) as [Htake' Hlen'].
  split; [by rewrite Htake' | done].
Qed.

Lemma keeps_mapM {A B : Type} (n : nat) (f : A → M B) (l : list A) (st : pystate) :
  (∀ a st', ByReference.keeps n (f a) st') → ByReference.keeps n (mapM f l) st.
Proof.
  intros Hf. revert st. induction l as [| x l IH]; intros st.
  - by apply keeps_same.
  - rewrite mapM_cons. apply keeps_bind; [apply Hf |]. intros y st1 _ _.
    apply keeps_bind; [apply IH |]. intros ys st2 _ _. by apply keeps_same.
Qed.

(** A new object goes after the objects there are. *)
Lemma keeps_new (n : nat) (c : cell) (st : pystate) :
  ByReference.keeps n (ByReference.new c) st.
Proof.
  intros Hn. unfold ByReference.new. simpl. split.
  - by rewrite take_app_le.
  - rewrite length_app. lia.
Qed.

Lemma new_fresh (c : cell) (st st' : pystate) (p : pyval) :
  ByReference.new c st = (Ok p, st') → p = PRef (length (objects st)).
Proof. unfold ByReference.new. by intros [= <- _]. Qed.

(** A write into an object that is not among the first [n]. *)
Lemma keeps_set_class_weights (n l : nat) (weights : value) (st : pystate) :
  (n ≤ l)%nat →
  ByReference.keeps n (ByReference.set_class_weights (PRef l) weights) st.
Proof.
  intros Hl Hn. unfold ByReference.set_class_weights.
  destruct (objects st !! l) as [[m | ps | o] |]; simpl; try done.
  split; [by apply take_insert_ge | by rewrite length_insert].
Qed.

Ltac keeps_step :=
  first
    [ apply keeps_same; reflexivity
    | apply keeps_new
    | match goal with
      | Hn : (?n ≤ length (objects ?st0))%nat,
        Hnew : ByReference.new _ ?st0 = (Ok ?p, _)
        |- ByReference.keeps ?n (ByReference.set_class_weights ?p _) _ =>
          rewrite (new_fresh _ _ _ _ Hnew); apply keeps_set_class_weights; exact Hn
      end
    | apply keeps_mapM; intros ? ?
    | apply keeps_bind; [| intros ? ? ? ? ]
    | match goal with
      | |- ByReference.keeps _ (if ?b then _ else _) _ => destruct b
      | |- ByReference.keeps _ (match ?x with _ => _ end) _ => destruct x
      end ].

Lemma keeps_load_model (w : World) (n : nat) (config : pyval) (st : pystate) :
  ByReference.keeps n (ByReference.load_model w config) st.
Proof. unfold ByReference.load_model. repeat keeps_step. Qed.

Lemma keeps_load_model_info (w : World) (n : nat) (config : pyval) (st : pystate) :
  ByReference.keeps n (ByReference.load_model_info w config) st.
Proof. unfold ByReference.load_model_info. repeat keeps_step. Qed.

Lemma keeps_uri_config (n : nat) (model_uri : pyval) (st : pystate) :
  ByReference.keeps n (ByReference.uri_config model_uri) st.
Proof. unfold ByReference.uri_config. repeat keeps_step. Qed.







(** The objects there were are the first objects of the store after a run
    that keeps all of them. *)
Lemma keeps_prefix {A : Type} (m : M A) (st : pystate) :
  ByReference.keeps (length (objects st)) m st →
  objects st `prefix_of` objects (m st).2.
Proof.
  intros Hkeeps. destruct (Hkeeps (le_n _)) as [Htake _].
  rewrite firstn_all in Htake. rewrite <- Htake.
  exists (drop (length (objects st)) (objects (m st).2)). by rewrite take_drop.
Qed.

(** A tree stays the tree it is when the depth allowed grows and objects are
    added to the store. *)
Lemma tree_stable (n k : nat) (h h' : list cell) (p : pyval) :
  ByReference.tree n h p →
  ByReference.tree (n + k) (h ++ h') p
  ∧ ByReference.reify (n + k) (h ++ h') p = ByReference.reify n h p.
Proof.
  revert p. induction n as [| n IH]; intros p Htree.
  - destruct p; try done; by destruct k.
  - destruct p as [| | | | | l]; try done. simpl in *.
    destruct (h !! l) as [[m | ps | o] |] eqn:Hl; try done.
    + rewrite (lookup_app_l_Some _ _ _ _ Hl). split.
      * intros key q Hq. by apply IH, (Htree key).
      * f_equal. apply map_fmap_ext. intros key q Hq. by apply IH, (Htree key).
    + rewrite (lookup_app_l_Some _ _ _ _ Hl). split.
      * eapply Forall_impl; [exact Htree |]. intros q Hq. by apply IH.
      * f_equal. apply Forall_fmap_ext. eapply Forall_impl; [exact Htree |].
        intros q Hq. by apply IH.
Qed.

Lemma stands_for_app (h h' : list cell) (p : pyval) (v : value) :
  ByReference.stands_for h p v → ByReference.stands_for (h ++ h') p v.
Proof.
  intros (n & Hn & Htree & <-). exists n.
  destruct (tree_stable n 0 h h' p Htree) as [Htree' Heq].
  rewrite Nat.add_0_r in Htree', Heq.
  split; [rewrite length_app; lia | done].
Qed.

Lemma stands_for_prefix (h h' : list cell) (p : pyval) (v : value) :
  h `prefix_of` h' → ByReference.stands_for h p v → ByReference.stands_for h' p v.
Proof. intros [k ->]. apply stands_for_app. Qed.





(** The configuration of the class-weights examples, held in a store: its tree
    is [Example.with_weights "TF-IDF-SVM"].  [setup_model] makes two objects,
    the default parameters and the model, and writes the class weights into
    the model; the four dictionaries of the configuration stay as they are. *)
Example by_reference_run :
  ByReference.snapshot Example.svm_store (PRef 0) = Example.with_weights "TF-IDF-SVM"
  ∧ ByReference.setup_model (Example.world ReturnDefault) (PRef 0)
      (Example.holding Example.svm_store)
    = (Ok (PRef 5),
       {| objects :=
            Example.svm_store
            ++ [ ODict ∅;
                 OInstance (TF_IDF_Classifier (SVC true ∅) VNone
                              (Some (VDict {[ "spam" := VInt 3 ]}))) ];
          trace := [EvReadClassWeights "/data/weights.csv"] |}).
Proof. split; vm_compute; reflexivity. Qed.

(** A list of two URIs, held in a store: each item gets its two new
    dictionaries and the estimator that was loaded. *)
Example by_reference_list_run :
  ByReference.load_model_list (Example.world ReturnDefault) (PRef 0)
    (Example.holding Example.list_store)
  = (Ok [PRef 4; PRef 7],
     {| objects :=
          Example.list_store
          ++ [ ODict {[ "uri" := PStr "runs:/abc123def/model" ]};
               ODict {[ "model" := PRef 2 ]};
               OInstance (StoredEstimator "abc123def");
               ODict {[ "uri" := PStr "models:/spam/3" ]};
               ODict {[ "model" := PRef 5 ]};
               OInstance (StoredEstimator "spam-3") ];
        trace := load_events ["runs:/abc123def/model"; "models:/spam/3"] |}).
Proof. vm_compute. reflexivity. Qed.

(** ** Neither a URI nor a type *)

(** With the look-ups answering, the error is the one of line 62. *)
Lemma setup_model_type_not_provided (w : World) (config path_prefix : value) (st : pystate) :
  get_nested w config ["global"; "root_path"] (VStr "") = Ok path_prefix →
  get_nested w config ["model"; "uri"] VNone = Ok VNone →
  get_nested w config ["model"; "type"] VNone = Ok VNone →
  setup_model w config st = (Raise (ValueError "Model type not provided."), st).
Proof.
  intros Hroot Huri Htype. unfold setup_model.
  rewrite Hroot, bind_lift_Ok, Huri, bind_lift_Ok. simpl.
  by rewrite Htype, bind_lift_Ok.
Qed.

(** C2: for every configuration in which [model.uri] and [model.type] are both
    absent, or resolve to no value, [setup_model] raises an error and returns
    no model. *)
Theorem setup_model_without_uri_and_type (w : World) (config : value) (st : pystate) :
  absent w config ["model"; "uri"] →
  absent w config ["model"; "type"] →
  ∃ e, setup_model w config st = (Raise e, st).
Proof.
  intros Huri Htype. unfold setup_model.
  destruct (get_nested w config ["global"; "root_path"] (VStr "")) as [path_prefix | e];
    [rewrite bind_lift_Ok | by exists e].
  destruct (get_nested w config ["model"; "uri"] VNone) as [model_uri | e] eqn:Hu;
    [rewrite bind_lift_Ok | by exists e].
  rewrite (Huri model_uri Hu). simpl.
  destruct (get_nested w config ["model"; "type"] VNone) as [model_type | e] eqn:Ht;
    [rewrite bind_lift_Ok | by exists e].
  rewrite (Htype model_type Ht). simpl.
  by exists (ValueError "Model type not provided.").
Qed.

Lemma setup_model_without_uri_and_type_example :
  ∃ e, setup_model (Example.world RaiseTypeError) Example.empty Example.start
       = (Raise e, Example.start).
Proof.
  apply (setup_model_without_uri_and_type (Example.world RaiseTypeError)
           Example.empty Example.start).
  - intros v Hv. vm_compute in Hv. congruence.
  - intros v Hv. vm_compute in Hv. congruence.
Defined.

(** ** A configuration with a URI *)

(** C1: where [model.uri] is present, [setup_model] is meant to return what
    [load_model] returns for that configuration.  It hands [load_model] the URI
    itself instead of a configuration holding it (line 58), so for a URI [u]
    [load_model] asks the registry for [u] while [setup_model] raises and the
    registry is never asked. *)
Theorem setup_model_uri_is_not_loaded (w : World) (config : value) (u : string)
    (st : pystate) :
  get_nested w config ["model"; "uri"] VNone = Ok (VStr u) →
  load_model w config st = (loaded w (VStr u), logged st [EvLoadModel (VStr u)])
  ∧ ∃ e, setup_model w config st = (Raise e, st).
Proof.
  intros Huri. split; [by apply load_model_run |].
  unfold setup_model.
  destruct (get_nested w config ["global"; "root_path"] (VStr "")) as [path_prefix | e];
    [rewrite bind_lift_Ok | by exists e].
  rewrite Huri, bind_lift_Ok. simpl.
  rewrite load_model_of_string. eauto.
Qed.

Lemma setup_model_uri_is_not_loaded_example :
  load_model (Example.world ReturnDefault) Example.uri_only Example.start
  = (loaded (Example.world ReturnDefault) (VStr "runs:/abc123def/model"),
     logged Example.start [EvLoadModel (VStr "runs:/abc123def/model")])
  ∧ ∃ e, setup_model (Example.world ReturnDefault) Example.uri_only Example.start
         = (Raise e, Example.start).
Proof.
  apply (setup_model_uri_is_not_loaded (Example.world ReturnDefault) Example.uri_only
           "runs:/abc123def/model" Example.start).
  reflexivity.
Defined.

(** The same configuration, run: the registry holds an estimator for the URI,
    [load_model] returns it, and [setup_model] fails under either behaviour of
    the look-up helper. *)
Example setup_model_uri_run :
  load_model (Example.world ReturnDefault) Example.uri_only Example.start
  = (Ok (StoredEstimator "abc123def"),
     logged Example.start [EvLoadModel (VStr "runs:/abc123def/model")])
  ∧ setup_model (Example.world ReturnDefault) Example.uri_only Example.start
    = (Raise (ValueError "Model uri not provided."), Example.start)
  ∧ setup_model (Example.world RaiseTypeError) Example.uri_only Example.start
    = (Raise TypeError, Example.start).
Proof. repeat split; vm_compute; reflexivity. Qed.

(** ** A list of URIs *)

(** C5: for every configuration whose [model_list] is a list of URIs,
    [load_model_list] returns a list of the same length whose i-th element is
    the model loaded for the i-th URI; and when a URI fails to load, the first
    such failure is the outcome of the whole call: no list is returned and no
    later URI is asked for. *)
Theorem load_model_list_in_order (w : World) (config : value) (uris : list string)
    (st : pystate) :
  py_getitem config "model_list" = Ok (VList (VStr <$> uris)) →
  (Forall (λ u, ∃ est, loaded w (VStr u) = Ok est) uris →
   ∃ models,
     load_model_list w config st = (Ok models, logged st (load_events uris))
     ∧ length models = length uris
     ∧ ∀ i u, uris !! i = Some u →
         ∃ est, models !! i = Some est ∧ loaded w (VStr u) = Ok est)
  ∧ (∀ before u after e,
       uris = before ++ u :: after →
       Forall (λ u', ∃ est, loaded w (VStr u') = Ok est) before →
       loaded w (VStr u) = Raise e →
       load_model_list w config st
       = (Raise e, logged st (load_events (before ++ [u])))).
Proof.
  intros Hlist. unfold load_model_list. rewrite Hlist, bind_lift_Ok.
  simpl py_iter. rewrite bind_lift_Ok. split.
  - intros Hall. destruct (Forall_loaded_models w uris Hall) as [models Hmodels].
    exists models. split; [by apply mapM_load_model_all |].
    split; [symmetry; by eapply Forall2_length |].
    intros i u Hi.
    destruct (Forall2_lookup_l _ _ _ _ _ Hmodels Hi) as (est & Hest & Hu). eauto.
  - intros before u after e -> Hbefore Hu. by apply mapM_load_model_abort.
Qed.

Lemma load_model_list_in_order_example :
  (∃ models,
     load_model_list (Example.world ReturnDefault)
                     (Example.model_list_of Example.three_uris) Example.start
     = (Ok models, logged Example.start (load_events Example.three_uris))
     ∧ length models = length Example.three_uris
     ∧ ∀ i u, Example.three_uris !! i = Some u →
         ∃ est, models !! i = Some est
                ∧ loaded (Example.world ReturnDefault) (VStr u) = Ok est)
  ∧ load_model_list (Example.world ReturnDefault)
                    (Example.model_list_of Example.one_uri_gone) Example.start
    = (Raise (ExternalError "RESOURCE_DOES_NOT_EXIST"),
       logged Example.start (load_events (["runs:/abc123def/model"] ++ ["runs:/gone/model"]))).
Proof.
  split.
  - apply (proj1 (load_model_list_in_order (Example.world ReturnDefault)
                    (Example.model_list_of Example.three_uris) Example.three_uris
                    Example.start eq_refl)).
    repeat constructor; eexists; reflexivity.
  - apply (proj2 (load_model_list_in_order (Example.world ReturnDefault)
                    (Example.model_list_of Example.one_uri_gone) Example.one_uri_gone
                    Example.start eq_refl)
             ["runs:/abc123def/model"] "runs:/gone/model" ["models:/spam/3"]).
    + reflexivity.
    + repeat constructor; eexists; reflexivity.
    + reflexivity.
Defined.

(** Three URIs the registry knows, and the same list with an unknown URI in
    the second place. *)
Example load_model_list_run :
  load_model_list (Example.world ReturnDefault)
                  (Example.model_list_of Example.three_uris) Example.start
  = (Ok [StoredEstimator "abc123def"; StoredEstimator "0a1b"; StoredEstimator "spam-3"],
     logged Example.start (load_events Example.three_uris))
  ∧ load_model_list (Example.world ReturnDefault)
      (Example.model_list_of Example.one_uri_gone) Example.start
    = (Raise (ExternalError "RESOURCE_DOES_NOT_EXIST"),
       logged Example.start (load_events ["runs:/abc123def/model"; "runs:/gone/model"])).
Proof. split; vm_compute; reflexivity. Qed.

(** ** An unrecognized type *)

(** C3, as amended: for every configuration with no [model.uri] whose
    [model.type] is a string outside the six recognized tags, and whose
    [global.root_path] and class-weights options are read without error,
    [setup_model] raises [ValueError("Model type <type> not recognized.")], a
    message that names the offending string. *)
Theorem setup_model_unrecognized_type (w : World) (config path_prefix : value)
    (s : string) (has_class_weights : bool) (class_weights_dict : value)
    (st st' : pystate) :
  get_nested w config ["global"; "root_path"] (VStr "") = Ok path_prefix →
  get_nested w config ["model"; "uri"] VNone = Ok VNone →
  get_nested w config ["model"; "type"] VNone = Ok (VStr s) →
  s ∉ recognized_types →
  setup_model_class_weights w config path_prefix st
  = (Ok (has_class_weights, class_weights_dict), st') →
  setup_model w config st
  = (Raise (ValueError ("Model type " +:+ s +:+ " not recognized.")), st')
  ∧ names ("Model type " +:+ s +:+ " not recognized.") s = true.
Proof.
  intros Hroot Huri Htype Hs Hweights.
  destruct (setup_model_builds w config path_prefix (VStr s) st Hroot Huri Htype)
    as (top & m & _ & _ & _ & _ & ->); [done |].
  split; [| apply names_app].
  rewrite (bind_Ok _ _ _ _ _ Hweights).
  by apply dispatch_unrecognized.
Qed.

Lemma setup_model_unrecognized_type_example :
  setup_model (Example.world RaiseTypeError) Example.unknown_type Example.start
  = (Raise (ValueError ("Model type " +:+ "TF-IDF-LSTM" +:+ " not recognized.")),
     Example.start)
  ∧ names ("Model type " +:+ "TF-IDF-LSTM" +:+ " not recognized.") "TF-IDF-LSTM" = true.
Proof.
  apply (setup_model_unrecognized_type (Example.world RaiseTypeError)
           Example.unknown_type (VStr "") "TF-IDF-LSTM" false VNone
           Example.start Example.start).
  - reflexivity.
  - reflexivity.
  - reflexivity.
  - by apply not_recognized.
  - reflexivity.
Defined.

(** C3, as stated, fails: the type is an unrecognized string, and the error
    raised is the one about the class-weights file path, which does not name
    it. *)
Lemma unrecognized_type_not_named :
  get_nested (Example.world ReturnDefault) Example.unknown_type_weights_without_path
             ["model"; "type"] VNone = Ok (VStr "TF-IDF-LSTM")
  ∧ ("TF-IDF-LSTM" ∉ recognized_types)
  ∧ setup_model (Example.world ReturnDefault) Example.unknown_type_weights_without_path
                Example.start
    = (Raise (ValueError "Class weights file path not provided."), Example.start)
  ∧ setup_model (Example.world RaiseTypeError) Example.unknown_type_weights_without_path
                Example.start
    = (Raise (ValueError "Class weights file path not provided."), Example.start)
  ∧ names "Class weights file path not provided." "TF-IDF-LSTM" = false.
Proof.
  split; [reflexivity |]. split; [by apply not_recognized |].
  repeat split; vm_compute; reflexivity.
Qed.

(** ** The nearest-neighbour classifier *)

(** C4, as amended: for every configuration with no [model.uri], with
    [model.type = "TF-IDF-KNN"] and a parameters mapping all of whose keys are
    keywords that the [KNeighborsClassifier] constructor declares, whose
    [global.root_path] and class-weights options are read without error,
    [setup_model] returns a [TF_IDF_Classifier] whose baseline classifier is a
    [KNeighborsClassifier] built with exactly the supplied parameters as
    keyword arguments and whose model name is the configured [model.name]. *)
Theorem setup_model_knn (w : World) (config path_prefix : value)
    (parameters : gmap string value) (has_class_weights : bool)
    (class_weights_dict : value) (st st' : pystate) :
  get_nested w config ["global"; "root_path"] (VStr "") = Ok path_prefix →
  get_nested w config ["model"; "uri"] VNone = Ok VNone →
  get_nested w config ["model"; "type"] VNone = Ok (VStr "TF-IDF-KNN") →
  get_nested w config ["model"; "parameters"] (VDict ∅) = Ok (VDict parameters) →
  accepts w "KNeighborsClassifier" (keywords_of parameters) = true →
  setup_model_class_weights w config path_prefix st
  = (Ok (has_class_weights, class_weights_dict), st') →
  ∃ model_name,
    get_nested w config ["model"; "name"] VNone = Ok model_name
    ∧ setup_model w config st
      = (Ok (TF_IDF_Classifier (KNeighborsClassifier parameters) model_name None), st').
Proof.
  intros Hroot Huri Htype Hparams Hdeclared Hweights.
  destruct (setup_model_builds w config path_prefix (VStr "TF-IDF-KNN") st
              Hroot Huri Htype) as (top & m & _ & _ & Hname & Hparams' & ->); [done |].
  exists (default VNone (m !! "name")). split; [done |].
  rewrite (bind_Ok _ _ _ _ _ Hweights), dispatch_knn.
  rewrite Hparams in Hparams'. injection Hparams' as <-.
  simpl. by rewrite Hdeclared.
Qed.

Lemma setup_model_knn_example :
  ∃ model_name,
    get_nested (Example.world RaiseTypeError) Example.knn ["model"; "name"] VNone
    = Ok model_name
    ∧ setup_model (Example.world RaiseTypeError) Example.knn Example.start
      = (Ok (TF_IDF_Classifier (KNeighborsClassifier {[ "n_neighbors" := VInt 5 ]})
                               model_name None), Example.start).
Proof.
  apply (setup_model_knn (Example.world RaiseTypeError) Example.knn (VStr "")
           {[ "n_neighbors" := VInt 5 ]} false VNone Example.start Example.start);
    reflexivity.
Defined.

(** A parameter that [KNeighborsClassifier] does not declare: the call of
    line 84 is a [TypeError], and no classifier is returned. *)
Example knn_undeclared_keyword_run :
  accepts (Example.world ReturnDefault) "KNeighborsClassifier" ["bogus"] = false
  ∧ setup_model (Example.world ReturnDefault) Example.knn_bogus Example.start
    = (Raise TypeError, Example.start).
Proof. split; vm_compute; reflexivity. Qed.

(** C4, as stated, fails: no URI, the type is [TF-IDF-KNN], the parameters are
    a mapping, and [setup_model] raises instead of returning a classifier. *)
Lemma knn_weights_without_path_raises :
  get_nested (Example.world ReturnDefault) Example.knn_weights_without_path
             ["model"; "uri"] VNone = Ok VNone
  ∧ get_nested (Example.world ReturnDefault) Example.knn_weights_without_path
               ["model"; "type"] VNone = Ok (VStr "TF-IDF-KNN")
  ∧ get_nested (Example.world ReturnDefault) Example.knn_weights_without_path
               ["model"; "parameters"] (VDict ∅) = Ok (VDict {[ "n_neighbors" := VInt 5 ]})
  ∧ setup_model (Example.world ReturnDefault) Example.knn_weights_without_path Example.start
    = (Raise (ValueError "Class weights file path not provided."), Example.start)
  ∧ setup_model (Example.world RaiseTypeError) Example.knn_weights_without_path Example.start
    = (Raise (ValueError "Class weights file path not provided."), Example.start).
Proof. repeat split; vm_compute; reflexivity. Qed.

(** ** Class weights without a file path *)

(** C7, as amended: for every configuration with no [model.uri] and with a
    [model.type], whose [global.root_path] is read without error, in which
    [model.class_weights] is present and the look-up of [file_path] in it
    answers [None] (the key is missing from the mapping, or is [None]),
    [setup_model] raises [ValueError("Class weights file path not provided.")];
    the state is the one it started from, so no file was read. *)
Theorem setup_model_class_weights_need_path (w : World)
    (config path_prefix model_type class_weights_config_dict : value) (st : pystate) :
  get_nested w config ["global"; "root_path"] (VStr "") = Ok path_prefix →
  get_nested w config ["model"; "uri"] VNone = Ok VNone →
  present w config ["model"; "type"] model_type →
  present w config ["model"; "class_weights"] class_weights_config_dict →
  get_nested w class_weights_config_dict ["file_path"] VNone = Ok VNone →
  setup_model w config st
  = (Raise (ValueError "Class weights file path not provided."), st)
  ∧ names "Class weights file path not provided." "file path" = true.
Proof.
  intros Hroot Huri [Htype Hsome] [Hcw Hcwsome] Hpath.
  destruct (setup_model_builds w config path_prefix model_type st Hroot Huri Htype Hsome)
    as (top & m & _ & _ & _ & _ & ->).
  split; [| reflexivity].
  apply bind_Raise.
  by apply (setup_model_class_weights_without_path w config path_prefix
              class_weights_config_dict).
Qed.

Lemma setup_model_class_weights_need_path_example :
  setup_model (Example.world RaiseTypeError) Example.svm_weights_without_path Example.start
  = (Raise (ValueError "Class weights file path not provided."), Example.start)
  ∧ names "Class weights file path not provided." "file path" = true.
Proof.
  apply (setup_model_class_weights_need_path (Example.world RaiseTypeError)
           Example.svm_weights_without_path (VStr "") (VStr "TF-IDF-SVM")
           (VDict {[ "relative_or_absolute" := VStr "relative" ]}) Example.start).
  - reflexivity.
  - reflexivity.
  - split; [reflexivity | discriminate].
  - split; [reflexivity | discriminate].
  - reflexivity.
Defined.

(** C7, as stated, fails: the class weights are present, their file path is
    absent, and the error raised is the one about the model type, which says
    nothing of a file path. *)
Lemma class_weights_without_type :
  present (Example.world ReturnDefault) Example.weights_without_type
          ["model"; "class_weights"] (VDict ∅)
  ∧ get_nested (Example.world ReturnDefault) (VDict ∅) ["file_path"] VNone = Ok VNone
  ∧ setup_model (Example.world ReturnDefault) Example.weights_without_type Example.start
    = (Raise (ValueError "Model type not provided."), Example.start)
  ∧ setup_model (Example.world RaiseTypeError) Example.weights_without_type Example.start
    = (Raise (ValueError "Model type not provided."), Example.start)
  ∧ names "Model type not provided." "file path" = false
  ∧ names "Model type not provided." "file_path" = false.
Proof.
  split; [split; [reflexivity | discriminate] |].
  repeat split; vm_compute; reflexivity.
Qed.

(** ** The key [relative_or_absolute] *)

(** C9: for every configuration with [model.class_weights] present, the
    outcome of [setup_model] (what it returns or raises, and the files it
    reads) does not depend on [model.class_weights.relative_or_absolute]: two
    configurations that differ in that key only, in its value or in whether it
    is there at all, give the same run. *)
Theorem setup_model_ignores_relative_or_absolute (w : World)
    (top m cw : gmap string value) (roa1 roa2 : option value) (st : pystate) :
  setup_model w (with_relative_or_absolute top m cw roa1) st
  = setup_model w (with_relative_or_absolute top m cw roa2) st.
Proof. by rewrite (roa_setup_model w top m cw roa1), (roa_setup_model w top m cw roa2). Qed.

(** The reason: the file that is read is always the one at [global.root_path]
    joined with [file_path]. *)
Lemma class_weights_path_is_joined (w : World) (top m cw : gmap string value)
    (roa : option value) (root file_path : string) (st : pystate) :
  cw !! "file_path" = Some (VStr file_path) →
  trace (setup_model_class_weights w (with_relative_or_absolute top m cw roa)
           (VStr root) st).2
  = trace st ++ [EvReadClassWeights (posix_join root file_path)].
Proof.
  intros Hpath.
  rewrite (setup_model_class_weights_reads w _ _ root file_path st
             (roa_class_weights w top m cw roa VNone)).
  - done.
  - by rewrite roa_weights_key, Hpath.
Qed.

Example relative_or_absolute_run :
  setup_model (Example.world ReturnDefault)
    (with_relative_or_absolute
       {[ "global" := VDict {[ "root_path" := VStr "/data" ]} ]}
       {[ "type" := VStr "TF-IDF-SVM" ]}
       {[ "file_path" := VStr "weights.csv" ]}
       (Some (VStr "relative")))
    Example.start
  = (Ok (TF_IDF_Classifier (SVC true ∅) VNone (Some (VDict {[ "spam" := VInt 3 ]}))),
     logged Example.start [EvReadClassWeights "/data/weights.csv"]).
Proof. vm_compute. reflexivity. Qed.

(** ** Class weights and the nearest-neighbour classifier *)

(** C10, as amended: for every configuration with no [model.uri], a string
    [global.root_path], and [model.class_weights] present with a string
    [file_path], whose [model.type] is [TF-IDF-KNN], [TF-IDF-SVM] or
    [TF-IDF-RF]: [setup_model] reads the class-weights file (once, at the root
    path joined with the file path), and any model it returns is a
    [TF_IDF_Classifier] to which the weights read were attached when the type
    is [TF-IDF-SVM] or [TF-IDF-RF], and to which nothing was attached when the
    type is [TF-IDF-KNN]. *)
Theorem knn_ignores_class_weights (w : World) (config class_weights_config_dict : value)
    (root file_path tag : string) (st : pystate) :
  get_nested w config ["global"; "root_path"] (VStr "") = Ok (VStr root) →
  get_nested w config ["model"; "uri"] VNone = Ok VNone →
  get_nested w config ["model"; "class_weights"] VNone = Ok class_weights_config_dict →
  get_nested w class_weights_config_dict ["file_path"] VNone = Ok (VStr file_path) →
  get_nested w config ["model"; "type"] VNone = Ok (VStr tag) →
  tag ∈ ["TF-IDF-KNN"; "TF-IDF-SVM"; "TF-IDF-RF"] →
  trace (setup_model w config st).2
  = trace st ++ [EvReadClassWeights (posix_join root file_path)]
  ∧ ∀ model, (setup_model w config st).1 = Ok model →
      ∃ baseline_classifier model_name class_weights_dict,
        read_class_weights_from_file w (posix_join root file_path) = Ok class_weights_dict
        ∧ model = TF_IDF_Classifier baseline_classifier model_name
                    (if String.eqb tag "TF-IDF-KNN" then None else Some class_weights_dict).
Proof.
  intros Hroot Huri Hcw Hpath Htype Htag.
  destruct (setup_model_with_weights w config (VStr tag)
              class_weights_config_dict root file_path st)
    as (model_name & parameters & ->); try done.
  destruct (read_class_weights_from_file w (posix_join root file_path)) as [cwd | e];
    [| by split].
  repeat (apply elem_of_cons in Htag as [-> | Htag]); [| | | by apply elem_of_nil in Htag].
  - rewrite dispatch_knn.
    destruct (expand_kwargs parameters) as [kwargs | e]; [| by split].
    destruct (accepts w "KNeighborsClassifier" (keywords_of kwargs)); split; try done.
    intros model [= <-]. eauto.
  - rewrite dispatch_svm.
    destruct (expand_kwargs_with "probability" parameters) as [kwargs | e]; [| by split].
    destruct (accepts w "SVC" ("probability" :: keywords_of kwargs)); split; try done.
    intros model [= <-]. eauto.
  - rewrite dispatch_rf.
    destruct (expand_kwargs parameters) as [kwargs | e]; [| by split].
    destruct (accepts w "RandomForestClassifier" (keywords_of kwargs)); split; try done.
    intros model [= <-]. eauto.
Qed.

Lemma knn_ignores_class_weights_example :
  trace (setup_model (Example.world RaiseTypeError) (Example.with_weights "TF-IDF-KNN")
           Example.start).2
  = trace Example.start ++ [EvReadClassWeights (posix_join "/data" "weights.csv")]
  ∧ ∀ model,
      (setup_model (Example.world RaiseTypeError) (Example.with_weights "TF-IDF-KNN")
         Example.start).1 = Ok model →
      ∃ baseline_classifier model_name class_weights_dict,
        read_class_weights_from_file (Example.world RaiseTypeError)
          (posix_join "/data" "weights.csv") = Ok class_weights_dict
        ∧ model = TF_IDF_Classifier baseline_classifier model_name None.
Proof.
  apply (knn_ignores_class_weights (Example.world RaiseTypeError)
           (Example.with_weights "TF-IDF-KNN")
           (VDict {[ "file_path" := VStr "weights.csv" ]}) "/data" "weights.csv"
           "TF-IDF-KNN" Example.start); try reflexivity.
  apply list_elem_of_here.
Defined.

(** The same class-weights file under the three classifier types: read each
    time, attached by two of them. *)
Example class_weights_run :
  setup_model (Example.world ReturnDefault) (Example.with_weights "TF-IDF-KNN")
              Example.start
  = (Ok (TF_IDF_Classifier (KNeighborsClassifier ∅) VNone None),
     logged Example.start [EvReadClassWeights "/data/weights.csv"])
  ∧ setup_model (Example.world ReturnDefault) (Example.with_weights "TF-IDF-SVM")
                Example.start
    = (Ok (TF_IDF_Classifier (SVC true ∅) VNone (Some (VDict {[ "spam" := VInt 3 ]}))),
       logged Example.start [EvReadClassWeights "/data/weights.csv"])
  ∧ setup_model (Example.world ReturnDefault) (Example.with_weights "TF-IDF-RF")
                Example.start
    = (Ok (TF_IDF_Classifier (RandomForestClassifier ∅) VNone
             (Some (VDict {[ "spam" := VInt 3 ]}))),
       logged Example.start [EvReadClassWeights "/data/weights.csv"]).
Proof. repeat split; vm_compute; reflexivity. Qed.

(** C10, as stated, fails: the type is [TF-IDF-KNN], the class weights are
    present, and no class-weights file is read (the trace stays empty). *)
Lemma knn_weights_without_path_reads_nothing :
  get_nested (Example.world ReturnDefault) Example.knn_weights_without_path
             ["model"; "type"] VNone = Ok (VStr "TF-IDF-KNN")
  ∧ present (Example.world ReturnDefault) Example.knn_weights_without_path
            ["model"; "class_weights"] (VDict ∅)
  ∧ trace (setup_model (Example.world ReturnDefault) Example.knn_weights_without_path
             Example.start).2 = []
  ∧ trace (setup_model (Example.world RaiseTypeError) Example.knn_weights_without_path
             Example.start).2 = [].
Proof.
  split; [reflexivity |]. split; [split; [reflexivity | discriminate] |].
  split; vm_compute; reflexivity.
Qed.

(** * Further properties of the module *)

(** ** One URI *)

Lemma get_nested_uri_config (w : World) (model_uri : value) :
  get_nested w (uri_config model_uri) ["model"; "uri"] VNone = Ok model_uri.
Proof.
  unfold uri_config.
  by rewrite get_nested_dict, lookup_singleton_eq, get_nested_dict, lookup_singleton_eq.
Qed.

Lemma load_model_info_run (w : World) (config model_uri : value) (st : pystate) :
  get_nested w config ["model"; "uri"] VNone = Ok model_uri →
  model_uri ≠ VNone →
  load_model_info w config st
  = (mlflow_models_get_model_info w model_uri, logged st [EvGetModelInfo model_uri]).
Proof.
  intros Hget Hv. unfold load_model_info. rewrite Hget, bind_lift_Ok.
  replace (is_none model_uri) with false by (by destruct model_uri).
  apply external_run.
Qed.

Lemma load_model_info_none (w : World) (config : value) (st : pystate) :
  get_nested w config ["model"; "uri"] VNone = Ok VNone →
  load_model_info w config st = (Raise (ValueError "Model uri not provided."), st).
Proof. intros Hget. unfold load_model_info. by rewrite Hget, bind_lift_Ok. Qed.

Lemma load_model_none (w : World) (config : value) (st : pystate) :
  get_nested w config ["model"; "uri"] VNone = Ok VNone →
  load_model w config st = (Raise (ValueError "Model uri not provided."), st).
Proof. intros Hget. unfold load_model. by rewrite Hget, bind_lift_Ok. Qed.

(** X1: whatever the configuration, [load_model] and [load_model_info] either
    raise without any external call, or make exactly one call to the registry,
    for the value found at [model.uri], which is not [None]. *)
Theorem load_asks_for_a_uri (w : World) (config : value) (st : pystate) :
  ((∃ e, load_model w config st = (Raise e, st))
   ∨ (∃ model_uri, present w config ["model"; "uri"] model_uri
        ∧ (load_model w config st).2 = logged st [EvLoadModel model_uri]))
  ∧ ((∃ e, load_model_info w config st = (Raise e, st))
     ∨ (∃ model_uri, present w config ["model"; "uri"] model_uri
          ∧ (load_model_info w config st).2 = logged st [EvGetModelInfo model_uri])).
Proof.
  destruct (get_nested w config ["model"; "uri"] VNone) as [model_uri | e] eqn:Hget.
  - destruct (is_none model_uri) eqn:Hnone.
    + destruct model_uri; try discriminate.
      split; left; eexists; [by apply load_model_none | by apply load_model_info_none].
    + assert (model_uri ≠ VNone) as Hsome by (by intros ->).
      split; right; exists model_uri; (split; [done |]).
      * by rewrite (load_model_run w config model_uri st Hget Hsome).
      * by rewrite (load_model_info_run w config model_uri st Hget Hsome).
  - split; left; exists e.
    + unfold load_model. by rewrite Hget.
    + unfold load_model_info. by rewrite Hget.
Qed.

(** X2: when the registry answers with a model that is not a
    python-function model (its implementation has no [python_model]),
    [load_model] raises [AttributeError], after its one call to the registry. *)
Theorem load_model_not_python_function (w : World) (config model_uri : value)
    (pyfunc_model : PyFuncModel) (st : pystate) :
  present w config ["model"; "uri"] model_uri →
  mlflow_pyfunc_load_model w model_uri = Ok pyfunc_model →
  python_model (_PyFuncModel__model_impl pyfunc_model) = None →
  load_model w config st
  = (Raise (AttributeError "python_model"), logged st [EvLoadModel model_uri]).
Proof.
  intros [Hget Hsome] Hload Himpl.
  rewrite (load_model_run w config model_uri st Hget Hsome).
  unfold loaded, unwrap. by rewrite Hload, Himpl.
Qed.

Lemma load_model_not_python_function_example :
  load_model Example.flavour_world (uri_config (VStr "models:/sklearn/1")) Example.start
  = (Raise (AttributeError "python_model"),
     logged Example.start [EvLoadModel (VStr "models:/sklearn/1")]).
Proof.
  apply (load_model_not_python_function Example.flavour_world
           (uri_config (VStr "models:/sklearn/1")) (VStr "models:/sklearn/1")
           {| _PyFuncModel__model_impl := {| python_model := None |} |} Example.start).
  - split; [reflexivity | discriminate].
  - reflexivity.
  - reflexivity.
Defined.

(** X3: [model_uri_to_version] asks the registry the question
    [load_model_info] asks for a configuration holding the same URI, and
    answers the run identifier of what comes back; the two part on [None],
    which [load_model_info] refuses before any call and
    [model_uri_to_version] sends to the registry. *)
Theorem version_and_info (w : World) (model_uri : value) (st : pystate) :
  model_uri_to_version w model_uri st
  = (version_of (mlflow_models_get_model_info w model_uri),
     logged st [EvGetModelInfo model_uri])
  ∧ load_model_info w (uri_config model_uri) st
    = if is_none model_uri
      then (Raise (ValueError "Model uri not provided."), st)
      else (mlflow_models_get_model_info w model_uri, logged st [EvGetModelInfo model_uri]).
Proof.
  split.
  - unfold model_uri_to_version, version_of.
    destruct (mlflow_models_get_model_info w model_uri) as [model_info | e].
    + by rewrite (bind_Ok _ _ st (logged st [EvGetModelInfo model_uri]) model_info).
    + by apply bind_Raise.
  - destruct (is_none model_uri) eqn:Hnone.
    + destruct model_uri; try discriminate.
      apply load_model_info_none, get_nested_uri_config.
    + apply load_model_info_run; [apply get_nested_uri_config | by intros ->].
Qed.

(** ** List comprehensions over URIs *)

(** A comprehension [[f(x) for x in l]] whose [f] refuses [None] without any
    call and otherwise makes one call, whose answer is its outcome. *)
Section Comprehension.

Context {B : Type}.
Variable f : value → M B.
Variable answer : value → outcome B.
Variable ev : value → event.
Variable refusal : exn.
Hypothesis f_some : ∀ v st, v ≠ VNone → f v st = (answer v, logged st [ev v]).
Hypothesis f_none : ∀ st, f VNone st = (Raise refusal, st).

Lemma mapM_step_Ok (v : value) (b : B) (l : list value) (st : pystate) :
  v ≠ VNone → answer v = Ok b →
  mapM f (v :: l) st = (ys ← mapM f l; mret (b :: ys)) (logged st [ev v]).
Proof.
  intros Hv Hb. rewrite mapM_cons.
  rewrite (bind_Ok _ _ st (logged st [ev v]) b); [done |].
  by rewrite f_some, Hb.
Qed.

Lemma mapM_step_Raise (v : value) (e : exn) (l : list value) (st : pystate) :
  v ≠ VNone → answer v = Raise e →
  mapM f (v :: l) st = (Raise e, logged st [ev v]).
Proof.
  intros Hv He. rewrite mapM_cons.
  apply bind_Raise. by rewrite f_some, He.
Qed.

Lemma mapM_step_None (l : list value) (st : pystate) :
  mapM f (VNone :: l) st = (Raise refusal, st).
Proof. rewrite mapM_cons. apply bind_Raise, f_none. Qed.

(** The calls made are those for an initial segment of the list, in order;
    a list that comes back has one element for each item. *)
Lemma mapM_prefix (l : list value) (st : pystate) :
  ∃ n : nat, (n ≤ length l)%nat
    ∧ Forall (λ v, v ≠ VNone) (take n l)
    ∧ (mapM f l st).2 = logged st (ev <$> take n l)
    ∧ ∀ bs, (mapM f l st).1 = Ok bs → n = length l ∧ length bs = length l.
Proof.
  revert st. induction l as [| v l IH]; intros st.
  - exists 0. simpl. rewrite logged_nil.
    split; [done |]. split; [done |]. split; [done |].
    by intros bs [= <-].
  - destruct (is_none v) eqn:Hnone.
    { destruct v; try discriminate. exists 0.
      rewrite mapM_step_None. simpl. rewrite logged_nil.
      split; [lia |]. split; [done |]. split; [done |]. by intros bs. }
    assert (v ≠ VNone) as Hv by (by intros ->).
    destruct (answer v) as [b | e] eqn:Hb.
    + rewrite (mapM_step_Ok v b l st Hv Hb).
      destruct (IH (logged st [ev v])) as (n & Hn & Hsome & Htrace & Hlen).
      exists (S n). unfold mbind, M_bind.
      destruct (mapM f l (logged st [ev v])) as [[bs | e] st'] eqn:Hrest;
        simpl in *; subst st'; rewrite logged_logged.
      * split; [lia |]. split; [by constructor |]. split; [done |].
        intros bs' [= <-]. destruct (Hlen bs eq_refl) as [-> Hbs]. simpl. by rewrite Hbs.
      * split; [lia |]. split; [by constructor |]. split; [done |]. by intros bs.
    + rewrite (mapM_step_Raise v e l st Hv Hb).
      exists 1. simpl. rewrite take_0.
      split; [lia |]. split; [by repeat constructor |]. split; [done |]. by intros bs.
Qed.

Lemma mapM_all (l : list value) (bs : list B) (st : pystate) :
  Forall2 (λ v b, v ≠ VNone ∧ answer v = Ok b) l bs →
  mapM f l st = (Ok bs, logged st (ev <$> l)).
Proof.
  intros Hall. revert st.
  induction Hall as [| v b l bs [Hv Hb] _ IH]; intros st.
  - simpl. by rewrite logged_nil.
  - rewrite (mapM_step_Ok v b l st Hv Hb), (bind_Ok _ _ _ _ bs (IH _)).
    by rewrite logged_logged.
Qed.

Lemma mapM_abort_answer (before after : list value) (v : value) (e : exn)
    (st : pystate) :
  Forall (λ v', v' ≠ VNone ∧ ∃ b, answer v' = Ok b) before →
  v ≠ VNone → answer v = Raise e →
  mapM f (before ++ v :: after) st = (Raise e, logged st (ev <$> before ++ [v])).
Proof.
  intros Hbefore Hv He. revert st.
  induction Hbefore as [| v' before' [Hv' [b Hb]] _ IH]; intros st.
  - by apply mapM_step_Raise.
  - rewrite <- !app_comm_cons, (mapM_step_Ok v' b _ st Hv' Hb).
    rewrite (bind_Raise _ _ _ _ e (IH _)). by rewrite logged_logged.
Qed.

Lemma mapM_abort_None (before after : list value) (st : pystate) :
  Forall (λ v', v' ≠ VNone ∧ ∃ b, answer v' = Ok b) before →
  mapM f (before ++ VNone :: after) st = (Raise refusal, logged st (ev <$> before)).
Proof.
  intros Hbefore. revert st.
  induction Hbefore as [| v' before' [Hv' [b Hb]] _ IH]; intros st.
  - by rewrite app_nil_l, mapM_step_None, fmap_nil, logged_nil.
  - rewrite <- !app_comm_cons, (mapM_step_Ok v' b _ st Hv' Hb).
    rewrite (bind_Raise _ _ _ _ refusal (IH _)). by rewrite logged_logged.
Qed.

Lemma mapM_first (v : value) (l : list value) (st : pystate) :
  v ≠ VNone → ∃ evs, (mapM f (v :: l) st).2 = logged st (ev v :: evs).
Proof.
  intros Hv. destruct (answer v) as [b | e] eqn:Hb.
  - rewrite (mapM_step_Ok v b l st Hv Hb).
    destruct (mapM_prefix l (logged st [ev v])) as (n & _ & _ & Htrace & _).
    exists (ev <$> take n l). unfold mbind, M_bind.
    destruct (mapM f l (logged st [ev v])) as [[bs | e] st']; simpl in *;
      subst st'; by rewrite logged_logged.
  - exists []. by rewrite (mapM_step_Raise v e l st Hv Hb).
Qed.

End Comprehension.

Lemma load_model_item (w : World) (v : value) (st : pystate) :
  v ≠ VNone → load_model w (uri_config v) st = (loaded w v, logged st [EvLoadModel v]).
Proof. intros Hv. apply load_model_run; [apply get_nested_uri_config | done]. Qed.

Lemma load_model_item_None (w : World) (st : pystate) :
  load_model w (uri_config VNone) st = (Raise (ValueError "Model uri not provided."), st).
Proof. apply load_model_none, get_nested_uri_config. Qed.

Lemma load_model_info_item (w : World) (v : value) (st : pystate) :
  v ≠ VNone →
  load_model_info w (uri_config v) st
  = (mlflow_models_get_model_info w v, logged st [EvGetModelInfo v]).
Proof. intros Hv. apply load_model_info_run; [apply get_nested_uri_config | done]. Qed.

Lemma load_model_info_item_None (w : World) (st : pystate) :
  load_model_info w (uri_config VNone) st
  = (Raise (ValueError "Model uri not provided."), st).
Proof. apply load_model_info_none, get_nested_uri_config. Qed.

Lemma load_model_list_of_list (w : World) (config : value) (l : list value) (st : pystate) :
  py_getitem config "model_list" = Ok (VList l) →
  load_model_list w config st
  = mapM (λ model_uri, load_model w (uri_config model_uri)) l st.
Proof. intros Hlist. unfold load_model_list. by rewrite Hlist, bind_lift_Ok. Qed.

Lemma load_model_info_list_of_list (w : World) (config : value) (l : list value)
    (st : pystate) :
  py_getitem config "model_list" = Ok (VList l) →
  load_model_info_list w config st
  = mapM (λ model_uri, load_model_info w (uri_config model_uri)) l st.
Proof. intros Hlist. unfold load_model_info_list. by rewrite Hlist, bind_lift_Ok. Qed.

(** A configuration that is a mapping without the key [model_list], given to
    [load_model_list] or [load_model_info_list], raises
    [KeyError('model_list')]; the registry is not called.  (The single-model
    functions raise [ValueError] for a missing URI.) *)
Lemma model_list_missing (w : World) (top : gmap string value) (st : pystate) :
  top !! "model_list" = None →
  load_model_list w (VDict top) st = (Raise (KeyError "model_list"), st)
  ∧ load_model_info_list w (VDict top) st = (Raise (KeyError "model_list"), st).
Proof.
  intros Hmissing. unfold load_model_list, load_model_info_list, py_getitem.
  by rewrite Hmissing.
Qed.

Lemma model_list_missing_example :
  load_model_list (Example.world ReturnDefault) Example.uri_only Example.start
  = (Raise (KeyError "model_list"), Example.start)
  ∧ load_model_info_list (Example.world ReturnDefault) Example.uri_only Example.start
    = (Raise (KeyError "model_list"), Example.start).
Proof.
  apply (model_list_missing (Example.world ReturnDefault)
           {[ "model" := VDict {[ "uri" := VStr "runs:/abc123def/model" ]} ]}
           Example.start).
  reflexivity.
Defined.

(** X4: for any list of items in [model_list], the registry calls that
    [load_model_list] and [load_model_info_list] make are those for an initial
    segment of the list, one call for each item and in the order of the list,
    never for [None]; and when a list is returned, every item was asked for
    and the result has one element for each. *)
Theorem list_calls_are_a_prefix (w : World) (config : value) (l : list value)
    (st : pystate) :
  py_getitem config "model_list" = Ok (VList l) →
  (∃ n : nat, (n ≤ length l)%nat
     ∧ Forall (λ v, v ≠ VNone) (take n l)
     ∧ (load_model_list w config st).2 = logged st (EvLoadModel <$> take n l)
     ∧ ∀ models, (load_model_list w config st).1 = Ok models →
         n = length l ∧ length models = length l)
  ∧ (∃ n : nat, (n ≤ length l)%nat
       ∧ Forall (λ v, v ≠ VNone) (take n l)
       ∧ (load_model_info_list w config st).2 = logged st (EvGetModelInfo <$> take n l)
       ∧ ∀ infos, (load_model_info_list w config st).1 = Ok infos →
           n = length l ∧ length infos = length l).
Proof.
  intros Hlist.
  rewrite (load_model_list_of_list w config l st Hlist).
  rewrite (load_model_info_list_of_list w config l st Hlist).
  split.
  - apply (mapM_prefix _ (loaded w) EvLoadModel (ValueError "Model uri not provided.")).
    + intros v st' Hv. by apply load_model_item.
    + apply load_model_item_None.
  - apply (mapM_prefix _ (mlflow_models_get_model_info w) EvGetModelInfo
             (ValueError "Model uri not provided.")).
    + intros v st' Hv. by apply load_model_info_item.
    + apply load_model_info_item_None.
Qed.

Lemma list_calls_are_a_prefix_example :
  (∃ n : nat, (n ≤ length (VStr <$> Example.one_uri_gone))%nat
     ∧ Forall (λ v, v ≠ VNone) (take n (VStr <$> Example.one_uri_gone))
     ∧ (load_model_list (Example.world ReturnDefault)
          (Example.model_list_of Example.one_uri_gone) Example.start).2
       = logged Example.start (EvLoadModel <$> take n (VStr <$> Example.one_uri_gone))
     ∧ ∀ models,
         (load_model_list (Example.world ReturnDefault)
            (Example.model_list_of Example.one_uri_gone) Example.start).1 = Ok models →
         n = length (VStr <$> Example.one_uri_gone)
         ∧ length models = length (VStr <$> Example.one_uri_gone))
  ∧ (∃ n : nat, (n ≤ length (VStr <$> Example.one_uri_gone))%nat
       ∧ Forall (λ v, v ≠ VNone) (take n (VStr <$> Example.one_uri_gone))
       ∧ (load_model_info_list (Example.world ReturnDefault)
            (Example.model_list_of Example.one_uri_gone) Example.start).2
         = logged Example.start
             (EvGetModelInfo <$> take n (VStr <$> Example.one_uri_gone))
       ∧ ∀ infos,
           (load_model_info_list (Example.world ReturnDefault)
              (Example.model_list_of Example.one_uri_gone) Example.start).1 = Ok infos →
           n = length (VStr <$> Example.one_uri_gone)
           ∧ length infos = length (VStr <$> Example.one_uri_gone)).
Proof.
  apply (list_calls_are_a_prefix (Example.world ReturnDefault)
           (Example.model_list_of Example.one_uri_gone)
           (VStr <$> Example.one_uri_gone) Example.start).
  reflexivity.
Defined.

(** X5: a [None] among the items of [model_list] makes [load_model_list]
    raise [ValueError('Model uri not provided.')] once the URIs before it are
    loaded; the registry is asked for those and for nothing else. *)
Theorem load_model_list_none_item (w : World) (config : value)
    (before : list string) (after : list value) (st : pystate) :
  py_getitem config "model_list" = Ok (VList ((VStr <$> before) ++ VNone :: after)) →
  Forall (λ u, ∃ est, loaded w (VStr u) = Ok est) before →
  load_model_list w config st
  = (Raise (ValueError "Model uri not provided."), logged st (load_events before)).
Proof.
  intros Hlist Hbefore.
  rewrite (load_model_list_of_list w config _ st Hlist).
  rewrite (mapM_abort_None _ (loaded w) EvLoadModel (ValueError "Model uri not provided.")).
  - unfold load_events. by rewrite <- list_fmap_compose.
  - intros v st' Hv. by apply load_model_item.
  - apply load_model_item_None.
  - apply Forall_fmap. eapply Forall_impl; [exact Hbefore |].
    intros u Hu. split; [discriminate | exact Hu].
Qed.

Lemma load_model_list_none_item_example :
  load_model_list (Example.world ReturnDefault) Example.model_list_with_none Example.start
  = (Raise (ValueError "Model uri not provided."),
     logged Example.start (load_events ["runs:/abc123def/model"])).
Proof.
  apply (load_model_list_none_item (Example.world ReturnDefault)
           Example.model_list_with_none ["runs:/abc123def/model"]
           [VStr "models:/spam/3"] Example.start).
  - reflexivity.
  - repeat constructor. eexists. reflexivity.
Defined.

(** X6: when [model_list] is one string instead of a list of strings, the
    comprehension goes through its characters: the first call of
    [load_model_list] to the registry is for the first character of the
    string, as a URI. *)
Theorem load_model_list_of_bare_string (w : World) (config : value) (c : ascii)
    (rest : string) (st : pystate) :
  py_getitem config "model_list" = Ok (VStr (String c rest)) →
  ∃ evs, (load_model_list w config st).2
         = logged st (EvLoadModel (VStr (String c EmptyString)) :: evs).
Proof.
  intros Hlist. unfold load_model_list.
  rewrite Hlist, bind_lift_Ok. simpl py_iter. rewrite bind_lift_Ok. simpl chars.
  apply (mapM_first _ (loaded w) EvLoadModel (ValueError "Model uri not provided.")).
  - intros v st' Hv. by apply load_model_item.
  - apply load_model_item_None.
  - discriminate.
Qed.

Lemma load_model_list_of_bare_string_example :
  ∃ evs, (load_model_list (Example.world ReturnDefault) Example.model_list_bare_string
            Example.start).2
         = logged Example.start (EvLoadModel (VStr "r") :: evs).
Proof.
  apply (load_model_list_of_bare_string (Example.world ReturnDefault)
           Example.model_list_bare_string "r"%char "uns:/abc123def/model" Example.start).
  reflexivity.
Defined.

(** X7: for every configuration whose [model_list] is a list of URIs,
    [load_model_info_list] returns the metadata of the URIs, one for each and
    in the order of the list; when the registry fails for one of them, the
    first such failure is the outcome of the call and no later URI is asked
    for. *)
Theorem load_model_info_list_in_order (w : World) (config : value) (uris : list string)
    (st : pystate) :
  py_getitem config "model_list" = Ok (VList (VStr <$> uris)) →
  (∀ infos,
     Forall2 (λ u info, mlflow_models_get_model_info w (VStr u) = Ok info) uris infos →
     load_model_info_list w config st = (Ok infos, logged st (info_events uris)))
  ∧ (∀ before u after e,
       uris = before ++ u :: after →
       Forall (λ u', ∃ info, mlflow_models_get_model_info w (VStr u') = Ok info) before →
       mlflow_models_get_model_info w (VStr u) = Raise e →
       load_model_info_list w config st
       = (Raise e, logged st (info_events (before ++ [u])))).
Proof.
  intros Hlist.
  rewrite (load_model_info_list_of_list w config _ st Hlist).
  assert (∀ v st', v ≠ VNone →
            load_model_info w (uri_config v) st'
            = (mlflow_models_get_model_info w v, logged st' [EvGetModelInfo v]))
    as Hsome by (intros v st' Hv; by apply load_model_info_item).
  pose proof (load_model_info_item_None w) as Hnone.
  split.
  - intros infos Hall.
    rewrite (mapM_all _ (mlflow_models_get_model_info w) EvGetModelInfo
               Hsome (VStr <$> uris) infos).
    + unfold info_events. by rewrite <- list_fmap_compose.
    + apply Forall2_fmap_l. eapply Forall2_impl; [exact Hall |].
      intros u info Hu. split; [discriminate | exact Hu].
  - intros before u after e -> Hbefore Hu.
    rewrite fmap_app, fmap_cons.
    rewrite (mapM_abort_answer _ (mlflow_models_get_model_info w) EvGetModelInfo
               Hsome (VStr <$> before) (VStr <$> after) (VStr u) e).
    + unfold info_events. rewrite !fmap_app, <- !list_fmap_compose. reflexivity.
    + apply Forall_fmap. eapply Forall_impl; [exact Hbefore |].
      intros u' Hu'. split; [discriminate | exact Hu'].
    + discriminate.
    + exact Hu.
Qed.

Lemma load_model_info_list_in_order_example :
  load_model_info_list (Example.world ReturnDefault)
    (Example.model_list_of ["runs:/abc123def/model"; "runs:/abc123def/model"])
    Example.start
  = (Ok [ {| run_id := VStr "abc123def"; model_uuid := "5f1c" |};
          {| run_id := VStr "abc123def"; model_uuid := "5f1c" |} ],
     logged Example.start
       (info_events ["runs:/abc123def/model"; "runs:/abc123def/model"]))
  ∧ load_model_info_list (Example.world ReturnDefault)
      (Example.model_list_of Example.three_uris) Example.start
    = (Raise (ExternalError "RESOURCE_DOES_NOT_EXIST"),
       logged Example.start
         (info_events (["runs:/abc123def/model"] ++ ["runs:/0a1b/model"]))).
Proof.
  split.
  - apply (proj1 (load_model_info_list_in_order (Example.world ReturnDefault)
                    (Example.model_list_of
                       ["runs:/abc123def/model"; "runs:/abc123def/model"])
                    ["runs:/abc123def/model"; "runs:/abc123def/model"]
                    Example.start eq_refl)).
    repeat constructor.
  - apply (proj2 (load_model_info_list_in_order (Example.world ReturnDefault)
                    (Example.model_list_of Example.three_uris) Example.three_uris
                    Example.start eq_refl)
             ["runs:/abc123def/model"] "runs:/0a1b/model" ["models:/spam/3"]).
    + reflexivity.
    + repeat constructor. eexists. reflexivity.
    + reflexivity.
Defined.

(** ** Building a model: the steps in order *)

(** Once the class-weights options are through, [setup_model] is the
    dispatch on the type, with the name and the parameters of the
    configuration. *)
Lemma setup_model_staged (w : World)
    (config path_prefix model_type model_name parameters : value)
    (has_class_weights : bool) (class_weights_dict : value) (st st' : pystate) :
  get_nested w config ["global"; "root_path"] (VStr "") = Ok path_prefix →
  get_nested w config ["model"; "uri"] VNone = Ok VNone →
  get_nested w config ["model"; "type"] VNone = Ok model_type →
  model_type ≠ VNone →
  get_nested w config ["model"; "name"] VNone = Ok model_name →
  get_nested w config ["model"; "parameters"] (VDict ∅) = Ok parameters →
  setup_model_class_weights w config path_prefix st
  = (Ok (has_class_weights, class_weights_dict), st') →
  setup_model w config st
  = setup_model_dispatch w config path_prefix model_type model_name parameters
      has_class_weights class_weights_dict st'.
Proof.
  intros Hroot Huri Htype Hsome Hname Hparams Hweights.
  destruct (setup_model_builds w config path_prefix model_type st Hroot Huri Htype Hsome)
    as (top & m & _ & _ & Hname' & Hparams' & ->).
  rewrite Hname in Hname'. injection Hname' as <-.
  rewrite Hparams in Hparams'. injection Hparams' as <-.
  by rewrite (bind_Ok _ _ _ _ _ Hweights).
Qed.

(** An error in the class-weights options is the error of [setup_model]. *)
Lemma setup_model_options_raise (w : World) (config path_prefix model_type : value)
    (e : exn) (st st' : pystate) :
  get_nested w config ["global"; "root_path"] (VStr "") = Ok path_prefix →
  get_nested w config ["model"; "uri"] VNone = Ok VNone →
  get_nested w config ["model"; "type"] VNone = Ok model_type →
  model_type ≠ VNone →
  setup_model_class_weights w config path_prefix st = (Raise e, st') →
  setup_model w config st = (Raise e, st').
Proof.
  intros Hroot Huri Htype Hsome Hweights.
  destruct (setup_model_builds w config path_prefix model_type st Hroot Huri Htype Hsome)
    as (top & m & _ & _ & _ & _ & ->).
  by apply bind_Raise.
Qed.

Lemma bind_ret {A B : Type} (a : A) (f : A → M B) (st : pystate) :
  (mret a ≫= f) st = f a st.
Proof. reflexivity. Qed.

Lemma bind_external {A B : Type} (ev : event) (answer : outcome A) (f : A → M B)
    (st : pystate) :
  (external ev answer ≫= f) st
  = match answer with
    | Ok a => f a (logged st [ev])
    | Raise e => (Raise e, logged st [ev])
    end.
Proof. by destruct answer. Qed.

(** Taking the cases of a look-up or of a test at the head of a run. *)
Ltac head_cases :=
  repeat match goal with
    | |- context [(lift ?o ≫= _) _] =>
        destruct o; [rewrite bind_lift_Ok | rewrite bind_lift_Raise; auto]
    | |- context [if ?b then _ else _] => destruct b
    end.

(** The class-weights options read at most one file. *)
Lemma class_weights_options_trace (w : World) (config path_prefix : value) (st : pystate) :
  (setup_model_class_weights w config path_prefix st).2 = st
  ∨ ∃ path, (setup_model_class_weights w config path_prefix st).2
            = logged st [EvReadClassWeights path].
Proof.
  unfold setup_model_class_weights. head_cases; auto.
  rewrite bind_external. right. eexists.
  destruct (read_class_weights_from_file w _); reflexivity.
Qed.

Lemma xgboost_trace (w : World)
    (config path_prefix model_name parameters class_weights_dict : value) (st : pystate) :
  (setup_model_xgboost w config path_prefix model_name parameters class_weights_dict st).2
  = st
  ∨ ∃ path, (setup_model_xgboost w config path_prefix model_name parameters
               class_weights_dict st).2
            = logged st [EvReadCostMatrix path].
Proof.
  unfold setup_model_xgboost.
  destruct (get_nested w config ["model"; "cost_matrix"] VNone) as [cmf | e];
    [rewrite bind_lift_Ok | rewrite bind_lift_Raise; auto].
  destruct (is_none cmf); [rewrite bind_ret; auto |].
  destruct (os_path_join path_prefix cmf) as [path | e] eqn:Hjoin.
  - right. exists path. unfold mbind at 1. unfold M_bind.
    rewrite bind_lift_Ok, external_run.
    by destruct (read_cost_matrix_from_file w path).
  - left. unfold mbind at 1. unfold M_bind. by rewrite bind_lift_Raise.
Qed.

(** The dispatch reads at most one file, the cost matrix. *)
Lemma dispatch_trace (w : World)
    (config path_prefix model_type model_name parameters : value)
    (has_class_weights : bool) (class_weights_dict : value) (st : pystate) :
  (setup_model_dispatch w config path_prefix model_type model_name parameters
     has_class_weights class_weights_dict st).2 = st
  ∨ ∃ path, (setup_model_dispatch w config path_prefix model_type model_name parameters
               has_class_weights class_weights_dict st).2
            = logged st [EvReadCostMatrix path].
Proof.
  unfold setup_model_dispatch.
  destruct (py_eq_str model_type "TF-IDF-KNN"); [head_cases; auto |].
  destruct (py_eq_str model_type "TF-IDF-SVM"); [head_cases; auto |].
  destruct (py_eq_str model_type "TF-IDF-RF"); [head_cases; auto |].
  destruct (py_eq_str model_type "TF-IDF-XGBoost"); [apply xgboost_trace |].
  destruct (py_eq_str model_type "TextPreprocessor"); [head_cases; auto |].
  destruct (py_eq_str model_type "Relabeller"); [head_cases; auto |].
  auto.
Qed.

Lemma file_reads_nil : file_reads [].
Proof. exists [], []. simpl. repeat split; lia. Qed.

Lemma file_reads_weights (path : string) : file_reads [EvReadClassWeights path].
Proof. exists [path], []. simpl. repeat split; lia. Qed.

Lemma file_reads_costs (path : string) : file_reads [EvReadCostMatrix path].
Proof. exists [], [path]. simpl. repeat split; lia. Qed.

Lemma file_reads_both (path path' : string) :
  file_reads [EvReadClassWeights path; EvReadCostMatrix path'].
Proof. exists [path], [path']. simpl. repeat split; lia. Qed.

(** X8: when [model.uri] is absent, [setup_model] never calls the registry:
    all it does outside the process is to read at most one class-weights file
    and then at most one cost-matrix file. *)
Theorem setup_model_only_reads_files (w : World) (config : value) (st : pystate) :
  absent w config ["model"; "uri"] →
  ∃ evs, (setup_model w config st).2 = logged st evs ∧ file_reads evs.
Proof.
  intros Huri.
  assert (∃ evs, st = logged st evs ∧ file_reads evs) as Hquiet.
  { exists []. split; [by rewrite logged_nil | apply file_reads_nil]. }
  unfold setup_model.
  destruct (get_nested w config ["global"; "root_path"] (VStr "")) as [path_prefix | e];
    [rewrite bind_lift_Ok | by rewrite bind_lift_Raise].
  destruct (get_nested w config ["model"; "uri"] VNone) as [model_uri | e] eqn:Hu;
    [rewrite bind_lift_Ok | by rewrite bind_lift_Raise].
  rewrite (Huri model_uri Hu). change (negb (is_none VNone)) with false. cbv iota.
  destruct (get_nested w config ["model"; "type"] VNone) as [model_type | e];
    [rewrite bind_lift_Ok | by rewrite bind_lift_Raise].
  destruct (is_none model_type); [done |].
  destruct (get_nested w config ["model"; "name"] VNone) as [model_name | e];
    [rewrite bind_lift_Ok | by rewrite bind_lift_Raise].
  destruct (get_nested w config ["model"; "parameters"] (VDict ∅)) as [parameters | e];
    [rewrite bind_lift_Ok | by rewrite bind_lift_Raise].
  pose proof (class_weights_options_trace w config path_prefix st) as Hoptions.
  destruct (setup_model_class_weights w config path_prefix st)
    as [[[has_class_weights class_weights_dict] | e] st1] eqn:Hrun; simpl in Hoptions.
  - rewrite (bind_Ok _ _ _ _ _ Hrun).
    pose proof (dispatch_trace w config path_prefix model_type model_name parameters
                  has_class_weights class_weights_dict st1) as Hdispatch.
    destruct Hoptions as [-> | [path ->]], Hdispatch as [-> | [path' ->]].
    + done.
    + exists [EvReadCostMatrix path']. split; [done | apply file_reads_costs].
    + exists [EvReadClassWeights path]. split; [done | apply file_reads_weights].
    + exists [EvReadClassWeights path; EvReadCostMatrix path'].
      split; [by rewrite logged_logged | apply file_reads_both].
  - rewrite (bind_Raise _ _ _ _ _ Hrun). simpl.
    destruct Hoptions as [-> | [path ->]]; [done |].
    exists [EvReadClassWeights path]. split; [done | apply file_reads_weights].
Qed.

Lemma setup_model_only_reads_files_example :
  ∃ evs, (setup_model (Example.world RaiseTypeError) (Example.with_weights "TF-IDF-XGBoost")
            Example.start).2 = logged Example.start evs
         ∧ file_reads evs.
Proof.
  apply (setup_model_only_reads_files (Example.world RaiseTypeError)
           (Example.with_weights "TF-IDF-XGBoost") Example.start).
  intros v Hv. vm_compute in Hv. congruence.
Defined.

(** ** Building a model: the branches *)

Lemma dispatch_xgboost (w : World) (config path_prefix model_name parameters : value)
    (has_class_weights : bool) (class_weights_dict : value) (st : pystate) :
  setup_model_dispatch w config path_prefix (VStr "TF-IDF-XGBoost") model_name parameters
                       has_class_weights class_weights_dict st
  = setup_model_xgboost w config path_prefix model_name parameters class_weights_dict st.
Proof. reflexivity. Qed.

(** X9: a [TF-IDF-XGBoost] configuration with a class-weights file and a
    cost matrix, under a string root path: [setup_model] reads the
    class-weights file and then the cost-matrix file, each at the root path
    joined with the configured path, and returns a
    [TF_IDF_XGBoost_Classifier] that holds the name, the parameters as they are
    in the configuration, and what the two files gave. *)
Theorem setup_model_xgboost_reads_both (w : World)
    (config class_weights_config_dict model_name parameters : value)
    (root file_path cost_matrix_filepath : string)
    (class_weights_dict cost_matrix : value) (st : pystate) :
  get_nested w config ["global"; "root_path"] (VStr "") = Ok (VStr root) →
  get_nested w config ["model"; "uri"] VNone = Ok VNone →
  get_nested w config ["model"; "type"] VNone = Ok (VStr "TF-IDF-XGBoost") →
  get_nested w config ["model"; "name"] VNone = Ok model_name →
  get_nested w config ["model"; "parameters"] (VDict ∅) = Ok parameters →
  get_nested w config ["model"; "class_weights"] VNone = Ok class_weights_config_dict →
  get_nested w class_weights_config_dict ["file_path"] VNone = Ok (VStr file_path) →
  read_class_weights_from_file w (posix_join root file_path) = Ok class_weights_dict →
  get_nested w config ["model"; "cost_matrix"] VNone = Ok (VStr cost_matrix_filepath) →
  read_cost_matrix_from_file w (posix_join root cost_matrix_filepath) = Ok cost_matrix →
  setup_model w config st
  = (Ok (TF_IDF_XGBoost_Classifier model_name parameters class_weights_dict cost_matrix),
     logged st [EvReadClassWeights (posix_join root file_path);
                EvReadCostMatrix (posix_join root cost_matrix_filepath)]).
Proof.
  intros Hroot Huri Htype Hname Hparams Hcw Hpath Hweights Hcm Hcosts.
  pose proof (setup_model_class_weights_reads w config class_weights_config_dict
                root file_path st Hcw Hpath) as Hread.
  rewrite Hweights in Hread.
  rewrite (setup_model_staged w config (VStr root) (VStr "TF-IDF-XGBoost") model_name
             parameters true class_weights_dict st _ Hroot Huri Htype) by done.
  rewrite dispatch_xgboost. unfold setup_model_xgboost.
  rewrite Hcm, bind_lift_Ok. change (is_none (VStr cost_matrix_filepath)) with false.
  cbv iota. unfold mbind at 1. unfold M_bind.
  change (os_path_join (VStr root) (VStr cost_matrix_filepath))
    with (Ok (A := string) (posix_join root cost_matrix_filepath)).
  rewrite bind_lift_Ok, external_run, Hcosts.
  by rewrite logged_logged.
Qed.

Lemma setup_model_xgboost_reads_both_example :
  setup_model (Example.world RaiseTypeError) Example.xgboost_full Example.start
  = (Ok (TF_IDF_XGBoost_Classifier (VStr "xgb") (VDict {[ "max_depth" := VInt 3 ]})
           (VDict {[ "spam" := VInt 3 ]})
           (VList [VList [VInt 0; VInt 1]; VList [VInt 5; VInt 0]])),
     logged Example.start [EvReadClassWeights (posix_join "/data" "weights.csv");
                           EvReadCostMatrix (posix_join "/data" "costs.csv")]).
Proof.
  apply (setup_model_xgboost_reads_both (Example.world RaiseTypeError)
           Example.xgboost_full (VDict {[ "file_path" := VStr "weights.csv" ]}));
    reflexivity.
Defined.

(** X10: a [TF-IDF-XGBoost] configuration with neither class weights nor a
    cost matrix: nothing is read, and the classifier gets [None] for both and
    the parameters as they are, whatever they are (they are passed on as one
    value, not expanded into keywords, so they need not be a mapping). *)
Theorem setup_model_xgboost_plain (w : World)
    (config path_prefix model_name parameters : value) (st : pystate) :
  get_nested w config ["global"; "root_path"] (VStr "") = Ok path_prefix →
  get_nested w config ["model"; "uri"] VNone = Ok VNone →
  get_nested w config ["model"; "type"] VNone = Ok (VStr "TF-IDF-XGBoost") →
  get_nested w config ["model"; "name"] VNone = Ok model_name →
  get_nested w config ["model"; "parameters"] (VDict ∅) = Ok parameters →
  get_nested w config ["model"; "class_weights"] VNone = Ok VNone →
  get_nested w config ["model"; "cost_matrix"] VNone = Ok VNone →
  setup_model w config st
  = (Ok (TF_IDF_XGBoost_Classifier model_name parameters VNone VNone), st).
Proof.
  intros Hroot Huri Htype Hname Hparams Hcw Hcm.
  rewrite (setup_model_staged w config path_prefix (VStr "TF-IDF-XGBoost") model_name
             parameters false VNone st st Hroot Huri Htype); try done.
  - rewrite dispatch_xgboost. unfold setup_model_xgboost.
    by rewrite Hcm, bind_lift_Ok.
  - by apply setup_model_class_weights_none.
Qed.

Lemma setup_model_xgboost_plain_example :
  setup_model (Example.world RaiseTypeError) (Example.parameters_none "TF-IDF-XGBoost")
              Example.start
  = (Ok (TF_IDF_XGBoost_Classifier VNone VNone VNone VNone), Example.start).
Proof.
  apply (setup_model_xgboost_plain (Example.world RaiseTypeError)
           (Example.parameters_none "TF-IDF-XGBoost") (VStr "")); reflexivity.
Defined.

(** X11: a [TF-IDF-SVM] configuration whose parameters are a mapping.  When
    the parameters have the key [probability], the call of [SVC] is a
    [TypeError] (the keyword is given twice); so it is when one of them is not
    a keyword that [SVC] declares.  Otherwise the baseline classifier is an
    [SVC] with [probability = True] and the parameters as keywords, with the
    class weights attached when there are any. *)
Theorem setup_model_svm (w : World) (config path_prefix model_name : value)
    (parameters : gmap string value) (has_class_weights : bool)
    (class_weights_dict : value) (st st' : pystate) :
  get_nested w config ["global"; "root_path"] (VStr "") = Ok path_prefix →
  get_nested w config ["model"; "uri"] VNone = Ok VNone →
  get_nested w config ["model"; "type"] VNone = Ok (VStr "TF-IDF-SVM") →
  get_nested w config ["model"; "name"] VNone = Ok model_name →
  get_nested w config ["model"; "parameters"] (VDict ∅) = Ok (VDict parameters) →
  setup_model_class_weights w config path_prefix st
  = (Ok (has_class_weights, class_weights_dict), st') →
  setup_model w config st
  = (match parameters !! "probability" with
     | Some _ => Raise TypeError
     | None =>
         if accepts w "SVC" ("probability" :: keywords_of parameters)
         then Ok (TF_IDF_Classifier (SVC true parameters) model_name
                    (if has_class_weights then Some class_weights_dict else None))
         else Raise TypeError
     end, st').
Proof.
  intros Hroot Huri Htype Hname Hparams Hweights.
  rewrite (setup_model_staged w config path_prefix (VStr "TF-IDF-SVM") model_name
             (VDict parameters) has_class_weights class_weights_dict st st'
             Hroot Huri Htype) by done.
  rewrite dispatch_svm. simpl. by destruct (parameters !! "probability").
Qed.

Lemma setup_model_svm_example :
  setup_model (Example.world RaiseTypeError) Example.svm_probability Example.start
  = (Raise TypeError, Example.start).
Proof.
  exact (setup_model_svm (Example.world RaiseTypeError) Example.svm_probability
           (VStr "") VNone (<[ "C" := VInt 2 ]> {[ "probability" := VBool false ]})
           false VNone Example.start Example.start
           eq_refl eq_refl eq_refl eq_refl eq_refl eq_refl).
Defined.

Lemma dispatch_text_preprocessor (w : World) (top m parameters : gmap string value)
    (path_prefix model_name : value) (has_class_weights : bool)
    (class_weights_dict : value) (st : pystate) :
  top !! "model" = Some (VDict m) →
  m !! "parameters" = Some (VDict parameters) →
  setup_model_dispatch w (VDict top) path_prefix (VStr "TextPreprocessor") model_name
                       (VDict parameters) has_class_weights class_weights_dict st
  = (match parameters !! "preprocess_stack" with
     | Some preprocess_stack =>
         Ok (PredictTransformerWrapper
               (FunctionTransformer
                  (BoundMethod (TextPreprocessor parameters) "preprocess_iterable")
                  (Some {[ "preprocess_stack" := preprocess_stack ]}))
               true false)
     | None => Raise (KeyError "preprocess_stack")
     end, st).
Proof.
  intros Hmodel Hparams. unfold setup_model_dispatch. simpl.
  rewrite Hmodel. simpl. do 2 rewrite bind_lift_Ok.
  unfold py_getitem. rewrite Hparams, bind_lift_Ok.
  by destruct (parameters !! "preprocess_stack").
Qed.

(** X12: a [TextPreprocessor] configuration whose [model.parameters] is a
    mapping: with a [preprocess_stack] among the parameters, [setup_model]
    returns a [PredictTransformerWrapper] (transforming X, not y) around a
    [FunctionTransformer] of the preprocessor's [preprocess_iterable], with
    that [preprocess_stack] as its keyword argument, the preprocessor being
    built from all the parameters; without it, [setup_model] raises
    [KeyError('preprocess_stack')]. *)
Theorem setup_model_text_preprocessor (w : World) (config path_prefix : value)
    (parameters : gmap string value) (has_class_weights : bool)
    (class_weights_dict : value) (st st' : pystate) :
  get_nested w config ["global"; "root_path"] (VStr "") = Ok path_prefix →
  get_nested w config ["model"; "uri"] VNone = Ok VNone →
  get_nested w config ["model"; "type"] VNone = Ok (VStr "TextPreprocessor") →
  present w config ["model"; "parameters"] (VDict parameters) →
  setup_model_class_weights w config path_prefix st
  = (Ok (has_class_weights, class_weights_dict), st') →
  setup_model w config st
  = (match parameters !! "preprocess_stack" with
     | Some preprocess_stack =>
         Ok (PredictTransformerWrapper
               (FunctionTransformer
                  (BoundMethod (TextPreprocessor parameters) "preprocess_iterable")
                  (Some {[ "preprocess_stack" := preprocess_stack ]}))
               true false)
     | None => Raise (KeyError "preprocess_stack")
     end, st').
Proof.
  intros Hroot Huri Htype [Hparams Hsome] Hweights.
  destruct (get_nested_found w config "model" "parameters" VNone (VDict parameters)
              Hparams Hsome) as (top & m & -> & Hmodel & Hm).
  rewrite (setup_model_staged w (VDict top) path_prefix (VStr "TextPreprocessor")
             (default VNone (m !! "name")) (VDict parameters)
             has_class_weights class_weights_dict st st' Hroot Huri Htype); try done.
  - by apply dispatch_text_preprocessor with m.
  - by apply get_nested_section.
  - rewrite (get_nested_section w top m "model" "parameters" (VDict ∅) Hmodel).
    by rewrite Hm.
Qed.

Lemma setup_model_text_preprocessor_example :
  setup_model (Example.world RaiseTypeError) Example.text_preprocessor Example.start
  = (Ok (PredictTransformerWrapper
           (FunctionTransformer
              (BoundMethod
                 (TextPreprocessor
                    {[ "preprocess_stack" := VList [VStr "lower"; VStr "strip"] ]})
                 "preprocess_iterable")
              (Some {[ "preprocess_stack" := VList [VStr "lower"; VStr "strip"] ]}))
           true false), Example.start).
Proof.
  assert (present (Example.world RaiseTypeError) Example.text_preprocessor
            ["model"; "parameters"]
            (VDict {[ "preprocess_stack" := VList [VStr "lower"; VStr "strip"] ]}))
    as Hparams by (split; [reflexivity | discriminate]).
  exact (setup_model_text_preprocessor (Example.world RaiseTypeError)
           Example.text_preprocessor (VStr "")
           {[ "preprocess_stack" := VList [VStr "lower"; VStr "strip"] ]}
           false VNone Example.start Example.start
           eq_refl eq_refl eq_refl Hparams eq_refl).
Defined.

(** X13: a [TextPreprocessor] configuration without [model.parameters]: the
    empty default serves to build the preprocessor, but the configuration is
    then subscripted for [preprocess_stack], and [setup_model] raises
    [KeyError('parameters')]. *)
Theorem setup_model_text_preprocessor_bare (w : World) (config path_prefix : value)
    (has_class_weights : bool) (class_weights_dict : value) (st st' : pystate) :
  get_nested w config ["global"; "root_path"] (VStr "") = Ok path_prefix →
  get_nested w config ["model"; "uri"] VNone = Ok VNone →
  get_nested w config ["model"; "type"] VNone = Ok (VStr "TextPreprocessor") →
  (∀ dflt, get_nested w config ["model"; "parameters"] dflt = Ok dflt) →
  setup_model_class_weights w config path_prefix st
  = (Ok (has_class_weights, class_weights_dict), st') →
  setup_model w config st = (Raise (KeyError "parameters"), st').
Proof.
  intros Hroot Huri Htype Hmissing Hweights.
  destruct (setup_model_builds w config path_prefix (VStr "TextPreprocessor") st
              Hroot Huri Htype) as (top & m & -> & Hmodel & _ & Hparams & ->); [done |].
  assert (m !! "parameters" = None) as Hm.
  { pose proof (Hmissing VNone) as H1. pose proof (Hmissing (VBool true)) as H2.
    rewrite (get_nested_section w top m "model" "parameters" VNone Hmodel) in H1.
    rewrite (get_nested_section w top m "model" "parameters" (VBool true) Hmodel) in H2.
    destruct (m !! "parameters"); [simpl in *; congruence | done]. }
  rewrite (bind_Ok _ _ _ _ _ Hweights), Hm.
  unfold setup_model_dispatch. simpl. rewrite Hmodel. simpl.
  do 2 rewrite bind_lift_Ok. unfold py_getitem. by rewrite Hm.
Qed.

Lemma setup_model_text_preprocessor_bare_example :
  setup_model (Example.world RaiseTypeError) Example.text_preprocessor_bare Example.start
  = (Raise (KeyError "parameters"), Example.start).
Proof.
  apply (setup_model_text_preprocessor_bare (Example.world RaiseTypeError)
           Example.text_preprocessor_bare (VStr "") false VNone
           Example.start Example.start).
  - reflexivity.
  - reflexivity.
  - reflexivity.
  - intros dflt. reflexivity.
  - reflexivity.
Defined.

(** X14: a [Relabeller] configuration whose parameters are a mapping:
    [setup_model] returns a [PredictTransformerWrapper] (transforming y, not
    X) around the [Relabeller] itself, built from the parameters; the
    [FunctionTransformer] made of its [predict] is not part of what is
    returned. *)
Theorem setup_model_relabeller (w : World) (config path_prefix model_name : value)
    (parameters : gmap string value) (has_class_weights : bool)
    (class_weights_dict : value) (st st' : pystate) :
  get_nested w config ["global"; "root_path"] (VStr "") = Ok path_prefix →
  get_nested w config ["model"; "uri"] VNone = Ok VNone →
  get_nested w config ["model"; "type"] VNone = Ok (VStr "Relabeller") →
  get_nested w config ["model"; "name"] VNone = Ok model_name →
  get_nested w config ["model"; "parameters"] (VDict ∅) = Ok (VDict parameters) →
  setup_model_class_weights w config path_prefix st
  = (Ok (has_class_weights, class_weights_dict), st') →
  setup_model w config st
  = (Ok (PredictTransformerWrapper (Relabeller parameters) false true), st').
Proof.
  intros Hroot Huri Htype Hname Hparams Hweights.
  by rewrite (setup_model_staged w config path_prefix (VStr "Relabeller") model_name
                (VDict parameters) has_class_weights class_weights_dict st st'
                Hroot Huri Htype).
Qed.

Lemma setup_model_relabeller_example :
  setup_model (Example.world RaiseTypeError) Example.relabeller Example.start
  = (Ok (PredictTransformerWrapper
           (Relabeller {[ "mapping" := VDict {[ "ham" := VStr "ok" ]} ]}) false true),
     Example.start).
Proof.
  apply (setup_model_relabeller (Example.world RaiseTypeError) Example.relabeller
           (VStr "") VNone {[ "mapping" := VDict {[ "ham" := VStr "ok" ]} ]}
           false VNone Example.start Example.start); reflexivity.
Defined.

(** ** Building a model: the class-weights file *)

(** X15: the class-weights file is read before the type is looked at, so a
    failure to read it is the outcome of [setup_model] for every model type,
    also for the types that make no use of class weights and for a type that
    is not recognized. *)
Theorem class_weights_read_error_aborts (w : World)
    (config model_type class_weights_config_dict : value) (root file_path : string)
    (e : exn) (st : pystate) :
  get_nested w config ["global"; "root_path"] (VStr "") = Ok (VStr root) →
  get_nested w config ["model"; "uri"] VNone = Ok VNone →
  present w config ["model"; "type"] model_type →
  get_nested w config ["model"; "class_weights"] VNone = Ok class_weights_config_dict →
  get_nested w class_weights_config_dict ["file_path"] VNone = Ok (VStr file_path) →
  read_class_weights_from_file w (posix_join root file_path) = Raise e →
  setup_model w config st
  = (Raise e, logged st [EvReadClassWeights (posix_join root file_path)]).
Proof.
  intros Hroot Huri [Htype Hsome] Hcw Hpath Hfail.
  apply (setup_model_options_raise w config (VStr root) model_type e st _
           Hroot Huri Htype Hsome).
  rewrite (setup_model_class_weights_reads w config class_weights_config_dict
             root file_path st Hcw Hpath).
  by rewrite Hfail.
Qed.

Lemma class_weights_read_error_aborts_example :
  setup_model (Example.world RaiseTypeError)
              (Example.with_weights_at (VStr "/data") "Relabeller" "missing.csv")
              Example.start
  = (Raise (ExternalError "FileNotFoundError"),
     logged Example.start [EvReadClassWeights (posix_join "/data" "missing.csv")]).
Proof.
  assert (present (Example.world RaiseTypeError)
            (Example.with_weights_at (VStr "/data") "Relabeller" "missing.csv")
            ["model"; "type"] (VStr "Relabeller"))
    as Htype by (split; [reflexivity | discriminate]).
  exact (class_weights_read_error_aborts (Example.world RaiseTypeError)
           (Example.with_weights_at (VStr "/data") "Relabeller" "missing.csv")
           (VStr "Relabeller") (VDict {[ "file_path" := VStr "missing.csv" ]})
           "/data" "missing.csv" (ExternalError "FileNotFoundError") Example.start
           eq_refl eq_refl Htype eq_refl eq_refl eq_refl).
Defined.

Lemma posix_join_absolute (a b : string) : startswith_sep b = true → posix_join a b = b.
Proof. intros Hb. unfold posix_join. by rewrite Hb. Qed.

Lemma posix_join_empty (b : string) : posix_join "" b = b.
Proof. unfold posix_join. by destruct (startswith_sep b). Qed.

(** X16: when [global.root_path] is the empty string (its default), or when
    the class-weights [file_path] is absolute, the file that [setup_model]
    reads first is the one at [file_path] as it is written in the
    configuration: an absolute file path makes the root path irrelevant. *)
Theorem class_weights_path_as_given (w : World)
    (config model_type class_weights_config_dict : value) (root file_path : string)
    (st : pystate) :
  get_nested w config ["global"; "root_path"] (VStr "") = Ok (VStr root) →
  get_nested w config ["model"; "uri"] VNone = Ok VNone →
  present w config ["model"; "type"] model_type →
  get_nested w config ["model"; "class_weights"] VNone = Ok class_weights_config_dict →
  get_nested w class_weights_config_dict ["file_path"] VNone = Ok (VStr file_path) →
  root = "" ∨ startswith_sep file_path = true →
  ∃ evs, (setup_model w config st).2 = logged st (EvReadClassWeights file_path :: evs).
Proof.
  intros Hroot Huri [Htype Hsome] Hcw Hpath Hgiven.
  destruct (setup_model_with_weights w config model_type class_weights_config_dict
              root file_path st Hroot Huri Htype Hsome Hcw Hpath)
    as (model_name & parameters & ->).
  assert (posix_join root file_path = file_path) as ->.
  { destruct Hgiven as [-> | Habs];
      [apply posix_join_empty | by apply posix_join_absolute]. }
  destruct (read_class_weights_from_file w file_path) as [class_weights_dict | e].
  - destruct (dispatch_trace w config (VStr root) model_type model_name parameters
                true class_weights_dict (logged st [EvReadClassWeights file_path]))
      as [-> | [path ->]].
    + by exists [].
    + exists [EvReadCostMatrix path]. by rewrite logged_logged.
  - by exists [].
Qed.

Lemma class_weights_path_as_given_example :
  ∃ evs, (setup_model (Example.world RaiseTypeError)
            (Example.with_weights_at (VStr "/srv/models") "TF-IDF-RF" "/data/weights.csv")
            Example.start).2
         = logged Example.start (EvReadClassWeights "/data/weights.csv" :: evs).
Proof.
  assert (present (Example.world RaiseTypeError)
            (Example.with_weights_at (VStr "/srv/models") "TF-IDF-RF" "/data/weights.csv")
            ["model"; "type"] (VStr "TF-IDF-RF"))
    as Htype by (split; [reflexivity | discriminate]).
  exact (class_weights_path_as_given (Example.world RaiseTypeError)
           (Example.with_weights_at (VStr "/srv/models") "TF-IDF-RF" "/data/weights.csv")
           (VStr "TF-IDF-RF") (VDict {[ "file_path" := VStr "/data/weights.csv" ]})
           "/srv/models" "/data/weights.csv" Example.start
           eq_refl eq_refl Htype eq_refl eq_refl (or_intror eq_refl)).
Defined.

(** X17: when [global.root_path] is there but is not a string (a [None], a
    number), a configuration with class weights and a file path makes
    [setup_model] raise [TypeError] (from the path join) before any file is
    read. *)
Theorem root_path_not_a_string (w : World)
    (config path_prefix model_type class_weights_config_dict file_path : value)
    (st : pystate) :
  get_nested w config ["global"; "root_path"] (VStr "") = Ok path_prefix →
  (∀ s, path_prefix ≠ VStr s) →
  get_nested w config ["model"; "uri"] VNone = Ok VNone →
  present w config ["model"; "type"] model_type →
  present w config ["model"; "class_weights"] class_weights_config_dict →
  present w class_weights_config_dict ["file_path"] file_path →
  setup_model w config st = (Raise TypeError, st).
Proof.
  intros Hroot Hprefix Huri [Htype Hsome] [Hcw Hcwsome] [Hpath Hpathsome].
  apply (setup_model_options_raise w config path_prefix model_type TypeError st st
           Hroot Huri Htype Hsome).
  unfold setup_model_class_weights. rewrite Hcw, bind_lift_Ok.
  replace (is_none class_weights_config_dict) with false
    by (by destruct class_weights_config_dict).
  destruct (get_nested_one_key w class_weights_config_dict "file_path"
              "relative_or_absolute" VNone (VStr "absolute") _ Hpath) as [roa Hroa].
  rewrite Hroa, bind_lift_Ok, Hpath, bind_lift_Ok.
  replace (is_none file_path) with false by (by destruct file_path).
  assert (os_path_join path_prefix file_path = Raise TypeError) as ->; [| done].
  destruct path_prefix as [| | | | s | |]; first [done | by destruct (Hprefix s)].
Qed.

Lemma root_path_not_a_string_example :
  setup_model (Example.world RaiseTypeError)
              (Example.with_weights_at VNone "TF-IDF-SVM" "weights.csv") Example.start
  = (Raise TypeError, Example.start).
Proof.
  apply (root_path_not_a_string (Example.world RaiseTypeError)
           (Example.with_weights_at VNone "TF-IDF-SVM" "weights.csv")
           VNone (VStr "TF-IDF-SVM") (VDict {[ "file_path" := VStr "weights.csv" ]})
           (VStr "weights.csv") Example.start).
  - reflexivity.
  - discriminate.
  - reflexivity.
  - split; [reflexivity | discriminate].
  - split; [reflexivity | discriminate].
  - split; [reflexivity | discriminate].
Defined.

(** ** Building a model: the parameters *)

(** X18: when [model.parameters] is there but is not a mapping (a [None], a
    list), [setup_model] raises [TypeError] for the five types that expand the
    parameters into keywords: [TF-IDF-KNN], [TF-IDF-SVM], [TF-IDF-RF],
    [TextPreprocessor] and [Relabeller]. *)
Theorem parameters_not_a_mapping (w : World) (config path_prefix parameters : value)
    (tag : string) (has_class_weights : bool) (class_weights_dict : value)
    (st st' : pystate) :
  get_nested w config ["global"; "root_path"] (VStr "") = Ok path_prefix →
  get_nested w config ["model"; "uri"] VNone = Ok VNone →
  get_nested w config ["model"; "type"] VNone = Ok (VStr tag) →
  tag ∈ ["TF-IDF-KNN"; "TF-IDF-SVM"; "TF-IDF-RF"; "TextPreprocessor"; "Relabeller"] →
  get_nested w config ["model"; "parameters"] (VDict ∅) = Ok parameters →
  (∀ m, parameters ≠ VDict m) →
  setup_model_class_weights w config path_prefix st
  = (Ok (has_class_weights, class_weights_dict), st') →
  setup_model w config st = (Raise TypeError, st').
Proof.
  intros Hroot Huri Htype Htag Hparams Hnot Hweights.
  destruct (setup_model_builds w config path_prefix (VStr tag) st Hroot Huri Htype)
    as (top & m & _ & _ & _ & Hparams' & ->); [done |].
  rewrite Hparams in Hparams'. injection Hparams' as <-.
  rewrite (bind_Ok _ _ _ _ _ Hweights).
  assert (expand_kwargs parameters = Raise TypeError) as Hexpand.
  { destruct parameters as [| | | | | | p]; first [done | by destruct (Hnot p)]. }
  assert (expand_kwargs_with "probability" parameters = Raise TypeError) as Hexpand'.
  { destruct parameters as [| | | | | | p]; first [done | by destruct (Hnot p)]. }
  repeat (apply elem_of_cons in Htag as [-> | Htag]);
    [| | | | | by apply elem_of_nil in Htag];
    unfold setup_model_dispatch; simpl;
    rewrite ?Hexpand, ?Hexpand'; reflexivity.
Qed.

Lemma parameters_not_a_mapping_example :
  setup_model (Example.world RaiseTypeError) (Example.parameters_none "TF-IDF-KNN")
              Example.start
  = (Raise TypeError, Example.start).
Proof.
  apply (parameters_not_a_mapping (Example.world RaiseTypeError)
           (Example.parameters_none "TF-IDF-KNN") (VStr "") VNone "TF-IDF-KNN"
           false VNone Example.start Example.start).
  - reflexivity.
  - reflexivity.
  - reflexivity.
  - apply list_elem_of_here.
  - reflexivity.
  - discriminate.
  - reflexivity.
Defined.

(** ** The two readings agree *)

(** On a store in which the configuration is a tree of dictionaries and
    lists, the functions by reference and the functions on the tree of values
    make the same calls to the world, in the same order, and end alike. *)

Lemma stands_for_snapshot (h : list cell) (p : pyval) (v : value) :
  ByReference.stands_for h p v → ByReference.snapshot h p = v.
Proof.
  intros (n & Hn & Htree & <-). unfold ByReference.snapshot.
  destruct (tree_stable n (length h - n) h [] p Htree) as [_ Heq].
  rewrite app_nil_r in Heq. by replace (n + (length h - n))%nat with (length h) in Heq by lia.
Qed.

Lemma stands_for_none (h : list cell) : ByReference.stands_for h PNone VNone.
Proof. exists 0. repeat split. lia. Qed.

Lemma stands_for_str (h : list cell) (s : string) :
  ByReference.stands_for h (PStr s) (VStr s).
Proof. exists 0. repeat split. lia. Qed.

(** What a value that stands for a tree can be. *)
Lemma stands_for_inv (h : list cell) (p : pyval) (v : value) :
  ByReference.stands_for h p v →
  match p with
  | PNone => v = VNone
  | PBool b => v = VBool b
  | PInt z => v = VInt z
  | PFloat bits => v = VFloat bits
  | PStr s => v = VStr s
  | PRef l =>
      ∃ n : nat, (n ≤ length h)%nat
        ∧ ((∃ m, h !! l = Some (ODict m) ∧ v = VDict (ByReference.reify n h <$> m)
              ∧ map_Forall (λ _ q, ByReference.tree n h q) m)
           ∨ (∃ ps, h !! l = Some (OList ps) ∧ v = VList (ByReference.reify n h <$> ps)
                ∧ Forall (ByReference.tree n h) ps))
  end.
Proof.
  intros (n & Hn & Htree & <-). destruct p as [| | | | | l]; try by destruct n.
  destruct n as [| n]; [done |]. simpl in *. exists n. split; [lia |].
  destruct (h !! l) as [[m | ps | o] |] eqn:Hl; try done.
  - left. by exists m.
  - right. by exists ps.
Qed.

Lemma stands_for_item (n : nat) (h : list cell) (q : pyval) :
  (n ≤ length h)%nat → ByReference.tree n h q →
  ByReference.stands_for h q (ByReference.reify n h q).
Proof. intros Hn Htree. by exists n. Qed.

Lemma is_none_agree (h : list cell) (p : pyval) (v : value) :
  ByReference.stands_for h p v → ByReference.is_none p = is_none v.
Proof.
  intros Hpv. pose proof (stands_for_inv h p v Hpv) as Hinv.
  destruct p; try by subst.
  destruct Hinv as (n & _ & [(m & _ & -> & _) | (ps & _ & -> & _)]); done.
Qed.

Lemma py_eq_str_agree (h : list cell) (p : pyval) (v : value) (s : string) :
  ByReference.stands_for h p v → ByReference.py_eq_str p s = py_eq_str v s.
Proof.
  intros Hpv. pose proof (stands_for_inv h p v Hpv) as Hinv.
  destruct p; try by subst.
  destruct Hinv as (n & _ & [(m & _ & -> & _) | (ps & _ & -> & _)]); done.
Qed.

Lemma get_nested_agree (w : World) (h : list cell) (keys : list string)
    (d dflt : pyval) (v vdflt : value) :
  ByReference.stands_for h d v → ByReference.stands_for h dflt vdflt →
  ByReference.alike (ByReference.stands_for h)
    (ByReference.get_nested w h d keys dflt) (get_nested w v keys vdflt).
Proof.
  intros Hd Hdflt. revert d v Hd. induction keys as [| k ks IH]; intros d v Hd; [done |].
  pose proof (stands_for_inv h d v Hd) as Hinv.
  destruct d as [| | | | | l]; subst;
    try (unfold get_nested; simpl; by destruct (on_non_mapping w)).
  destruct Hinv as (n & Hn & [(m & Hl & -> & Hm) | (ps & Hl & -> & Hps)]).
  - rewrite get_nested_dict, lookup_fmap. simpl. rewrite Hl.
    destruct (m !! k) as [q |] eqn:Hq; simpl; [| done].
    apply IH, stands_for_item; [done | by apply (Hm k)].
  - unfold get_nested. simpl. rewrite Hl. by destruct (on_non_mapping w).
Qed.

Lemma py_getitem_agree (h : list cell) (p : pyval) (v : value) (key : string) :
  ByReference.stands_for h p v →
  ByReference.alike (ByReference.stands_for h)
    (ByReference.py_getitem h p key) (py_getitem v key).
Proof.
  intros Hpv. pose proof (stands_for_inv h p v Hpv) as Hinv.
  destruct p as [| | | | | l]; subst; try done.
  destruct Hinv as (n & Hn & [(m & Hl & -> & Hm) | (ps & Hl & -> & Hps)]);
    simpl; rewrite Hl; [| done].
  rewrite lookup_fmap. destruct (m !! key) as [q |] eqn:Hq; simpl; [| done].
  apply stands_for_item; [done | by apply (Hm key)].
Qed.

Lemma chars_agree (h : list cell) (s : string) :
  Forall2 (ByReference.stands_for h) (ByReference.chars s) (chars s).
Proof.
  induction s as [| c s IH]; simpl; constructor; [apply stands_for_str | done].
Qed.

Lemma py_iter_agree (w : World) (h : list cell) (p : pyval) (v : value) :
  ByReference.stands_for h p v →
  ByReference.alike (Forall2 (ByReference.stands_for h))
    (ByReference.py_iter w h p) (py_iter w v).
Proof.
  intros Hpv. pose proof (stands_for_inv h p v Hpv) as Hinv.
  destruct p as [| | | | s | l]; subst; try done.
  - apply chars_agree.
  - destruct Hinv as (n & Hn & [(m & Hl & -> & Hm) | (ps & Hl & -> & Hps)]);
      simpl; rewrite Hl; simpl.
    + unfold keywords_of. rewrite dom_fmap_L.
      apply Forall2_fmap, Forall_Forall2_diag, Forall_forall.
      intros key _. apply stands_for_str.
    + apply Forall2_fmap_r, Forall_Forall2_diag.
      eapply Forall_impl; [exact Hps |]. intros q Hq. by apply stands_for_item.
Qed.

Lemma expand_kwargs_agree (h : list cell) (p : pyval) (v : value) :
  ByReference.stands_for h p v → ByReference.expand_kwargs h p = expand_kwargs v.
Proof.
  intros Hpv. pose proof (stands_for_inv h p v Hpv) as Hinv.
  destruct p as [| | | | | l]; subst; try done.
  destruct Hinv as (n & Hn & [(m & Hl & -> & Hm) | (ps & Hl & -> & Hps)]);
    simpl; rewrite Hl; [| done].
  f_equal. apply map_fmap_ext. intros key q Hq.
  apply stands_for_snapshot, stands_for_item; [done | by apply (Hm key)].
Qed.

Lemma expand_kwargs_with_agree (h : list cell) (p : pyval) (v : value) (name : string) :
  ByReference.stands_for h p v →
  ByReference.expand_kwargs_with name h p = expand_kwargs_with name v.
Proof.
  intros Hpv. unfold ByReference.expand_kwargs_with.
  rewrite (expand_kwargs_agree h p v Hpv). by destruct v.
Qed.

Lemma os_path_join_agree (h : list cell) (a b : pyval) (va vb : value) :
  ByReference.stands_for h a va → ByReference.stands_for h b vb →
  ByReference.os_path_join a b = os_path_join va vb.
Proof.
  intros Ha Hb.
  pose proof (stands_for_inv h a va Ha) as Hinva.
  pose proof (stands_for_inv h b vb Hb) as Hinvb.
  destruct a as [| | | | sa | la]; subst; try done.
  - destruct b as [| | | | sb | lb]; subst; try done.
    destruct Hinvb as (n & _ & [(m & _ & -> & _) | (ps & _ & -> & _)]); done.
  - destruct Hinva as (n & _ & [(m & _ & -> & _) | (ps & _ & -> & _)]); done.
Qed.

Lemma format_field_agree (w : World) (h : list cell) (p : pyval) (v : value) :
  ByReference.stands_for h p v → ByReference.format_field w h p = format_field w v.
Proof.
  intros Hpv. pose proof (stands_for_snapshot h p v Hpv) as Hsnap.
  pose proof (stands_for_inv h p v Hpv) as Hinv.
  destruct p as [| | | | | l]; simpl; rewrite ?Hsnap; try by rewrite Hinv.
  destruct Hinv as (n & _ & [(m & _ & Hv & _) | (ps & _ & Hv & _)]); by rewrite Hv.
Qed.

(** *** Steps of two runs side by side *)

Lemma alike_eq {A : Type} (o : outcome A) : ByReference.alike eq o o.
Proof. by destruct o. Qed.

Lemma agree_raise {A B : Type} (R : list cell → A → B → Prop) (e : exn)
    (st1 st2 : pystate) :
  ByReference.agree R (raise e) (raise e) st1 st2.
Proof. by intros Htrace. Qed.

Lemma agree_ret {A B : Type} (R : list cell → A → B → Prop) (a : A) (b : B)
    (st1 st2 : pystate) :
  R (objects st1) a b → ByReference.agree R (mret a) (mret b) st1 st2.
Proof. by intros HR Htrace. Qed.

(** A look-up in the store beside the look-up in the tree. *)
Lemma agree_reading_lift {A B C D : Type} (R : A → B → Prop)
    (R' : list cell → C → D → Prop) (f : list cell → outcome A) (o : outcome B)
    (k1 : A → M C) (k2 : B → M D) (st1 st2 : pystate) :
  ByReference.alike R (f (objects st1)) o →
  (∀ a b, R a b → ByReference.agree R' (k1 a) (k2 b) st1 st2) →
  ByReference.agree R' (ByReference.reading f ≫= k1) (lift o ≫= k2) st1 st2.
Proof.
  intros Halike Hk Htrace. unfold mbind, M_bind, ByReference.reading, lift.
  destruct (f (objects st1)) as [a | e1], o as [b | e2]; simpl in *; try done.
  by apply Hk.
Qed.

(** A step that reads the store and has no counterpart on the tree. *)
Lemma agree_reading_left {A C D : Type} (R' : list cell → C → D → Prop)
    (f : list cell → outcome A) (a : A) (k1 : A → M C) (m2 : M D)
    (st1 st2 : pystate) :
  f (objects st1) = Ok a →
  ByReference.agree R' (k1 a) m2 st1 st2 →
  ByReference.agree R' (ByReference.reading f ≫= k1) m2 st1 st2.
Proof.
  intros Hf Hk Htrace. unfold mbind, M_bind, ByReference.reading. rewrite Hf.
  by apply Hk.
Qed.

Lemma agree_snap {C D : Type} (R' : list cell → C → D → Prop) (p : pyval)
    (k1 : value → M C) (m2 : M D) (st1 st2 : pystate) :
  ByReference.agree R' (k1 (ByReference.snapshot (objects st1) p)) m2 st1 st2 →
  ByReference.agree R' (ByReference.snap p ≫= k1) m2 st1 st2.
Proof. intros Hk. by apply agree_reading_left with (ByReference.snapshot (objects st1) p). Qed.

Lemma agree_lift_lift {A C D : Type} (R' : list cell → C → D → Prop) (o : outcome A)
    (k1 : A → M C) (k2 : A → M D) (st1 st2 : pystate) :
  (∀ a, ByReference.agree R' (k1 a) (k2 a) st1 st2) →
  ByReference.agree R' (lift o ≫= k1) (lift o ≫= k2) st1 st2.
Proof.
  intros Hk Htrace. unfold mbind, M_bind, lift.
  destruct o as [a | e]; simpl; [by apply Hk | done].
Qed.

Lemma agree_external {A C D : Type} (R' : list cell → C → D → Prop) (ev : event)
    (answer : outcome A) (k1 : A → M C) (k2 : A → M D) (st1 st2 : pystate) :
  (∀ a, ByReference.agree R' (k1 a) (k2 a) (logged st1 [ev]) (logged st2 [ev])) →
  ByReference.agree R' (external ev answer ≫= k1) (external ev answer ≫= k2) st1 st2.
Proof.
  intros Hk Htrace. rewrite !bind_external.
  destruct answer as [a | e]; simpl.
  - apply Hk. simpl. by rewrite Htrace.
  - by rewrite Htrace.
Qed.

(** A new object has no counterpart on the tree. *)
Lemma agree_new {C D : Type} (R' : list cell → C → D → Prop) (c : cell)
    (k1 : pyval → M C) (m2 : M D) (st1 st2 : pystate) :
  ByReference.agree R' (k1 (PRef (length (objects st1)))) m2
    {| objects := objects st1 ++ [c]; trace := trace st1 |} st2 →
  ByReference.agree R' (ByReference.new c ≫= k1) m2 st1 st2.
Proof. intros Hk Htrace. by apply Hk. Qed.

(** The instance made at the end of a run is the object the run on the tree
    returns. *)
Lemma agree_new_instance (o : pyobj) (st1 st2 : pystate) :
  ByReference.agree ByReference.refers_to (ByReference.new (OInstance o)) (mret o) st1 st2.
Proof.
  intros Htrace. split; [done |]. simpl.
  exists (length (objects st1)). split; [done |]. by apply list_lookup_middle.
Qed.

Lemma agree_lift_new_instance (o : outcome pyobj) (st1 st2 : pystate) :
  ByReference.agree ByReference.refers_to
    (lift o ≫= λ estimator, ByReference.new (OInstance estimator)) (lift o) st1 st2.
Proof.
  intros Htrace. destruct o as [est | e]; [| done].
  rewrite bind_lift_Ok. by apply (agree_new_instance est st1 st2).
Qed.

(** The model whose class weights are set in place, beside the model built
    with them. *)
Lemma agree_set_class_weights (o : pyobj) (has_class_weights : bool)
    (class_weights_dict : value) (st1 st2 : pystate) :
  ByReference.agree ByReference.refers_to
    (model ← ByReference.new (OInstance o);
     _ ← (if has_class_weights
          then ByReference.set_class_weights model class_weights_dict
          else mret ());
     mret model)
    (mret (if has_class_weights then set_class_weights o class_weights_dict else o))
    st1 st2.
Proof.
  intros Htrace. unfold mbind, M_bind, ByReference.new. simpl.
  destruct has_class_weights; simpl.
  - rewrite list_lookup_middle by done. simpl. split; [done |].
    exists (length (objects st1)). split; [done |].
    apply list_lookup_insert_eq. rewrite length_app. simpl. lia.
  - split; [done |]. exists (length (objects st1)). split; [done |].
    by apply list_lookup_middle.
Qed.

(** Composing two runs the first of which leaves the store as it is. *)
Lemma agree_bind_same {A C D : Type} (R' : list cell → C → D → Prop)
    (m1 m2 : M A) (k1 : A → M C) (k2 : A → M D) (st1 st2 : pystate) :
  ByReference.agree (λ _, eq) m1 m2 st1 st2 →
  objects (m1 st1).2 = objects st1 →
  (∀ a st1' st2', objects st1' = objects st1 →
                  ByReference.agree R' (k1 a) (k2 a) st1' st2') →
  ByReference.agree R' (m1 ≫= k1) (m2 ≫= k2) st1 st2.
Proof.
  intros Hm Hsame Hk Htrace. destruct (Hm Htrace) as [Htrace' Halike].
  unfold mbind, M_bind.
  destruct (m1 st1) as [[a | e1] st1'], (m2 st2) as [[b | e2] st2']; simpl in *; try done.
  subst b. by apply Hk.
Qed.

(** *** The functions *)

(** [load_model], by reference and on the tree: the same call to the
    registry, and the new instance is the estimator returned. *)
Lemma load_model_agree (w : World) (config : pyval) (cfg : value) (st1 st2 : pystate) :
  ByReference.stands_for (objects st1) config cfg →
  ByReference.agree ByReference.refers_to
    (ByReference.load_model w config) (load_model w cfg) st1 st2.
Proof.
  intros Hconfig. unfold ByReference.load_model, load_model.
  apply (agree_reading_lift (ByReference.stands_for (objects st1))).
  { apply get_nested_agree; [done | apply stands_for_none]. }
  intros model_uri uri Huri. rewrite (is_none_agree _ _ _ Huri).
  destruct (is_none uri); [apply agree_raise |].
  apply agree_snap. rewrite (stands_for_snapshot _ _ _ Huri).
  apply agree_external. intros pyfunc_model. apply agree_lift_new_instance.
Qed.

Lemma load_model_info_agree (w : World) (config : pyval) (cfg : value)
    (st1 st2 : pystate) :
  ByReference.stands_for (objects st1) config cfg →
  ByReference.agree (λ _, eq)
    (ByReference.load_model_info w config) (load_model_info w cfg) st1 st2.
Proof.
  intros Hconfig. unfold ByReference.load_model_info, load_model_info.
  apply (agree_reading_lift (ByReference.stands_for (objects st1))).
  { apply get_nested_agree; [done | apply stands_for_none]. }
  intros model_uri uri Huri. rewrite (is_none_agree _ _ _ Huri).
  destruct (is_none uri); [apply agree_raise |].
  apply agree_snap. rewrite (stands_for_snapshot _ _ _ Huri).
  intros Htrace. rewrite !external_run. simpl. rewrite Htrace.
  split; [done | apply alike_eq].
Qed.

Lemma model_uri_to_version_agree (w : World) (model_uri : pyval) (uri : value)
    (st1 st2 : pystate) :
  ByReference.stands_for (objects st1) model_uri uri →
  ByReference.agree (λ _, eq)
    (ByReference.model_uri_to_version w model_uri) (model_uri_to_version w uri) st1 st2.
Proof.
  intros Huri. unfold ByReference.model_uri_to_version, model_uri_to_version.
  apply agree_snap. rewrite (stands_for_snapshot _ _ _ Huri).
  apply agree_external. intros model_info. by apply agree_ret.
Qed.

Lemma class_weights_options_agree (w : World) (config path_prefix : pyval)
    (cfg prefix : value) (st1 st2 : pystate) :
  ByReference.stands_for (objects st1) config cfg →
  ByReference.stands_for (objects st1) path_prefix prefix →
  ByReference.agree (λ _, eq)
    (ByReference.setup_model_class_weights w config path_prefix)
    (setup_model_class_weights w cfg prefix) st1 st2.
Proof.
  intros Hconfig Hprefix.
  unfold ByReference.setup_model_class_weights, setup_model_class_weights.
  apply (agree_reading_lift (ByReference.stands_for (objects st1))).
  { apply get_nested_agree; [done | apply stands_for_none]. }
  intros cwc vcwc Hcwc. rewrite (is_none_agree _ _ _ Hcwc).
  destruct (is_none vcwc); [by apply agree_ret |].
  apply (agree_reading_lift (ByReference.stands_for (objects st1))).
  { apply get_nested_agree; [done | apply stands_for_str]. }
  intros roa vroa _.
  apply (agree_reading_lift (ByReference.stands_for (objects st1))).
  { apply get_nested_agree; [done | apply stands_for_none]. }
  intros fp vfp Hfp. rewrite (is_none_agree _ _ _ Hfp).
  destruct (is_none vfp); [apply agree_raise |].
  rewrite (os_path_join_agree _ _ _ _ _ Hprefix Hfp).
  apply agree_lift_lift. intros path.
  apply agree_external. intros class_weights_dict. by apply agree_ret.
Qed.

Lemma class_weights_options_objects (w : World) (config path_prefix : pyval)
    (st : pystate) :
  objects (ByReference.setup_model_class_weights w config path_prefix st).2 = objects st.
Proof.
  unfold ByReference.setup_model_class_weights, ByReference.reading.
  unfold mbind, M_bind, lift, raise, mret, M_ret. simpl.
  repeat match goal with
    | |- context [match ?o with Ok _ => _ | Raise _ => _ end] => destruct o; simpl
    | |- context [if ?b then _ else _] => destruct b; simpl
    end; done.
Qed.

Lemma agree_external_last {A : Type} (ev : event) (answer : outcome A)
    (st1 st2 : pystate) :
  ByReference.agree (λ _, eq) (external ev answer) (external ev answer) st1 st2.
Proof.
  intros Htrace. rewrite !external_run. simpl. rewrite Htrace.
  split; [done | apply alike_eq].
Qed.

Lemma xgboost_agree (w : World) (config path_prefix model_name parameters : pyval)
    (cfg prefix name params class_weights_dict : value) (st1 st2 : pystate) :
  ByReference.stands_for (objects st1) config cfg →
  ByReference.stands_for (objects st1) path_prefix prefix →
  ByReference.stands_for (objects st1) model_name name →
  ByReference.stands_for (objects st1) parameters params →
  ByReference.agree ByReference.refers_to
    (ByReference.setup_model_xgboost w config path_prefix model_name parameters
       class_weights_dict)
    (setup_model_xgboost w cfg prefix name params class_weights_dict) st1 st2.
Proof.
  intros Hconfig Hprefix Hname Hparams.
  unfold ByReference.setup_model_xgboost, setup_model_xgboost.
  apply (agree_reading_lift (ByReference.stands_for (objects st1))).
  { apply get_nested_agree; [done | apply stands_for_none]. }
  intros cmf vcmf Hcmf. rewrite (is_none_agree _ _ _ Hcmf).
  rewrite (os_path_join_agree _ _ _ _ _ Hprefix Hcmf).
  apply agree_bind_same.
  - destruct (is_none vcmf); [by apply agree_ret |].
    apply agree_lift_lift. intros path. apply agree_external_last.
  - destruct (is_none vcmf); [done |].
    destruct (os_path_join prefix vcmf) as [path | e]; [| done].
    by rewrite bind_lift_Ok, external_run.
  - intros cost_matrix st1' st2' Hsame.
    apply agree_snap. rewrite Hsame, (stands_for_snapshot _ _ _ Hname).
    apply agree_snap. rewrite Hsame, (stands_for_snapshot _ _ _ Hparams).
    apply agree_new_instance.
Qed.

Lemma dispatch_agree (w : World)
    (config path_prefix model_type model_name parameters : pyval)
    (cfg prefix type name params : value)
    (has_class_weights : bool) (class_weights_dict : value) (st1 st2 : pystate) :
  ByReference.stands_for (objects st1) config cfg →
  ByReference.stands_for (objects st1) path_prefix prefix →
  ByReference.stands_for (objects st1) model_type type →
  ByReference.stands_for (objects st1) model_name name →
  ByReference.stands_for (objects st1) parameters params →
  ByReference.agree ByReference.refers_to
    (ByReference.setup_model_dispatch w config path_prefix model_type model_name
       parameters has_class_weights class_weights_dict)
    (setup_model_dispatch w cfg prefix type name params
       has_class_weights class_weights_dict) st1 st2.
Proof.
  intros Hconfig Hprefix Htype Hname Hparams.
  unfold ByReference.setup_model_dispatch, setup_model_dispatch.
  rewrite !(py_eq_str_agree _ _ _ _ Htype).
  assert (ByReference.alike eq (ByReference.expand_kwargs (objects st1) parameters)
            (expand_kwargs params)) as Hexpand.
  { rewrite (expand_kwargs_agree _ _ _ Hparams). apply alike_eq. }
  destruct (py_eq_str type "TF-IDF-KNN").
  { apply (agree_reading_lift eq); [done |]. intros kwargs ? <-.
    apply agree_lift_lift. intros baseline_classifier.
    apply agree_snap. rewrite (stands_for_snapshot _ _ _ Hname).
    apply agree_new_instance. }
  destruct (py_eq_str type "TF-IDF-SVM").
  { apply (agree_reading_lift eq).
    { rewrite (expand_kwargs_with_agree _ _ _ _ Hparams). apply alike_eq. }
    intros kwargs ? <-. apply agree_lift_lift. intros baseline_classifier.
    apply agree_snap. rewrite (stands_for_snapshot _ _ _ Hname).
    apply agree_set_class_weights. }
  destruct (py_eq_str type "TF-IDF-RF").
  { apply (agree_reading_lift eq); [done |]. intros kwargs ? <-.
    apply agree_lift_lift. intros baseline_classifier.
    apply agree_snap. rewrite (stands_for_snapshot _ _ _ Hname).
    apply agree_set_class_weights. }
  destruct (py_eq_str type "TF-IDF-XGBoost"); [by apply xgboost_agree |].
  destruct (py_eq_str type "TextPreprocessor").
  { apply (agree_reading_lift eq); [done |]. intros kwargs ? <-.
    apply (agree_reading_lift (ByReference.stands_for (objects st1)));
      [by apply py_getitem_agree |].
    intros config_model vmodel Hmodel.
    apply (agree_reading_lift (ByReference.stands_for (objects st1)));
      [by apply py_getitem_agree |].
    intros config_model_parameters vparameters Hparameters.
    apply (agree_reading_lift (ByReference.stands_for (objects st1)));
      [by apply py_getitem_agree |].
    intros preprocess_stack vstack Hstack.
    apply agree_new.
    apply (agree_reading_left _ _ {[ "preprocess_stack" := vstack ]}).
    { simpl. rewrite list_lookup_middle by done.
      rewrite map_fmap_singleton. do 2 f_equal.
      apply stands_for_snapshot. by apply stands_for_app. }
    apply agree_new_instance. }
  destruct (py_eq_str type "Relabeller").
  { apply (agree_reading_lift eq); [done |]. intros kwargs ? <-.
    apply agree_new_instance. }
  apply (agree_reading_left _ _ (format_field w type)).
  { by rewrite (format_field_agree _ _ _ _ Htype). }
  apply agree_raise.
Qed.

(** The dictionary made for a literal [{key: p}] stands for the tree
    [{key: v}], and the one made for [{}] for the empty tree. *)
Lemma stands_for_new_singleton (h : list cell) (key : string) (p : pyval) (v : value) :
  ByReference.stands_for h p v →
  ByReference.stands_for (h ++ [ODict {[ key := p ]}]) (PRef (length h))
    (VDict {[ key := v ]}).
Proof.
  intros (n & Hn & Htree & <-). exists (S n).
  destruct (tree_stable n 0 h [ODict {[ key := p ]}] p Htree) as [Htree' Heq].
  rewrite Nat.add_0_r in Htree', Heq.
  split; [rewrite length_app; simpl; lia |]. simpl.
  rewrite list_lookup_middle by done. split.
  - by apply map_Forall_singleton.
  - by rewrite map_fmap_singleton, Heq.
Qed.

Lemma stands_for_new_empty (h : list cell) :
  ByReference.stands_for (h ++ [ODict ∅]) (PRef (length h)) (VDict ∅).
Proof.
  exists 1. split; [rewrite length_app; simpl; lia |]. simpl.
  rewrite list_lookup_middle by done. split.
  - apply map_Forall_empty.
  - by rewrite fmap_empty.
Qed.

(** [setup_model], by reference and on the tree: the same reads of files and
    of the registry in the same order, the same exception or, at the
    reference returned, the instance that the run on the tree returns. *)
Lemma setup_model_agree (w : World) (config : pyval) (cfg : value) (st1 st2 : pystate) :
  ByReference.stands_for (objects st1) config cfg →
  ByReference.agree ByReference.refers_to
    (ByReference.setup_model w config) (setup_model w cfg) st1 st2.
Proof.
  intros Hconfig. unfold ByReference.setup_model, setup_model.
  apply (agree_reading_lift (ByReference.stands_for (objects st1))).
  { apply get_nested_agree; [done | apply stands_for_str]. }
  intros path_prefix prefix Hprefix.
  apply (agree_reading_lift (ByReference.stands_for (objects st1))).
  { apply get_nested_agree; [done | apply stands_for_none]. }
  intros model_uri uri Huri. rewrite (is_none_agree _ _ _ Huri).
  destruct (is_none uri); simpl negb; cbv iota; [| by apply load_model_agree].
  apply (agree_reading_lift (ByReference.stands_for (objects st1))).
  { apply get_nested_agree; [done | apply stands_for_none]. }
  intros model_type type Htype. rewrite (is_none_agree _ _ _ Htype).
  destruct (is_none type); [apply agree_raise |].
  apply (agree_reading_lift (ByReference.stands_for (objects st1))).
  { apply get_nested_agree; [done | apply stands_for_none]. }
  intros model_name name Hname.
  apply agree_new.
  set (st1' := {| objects := objects st1 ++ [ODict ∅]; trace := trace st1 |}).
  apply (agree_reading_lift (ByReference.stands_for (objects st1'))).
  { apply get_nested_agree; [by apply stands_for_app | apply stands_for_new_empty]. }
  intros parameters params Hparams.
  apply agree_bind_same.
  - apply class_weights_options_agree; by apply stands_for_app.
  - apply class_weights_options_objects.
  - intros [has_class_weights class_weights_dict] st1'' st2'' Hsame.
    apply dispatch_agree; rewrite Hsame; try done; by apply stands_for_app.
Qed.

(** *** The lists *)

Lemma refers_to_prefix (h h' : list cell) (p : pyval) (o : pyobj) :
  h `prefix_of` h' → ByReference.refers_to h p o → ByReference.refers_to h' p o.
Proof.
  intros [k ->] (l & -> & Hl). exists l. split; [done |].
  by apply lookup_app_l_Some.
Qed.

(** Composing two runs that agree. *)
Lemma agree_bind {A B C D : Type} (R : list cell → A → B → Prop)
    (R' : list cell → C → D → Prop)
    (m1 : M A) (m2 : M B) (k1 : A → M C) (k2 : B → M D) (st1 st2 : pystate) :
  ByReference.agree R m1 m2 st1 st2 →
  (∀ a b, R (objects (m1 st1).2) a b →
          ByReference.agree R' (k1 a) (k2 b) (m1 st1).2 (m2 st2).2) →
  ByReference.agree R' (m1 ≫= k1) (m2 ≫= k2) st1 st2.
Proof.
  intros Hm Hk Htrace. destruct (Hm Htrace) as [Htrace' Halike].
  unfold mbind, M_bind.
  destruct (m1 st1) as [[a | e1] st1'], (m2 st2) as [[b | e2] st2']; simpl in *; try done.
  by apply Hk.
Qed.

Lemma agree_mapM {C D : Type} (R : list cell → C → D → Prop)
    (f1 : pyval → M C) (f2 : value → M D) :
  (∀ h h' c d, h `prefix_of` h' → R h c d → R h' c d) →
  (∀ n p st, ByReference.keeps n (f1 p) st) →
  (∀ p v st1 st2, ByReference.stands_for (objects st1) p v →
                  ByReference.agree R (f1 p) (f2 v) st1 st2) →
  ∀ ps vs st1 st2,
    Forall2 (ByReference.stands_for (objects st1)) ps vs →
    ByReference.agree (λ h, Forall2 (R h)) (mapM f1 ps) (mapM f2 vs) st1 st2.
Proof.
  intros Hmono Hkeeps Hf ps.
  induction ps as [| p ps IH]; intros vs st1 st2 Hall.
  - apply Forall2_nil_inv_l in Hall as ->. by apply agree_ret.
  - apply Forall2_cons_inv_l in Hall as (v & vs' & Hpv & Hall & ->).
    rewrite !mapM_cons. apply (agree_bind R); [by apply Hf |].
    intros c d Hcd. apply (agree_bind (λ h, Forall2 (R h))).
    + apply IH. eapply Forall2_impl; [exact Hall |]. intros q u.
      apply stands_for_prefix, keeps_prefix, Hkeeps.
    + intros cs ds Hcsds. apply agree_ret. constructor; [| done].
      revert Hcd. apply Hmono, keeps_prefix.
      apply keeps_mapM. intros q st'. apply Hkeeps.
Qed.

(** The configuration made for one item of the list. *)
Lemma agree_uri_config {C D : Type} (R' : list cell → C → D → Prop) (p : pyval)
    (k1 : pyval → M C) (m2 : M D) (st1 st2 : pystate) :
  ByReference.agree R' (k1 (PRef (length (objects st1 ++ [ODict {[ "uri" := p ]}])))) m2
    {| objects := (objects st1 ++ [ODict {[ "uri" := p ]}])
                  ++ [ODict {[ "model" := PRef (length (objects st1)) ]}];
       trace := trace st1 |} st2 →
  ByReference.agree R' (ByReference.uri_config p ≫= k1) m2 st1 st2.
Proof. intros Hk Htrace. by apply Hk. Qed.

Lemma stands_for_uri_config (h : list cell) (p : pyval) (v : value) :
  ByReference.stands_for h p v →
  ByReference.stands_for
    ((h ++ [ODict {[ "uri" := p ]}]) ++ [ODict {[ "model" := PRef (length h) ]}])
    (PRef (length (h ++ [ODict {[ "uri" := p ]}]))) (uri_config v).
Proof. intros Hpv. by apply stands_for_new_singleton, stands_for_new_singleton. Qed.

(** [load_model_list], by reference and on the tree: the same calls to the
    registry in the same order, and the references returned are to the
    estimators that the run on the tree returns, item by item. *)
Lemma load_model_list_agree (w : World) (config : pyval) (cfg : value)
    (st1 st2 : pystate) :
  ByReference.stands_for (objects st1) config cfg →
  ByReference.agree (λ h, Forall2 (ByReference.refers_to h))
    (ByReference.load_model_list w config) (load_model_list w cfg) st1 st2.
Proof.
  intros Hconfig. unfold ByReference.load_model_list, load_model_list.
  apply (agree_reading_lift (ByReference.stands_for (objects st1)));
    [by apply py_getitem_agree |].
  intros model_list vlist Hlist.
  apply (agree_reading_lift (Forall2 (ByReference.stands_for (objects st1))));
    [by apply py_iter_agree |].
  intros model_uris uris Huris.
  apply (agree_mapM ByReference.refers_to); try done.
  - intros h h' p o. apply refers_to_prefix.
  - intros n p st. apply keeps_bind; [apply keeps_uri_config |].
    intros fresh st' _ _. apply keeps_load_model.
  - intros p v st1' st2' Hpv. apply agree_uri_config, load_model_agree.
    by apply stands_for_uri_config.
Qed.

Lemma load_model_info_list_agree (w : World) (config : pyval) (cfg : value)
    (st1 st2 : pystate) :
  ByReference.stands_for (objects st1) config cfg →
  ByReference.agree (λ _, Forall2 eq)
    (ByReference.load_model_info_list w config) (load_model_info_list w cfg) st1 st2.
Proof.
  intros Hconfig. unfold ByReference.load_model_info_list, load_model_info_list.
  apply (agree_reading_lift (ByReference.stands_for (objects st1)));
    [by apply py_getitem_agree |].
  intros model_list vlist Hlist.
  apply (agree_reading_lift (Forall2 (ByReference.stands_for (objects st1))));
    [by apply py_iter_agree |].
  intros model_uris uris Huris.
  apply (agree_mapM (λ _, eq)); try done.
  - intros n p st. apply keeps_bind; [apply keeps_uri_config |].
    intros fresh st' _ _. apply keeps_load_model_info.
  - intros p v st1' st2' Hpv. apply agree_uri_config, load_model_info_agree.
    by apply stands_for_uri_config.
Qed.
